(** * WMS: SKU resolution, combo expansion and inventory reconciliation

    A shallow embedding of the resolution and reconciliation code of the
    warehouse tool:

    - [WMSProcessor]      : [wms_web_app.py], class [WMSProcessor];
    - [SKUMapperGUI]      : [sku_msku_gui_mapper.py], class [SKUMapperGUI];
    - [DatabaseService]   : [database/service.py], class [DatabaseService],
                            over the tables of [database/models.py].

    pandas objects are modelled by what the code observes of them: a cell
    is a missing value, a string or a number; a [Series] is an ordered
    list of labelled cells; a [DataFrame] is its column labels and its
    rows.  Python dictionaries are insertion-ordered association lists,
    because the order of [dict.items()] decides the order of the updates
    and of the warnings.  Quantities are whole numbers: the cells of an
    integer column are numpy [int64] scalars, so a number is a [Z] and
    the arithmetic on cells is that of [int64], with its wrap-around
    written out.  A frame that also has text columns hands its rows over
    as Python [int]s, which do not wrap, and a column with missing cells
    is a [float64] column; the three agree on the whole numbers up to
    2^53 in absolute value ([exact]), and the statements about computed
    quantities are made within that range.  A missing number is [NaN] and
    propagates through arithmetic as it does in pandas. *)

From Stdlib Require Import ZArith String Ascii Bool Lia.
From stdpp Require Import base tactics option list strings.

Local Open Scope string_scope.
Local Open Scope list_scope.

(** ** Python values and exceptions *)

Module Py.

(** A cell of a DataFrame. *)
Inductive cell : Type :=
| NaN
| Str (s : string)
| Num (z : Z).

#[global] Instance cell_eq_dec : EqDecision cell.
Proof. solve_decision. Defined.

(** The exceptions the modelled code can raise. *)
Inductive exn : Type := KeyError | TypeError.

#[global] Instance exn_eq_dec : EqDecision exn.
Proof. solve_decision. Defined.

(** A computation that returns or raises. *)
Inductive res (A : Type) : Type :=
| Ok (a : A)
| Raise (e : exn).
#[global] Arguments Ok {A} a.
#[global] Arguments Raise {A} e.

#[global] Instance res_ret : MRet res := fun _ a => Ok a.
#[global] Instance res_bind : MBind res := fun _ _ f m =>
  match m with
  | Ok a => f a
  | Raise e => Raise e
  end.

(** [pd.isna] and [pd.notna] on a scalar. *)
Definition isna (c : cell) : bool :=
  match c with NaN => true | _ => false end.

Definition notna (c : cell) : bool := negb (isna c).

(** Elementwise [==] of pandas: a missing value equals nothing, not even
    itself; a string never equals a number. *)
Definition pd_eq (a b : cell) : bool :=
  match a, b with
  | Str s, Str t => bool_decide (s = t)
  | Num x, Num y => bool_decide (x = y)
  | _, _ => false
  end.

(** [x <= k] and [x < k] for a number [k]: comparing a string with a
    number raises [TypeError], comparing [NaN] is false. *)
Definition le (x : cell) (k : Z) : res bool :=
  match x with
  | Num z => Ok (z <=? k)%Z
  | NaN => Ok false
  | Str _ => Raise TypeError
  end.

Definition lt (x : cell) (k : Z) : res bool :=
  match x with
  | Num z => Ok (z <? k)%Z
  | NaN => Ok false
  | Str _ => Raise TypeError
  end.

(** The value of a whole number as a numpy [int64]: two's complement
    wrap-around into [-2^63, 2^63). *)
Definition int64 (z : Z) : Z := ((z + 2 ^ 63) mod 2 ^ 64 - 2 ^ 63)%Z.

(** The whole numbers that [int64], Python [int] and [float64] all hold
    exactly. *)
Definition exact (z : Z) : Prop := (- 2 ^ 53 <= z <= 2 ^ 53)%Z.

(** [a + b] and [a - b] on cells: [int64] arithmetic on numbers. *)
Definition add (a b : cell) : res cell :=
  match a, b with
  | Num x, Num y => Ok (Num (int64 (x + y)))
  | Num _, NaN | NaN, Num _ | NaN, NaN => Ok NaN
  | Str s, Str t => Ok (Str (s +:+ t))
  | _, _ => Raise TypeError
  end.

Definition sub (a b : cell) : res cell :=
  match a, b with
  | Num x, Num y => Ok (Num (int64 (x - y)))
  | Num _, NaN | NaN, Num _ | NaN, NaN => Ok NaN
  | _, _ => Raise TypeError
  end.

(** [o != s] where [o] is the result of [row.get(label)] ([None] when the
    label is absent) and [s] a string literal. *)
Definition ne_str (o : option cell) (s : string) : bool :=
  match o with
  | Some (Str t) => negb (bool_decide (t = s))
  | _ => true
  end.

(** *** Strings

    [str.upper] and [str.lower] on ASCII letters, which is what the header
    tokens compared against are made of. *)

Definition upper_ascii (c : ascii) : ascii :=
  let n := N_of_ascii c in
  if ((97 <=? n) && (n <=? 122))%N then ascii_of_N (n - 32) else c.

Definition lower_ascii (c : ascii) : ascii :=
  let n := N_of_ascii c in
  if ((65 <=? n) && (n <=? 90))%N then ascii_of_N (n + 32) else c.

Fixpoint upper (s : string) : string :=
  match s with
  | EmptyString => EmptyString
  | String c s' => String (upper_ascii c) (upper s')
  end.

Fixpoint lower (s : string) : string :=
  match s with
  | EmptyString => EmptyString
  | String c s' => String (lower_ascii c) (lower s')
  end.

(** [needle in hay] on strings. *)
Fixpoint contains (needle hay : string) : bool :=
  if String.prefix needle hay then true
  else match hay with
       | EmptyString => false
       | String _ hay' => contains needle hay'
       end.

(** [' '.join(columns)]. *)
Definition join_space (l : list string) : string := String.concat " " l.

(** *** Ordered association lists *)

Section assoc.
Context {K V : Type} `{EqDecision K}.

(** [d.get(k)] / [k in d]: the first entry with that key. *)
Fixpoint assoc_get (k : K) (d : list (K * V)) : option V :=
  match d with
  | [] => None
  | (k', v) :: d' => if decide (k' = k) then Some v else assoc_get k d'
  end.

(** [d[k] = v]: an existing key keeps its place, a new key goes last. *)
Fixpoint assoc_set (k : K) (v : V) (d : list (K * V)) : list (K * V) :=
  match d with
  | [] => [(k, v)]
  | (k', v') :: d' =>
      if decide (k' = k) then (k', v) :: d' else (k', v') :: assoc_set k v d'
  end.

Definition assoc_mem (k : K) (d : list (K * V)) : bool :=
  match assoc_get k d with Some _ => true | None => false end.
End assoc.

(** A Python [dict] keyed by cell values.  Key lookup is by hash and
    equality of the stored objects, which on strings and numbers is
    structural equality.  A missing value is no key like the others: a
    [nan] equals nothing, itself included, so a [nan] read afresh from a
    numeric column is never found again and each one makes an entry of
    its own (see [dict_incr]). *)
Definition dict (V : Type) : Type := list (cell * V).

(** A pandas [Series]: labels and values in index order. *)
Definition Series : Type := list (string * cell).

(** [row.get(label)], [None] when the label is absent. *)
Definition series_get (label : string) (row : Series) : option cell :=
  assoc_get label row.

(** [row.get(label, dflt)]. *)
Definition series_get_default (label : string) (dflt : cell) (row : Series) : cell :=
  default dflt (series_get label row).

(** [row[label]]: raises [KeyError] when the label is absent. *)
Definition series_getitem (label : string) (row : Series) : res cell :=
  match series_get label row with
  | Some c => Ok c
  | None => Raise KeyError
  end.

(** [row[label] = v]. *)
Definition series_set (label : string) (v : cell) (row : Series) : Series :=
  assoc_set label v row.

(** A pandas [DataFrame]: [df.columns] and the rows that [df.iterrows()]
    yields. *)
Record DataFrame : Type := mkDataFrame {
  columns : list string;
  rows : list Series
}.

(** Every row of a frame carries exactly the frame's columns. *)
Definition frame_wf (df : DataFrame) : Prop :=
  Forall (fun row => row.*1 = columns df) (rows df).

(** The value of a row in a column of its frame; a label the row does not
    carry is a missing value. *)
Definition frame_cell (label : string) (row : Series) : cell :=
  series_get_default label NaN row.

(** [pd.DataFrame(data)] for a list of Series (each with its labels
    once): the columns are the labels of the Series in the order of their
    first appearance, and every Series is laid out on them, with a
    missing value where it has no such label. *)
Definition union_labels (data : list Series) : list string :=
  foldl (fun cols row => cols ++ filter (fun label => label ∉ cols) row.*1) [] data.

Definition reindex (cols : list string) (row : Series) : Series :=
  map (fun label => (label, frame_cell label row)) cols.

Definition pd_DataFrame (data : list Series) : DataFrame :=
  mkDataFrame (union_labels data) (map (reindex (union_labels data)) data).

(** [if k in d: d[k] += q else: d[k] = q].  A missing [k], read afresh
    from a column of the mapping table, is not found and goes last, as a
    new entry. *)
Definition dict_incr (k q : cell) (d : dict cell) : res (dict cell) :=
  if isna k then Ok (d ++ [(k, q)])
  else
    match assoc_get k d with
    | Some v => v' ← add v q; Ok (assoc_set k v' d)
    | None => Ok (assoc_set k q d)
    end.

End Py.

Import Py.

(** ** The web application: [wms_web_app.py] *)

Module WMSProcessor.

(** A row of the sheet 'Msku With Skus'.  The lookups read the columns
    [sku] and [msku]; [other] holds whatever further columns the sheet
    has. *)
Record MappingRow : Type := mkMappingRow {
  sku : cell;
  msku : cell;
  other : Series
}.

(** The attributes of a [WMSProcessor] instance. *)
Record t : Type := mk {
  mapping_data : list MappingRow;
  combo_data : list Series;
  current_inventory : DataFrame;
  combo_mapping : dict (list cell)
}.

(** The labels [f'SKU{i}'] for [i in range(1, 15)]. *)
Definition component_columns : list string :=
  ["SKU1"; "SKU2"; "SKU3"; "SKU4"; "SKU5"; "SKU6"; "SKU7";
   "SKU8"; "SKU9"; "SKU10"; "SKU11"; "SKU12"; "SKU13"; "SKU14"].

(** The inner loop of [create_combo_mapping]: the non-missing cells of the
    component columns the row has, in column order. *)
Definition row_components (row : Series) : list cell :=
  flat_map (fun sku_col =>
              match series_get sku_col row with
              | Some c => if notna c then [c] else []
              | None => []
              end) component_columns.

(** [create_combo_mapping]: a combo row enters the dictionary when its
    'Combo ' cell is present and it has at least one component. *)
Fixpoint create_combo_mapping_from (combo_rows : list Series)
    (combo_map : dict (list cell)) : res (dict (list cell)) :=
  match combo_rows with
  | [] => Ok combo_map
  | row :: rest =>
      combo_sku ← series_getitem "Combo " row;
      if notna combo_sku then
        match row_components row with
        | [] => create_combo_mapping_from rest combo_map
        | components =>
            create_combo_mapping_from rest (assoc_set combo_sku components combo_map)
        end
      else create_combo_mapping_from rest combo_map
  end.

Definition create_combo_mapping (combo_rows : list Series) : res (dict (list cell)) :=
  create_combo_mapping_from combo_rows [].

(** The platforms [detect_platform] returns. *)
Inductive Platform : Type := Amazon | Flipkart | Meesho | Unknown.

#[global] Instance Platform_eq_dec : EqDecision Platform.
Proof. solve_decision. Defined.

Definition platform_name (p : Platform) : string :=
  match p with
  | Amazon => "Amazon"
  | Flipkart => "Flipkart"
  | Meesho => "Meesho"
  | Unknown => "Unknown"
  end.

(** [detect_platform]. *)
Definition detect_platform (cols : list string) : Platform :=
  let columns_str := upper (join_space cols) in
  if contains "FNSKU" columns_str || contains "FULFILLMENT CENTER" columns_str then Amazon
  else if contains "ORDER ITEM ID" columns_str || contains "FSN" columns_str then Flipkart
  else if contains "SUB ORDER NO" columns_str then Meesho
  else Unknown.

(** [get_sku_column]: [None] when the platform's SKU column is absent. *)
Definition get_sku_column (cols : list string) (platform : Platform) : option string :=
  match platform with
  | Amazon =>
      if bool_decide ("FNSKU" ∈ cols) then Some "FNSKU"
      else if bool_decide ("MSKU" ∈ cols) then Some "MSKU"
      else None
  | Flipkart | Meesho =>
      if bool_decide ("SKU" ∈ cols) then Some "SKU" else None
  | Unknown => None
  end.

(** The dictionary [map_sku_to_msku] returns, by its ['type']. *)
Inductive Outcome : Type :=
| Combo (components : list cell)
| Single (msku : cell)
| NotFound.

(** [self.mapping_data[self.mapping_data['sku'] == sku]]. *)
Definition mapping_matches (mapping : list MappingRow) (s : cell) : list MappingRow :=
  filter (fun r => pd_eq (sku r) s = true) mapping.

(** [map_sku_to_msku]. *)
Definition map_sku_to_msku (self : t) (s : cell) : Outcome :=
  match assoc_get s (combo_mapping self) with
  | Some components => Combo components
  | None =>
      match mapping_matches (mapping_data self) s with
      | r :: _ => Single (msku r)
      | [] => NotFound
      end
  end.

(** The accumulators of [process_sales_file]: [processed_rows] and
    [inventory_changes]. *)
Definition SalesState : Type := (list Series * dict cell)%type.

(** The line appended for one component of a combo. *)
Definition combo_line (row : Series) (s component_msku quantity : cell)
    (platform : Platform) : Series :=
  series_set "Platform" (Str (platform_name platform))
    (series_set "Product_Type" (Str "Combo_Component")
      (series_set "Quantity" quantity
        (series_set "MSKU" component_msku
          (series_set "Original_SKU" s row)))).

(** The line appended for a single product. *)
Definition single_line (row : Series) (m : cell) (platform : Platform) : Series :=
  series_set "Platform" (Str (platform_name platform))
    (series_set "Product_Type" (Str "Single")
      (series_set "MSKU" m row)).

(** The line appended for an unmapped SKU. *)
Definition unknown_line (row : Series) (platform : Platform) : Series :=
  series_set "Platform" (Str (platform_name platform))
    (series_set "Product_Type" (Str "Unknown")
      (series_set "MSKU" (Str "Mapping Not Found") row)).

(** [for component_msku in mapping_result['components']: ...]. *)
Fixpoint expand_combo (row : Series) (s quantity : cell) (platform : Platform)
    (components : list cell) (st : SalesState) : res SalesState :=
  match components with
  | [] => Ok st
  | component_msku :: rest =>
      let processed_rows := st.1 ++ [combo_line row s component_msku quantity platform] in
      inventory_changes ← dict_incr component_msku quantity st.2;
      expand_combo row s quantity platform rest (processed_rows, inventory_changes)
  end.

(** The Amazon filter: the row is dropped unless it is a sellable
    shipment. *)
Definition amazon_filtered (platform : Platform) (row : Series) : bool :=
  bool_decide (platform = Amazon)
  && (ne_str (series_get "Event Type" row) "Shipments"
      || ne_str (series_get "Disposition" row) "SELLABLE").

(** The body of the loop [for _, row in df.iterrows()] of
    [process_sales_file]; returning the state unchanged is [continue]. *)
Definition process_row (self : t) (platform : Platform) (sku_column : string)
    (row : Series) (st : SalesState) : res SalesState :=
  s ← series_getitem sku_column row;
  let quantity := series_get_default "Quantity" (Num 1) row in
  skip ← (if isna s then Ok true else le quantity 0);
  if skip : bool then Ok st
  else if amazon_filtered platform row then Ok st
  else
    match map_sku_to_msku self s with
    | Combo components => expand_combo row s quantity platform components st
    | Single m =>
        let processed_rows := st.1 ++ [single_line row m platform] in
        inventory_changes ← dict_incr m quantity st.2;
        Ok (processed_rows, inventory_changes)
    | NotFound => Ok (st.1 ++ [unknown_line row platform], st.2)
    end.

Fixpoint process_rows (self : t) (platform : Platform) (sku_column : string)
    (sales_rows : list Series) (st : SalesState) : res SalesState :=
  match sales_rows with
  | [] => Ok st
  | row :: rest =>
      st' ← process_row self platform sku_column row st;
      process_rows self platform sku_column rest st'
  end.

(** What [process_sales_file] returns: [(DataFrame(processed_rows),
    inventory_changes, None)], held as the list [processed_rows] that the
    frame is built from and the dictionary, or [(None, {}, message)] when
    the SKU column is missing or an exception was caught. *)
Inductive SalesError : Type :=
| NoSkuColumn (platform : Platform)
| Caught (e : exn).

Inductive SalesResult : Type :=
| Processed (processed_rows : list Series) (inventory_changes : dict cell)
| Failed (error : SalesError).

(** [process_sales_file], on the frame that [pd.read_csv] returned. *)
Definition process_sales_file (self : t) (df : DataFrame) : SalesResult :=
  let platform := detect_platform (columns df) in
  match get_sku_column (columns df) platform with
  | None => Failed (NoSkuColumn platform)
  | Some sku_column =>
      match process_rows self platform sku_column (rows df) ([], []) with
      | Ok st => Processed st.1 st.2
      | Raise e => Failed (Caught e)
      end
  end.

(** The second component of the returned tuple. *)
Definition result_changes (r : SalesResult) : dict cell :=
  match r with
  | Processed _ inventory_changes => inventory_changes
  | Failed _ => []
  end.

(** The list [processed_rows] of the call, empty when it returns no
    frame. *)
Definition result_lines (r : SalesResult) : list Series :=
  match r with
  | Processed processed_rows _ => processed_rows
  | Failed _ => []
  end.

(** The first component of the returned tuple: the frame built from
    [processed_rows], or [None]. *)
Definition processed_df (r : SalesResult) : option DataFrame :=
  match r with
  | Processed processed_rows _ => Some (pd_DataFrame processed_rows)
  | Failed _ => None
  end.

(** *** [update_inventory] *)

(** The entries of the [warnings] list, by the text they are formatted
    to: ["{msku}: Negative stock ({new_qty})"],
    ["{msku}: Low stock ({new_qty})"] and ["MSKU not found: {msku}"]. *)
Inductive Warning : Type :=
| NegativeStock (m new_qty : cell)
| LowStock (m new_qty : cell)
| MskuNotFound (m : cell).

(** The dictionary [update_inventory] returns. *)
Inductive Report : Type :=
| NoChanges
| ColumnsNotFound
| Success (updated_items : nat) (warnings : list Warning).

Definition find_msku_column (cols : list string) : option string :=
  if bool_decide ("msku" ∈ cols) then Some "msku"
  else head (filter (fun col => contains "msku" (lower col) = true) cols).

Definition is_quantity_label (col : string) : bool :=
  existsb (fun word => contains word (lower col)) ["stock"; "quantity"; "qty"].

Definition find_quantity_column (cols : list string) : option string :=
  if bool_decide ("Opening Stock" ∈ cols) then Some "Opening Stock"
  else head (filter (fun col => is_quantity_label col = true) cols).

(** [mask = self.current_inventory[msku_column] == msku], row by row. *)
Definition mask (msku_column : string) (m : cell) (row : Series) : bool :=
  pd_eq (frame_cell msku_column row) m.

(** [self.current_inventory.loc[mask, quantity_column] = new_qty]. *)
Definition loc_set (msku_column quantity_column : string) (m new_qty : cell)
    (inv : list Series) : list Series :=
  map (fun row => if mask msku_column m row
                  then series_set quantity_column new_qty row else row) inv.

(** The warning raised by a new quantity: below zero, else below five. *)
Definition stock_warning (m new_qty : cell) : res (list Warning) :=
  negative ← lt new_qty 0;
  if negative : bool then Ok [NegativeStock m new_qty]
  else
    low ← lt new_qty 5;
    if low : bool then Ok [LowStock m new_qty] else Ok [].

(** One turn of [for msku, quantity_sold in inventory_changes.items()]:
    the rows of the ledger after it, and the counters [updated_items] and
    [warnings], or the exception that left the loop. *)
Definition update_one (msku_column quantity_column : string)
    (m quantity_sold : cell) (inv : list Series) (acc : nat * list Warning)
    : list Series * res (nat * list Warning) :=
  match filter (fun row => mask msku_column m row = true) inv with
  | first :: _ =>
      match sub (frame_cell quantity_column first) quantity_sold with
      | Raise e => (inv, Raise e)
      | Ok new_qty =>
          let inv' := loc_set msku_column quantity_column m new_qty inv in
          (inv', ws ← stock_warning m new_qty; Ok (S acc.1, acc.2 ++ ws))
      end
  | [] => (inv, Ok (acc.1, acc.2 ++ [MskuNotFound m]))
  end.

Fixpoint update_loop (msku_column quantity_column : string)
    (items : dict cell) (inv : list Series) (acc : nat * list Warning)
    : list Series * res (nat * list Warning) :=
  match items with
  | [] => (inv, Ok acc)
  | (m, quantity_sold) :: rest =>
      match update_one msku_column quantity_column m quantity_sold inv acc with
      | (inv', Ok acc') => update_loop msku_column quantity_column rest inv' acc'
      | (inv', Raise e) => (inv', Raise e)
      end
  end.

Definition set_inventory_rows (self : t) (inv : list Series) : t :=
  mk (mapping_data self) (combo_data self)
     (mkDataFrame (columns (current_inventory self)) inv) (combo_mapping self).

(** [update_inventory]: the instance after the call, and the returned
    report or the exception that escaped. *)
Definition update_inventory (self : t) (inventory_changes : dict cell)
    : t * res Report :=
  match inventory_changes with
  | [] => (self, Ok NoChanges)
  | _ =>
      let cols := columns (current_inventory self) in
      match find_msku_column cols, find_quantity_column cols with
      | Some msku_column, Some quantity_column =>
          let '(inv, r) := update_loop msku_column quantity_column inventory_changes
                             (rows (current_inventory self)) (0, []) in
          (set_inventory_rows self inv,
           acc ← r; Ok (Success acc.1 acc.2))
      | _, _ => (self, Ok ColumnsNotFound)
      end
  end.

End WMSProcessor.

(** ** The desktop mapper: [sku_msku_gui_mapper.py] *)

Module SKUMapperGUI.

Import WMSProcessor.

(** The attributes of a [SKUMapperGUI] instance the mapping reads; the
    three booleans are the check boxes of the options frame. *)
Record t : Type := mk {
  mapping_data : list MappingRow;
  combo_mapping : dict (list cell);
  handle_combos : bool;
  update_inventory : bool;
  create_reports : bool
}.

(** [map_sku_to_msku]: the combo dictionary is consulted only when
    'Handle Combo Products' is ticked. *)
Definition map_sku_to_msku (self : t) (s : cell) : Outcome :=
  match (if handle_combos self then assoc_get s (combo_mapping self) else None) with
  | Some components => Combo components
  | None =>
      match mapping_matches (mapping_data self) s with
      | r :: _ => Single (msku r)
      | [] => NotFound
      end
  end.

(** The lines this class appends; it sets no 'Platform' field. *)
Definition combo_line (row : Series) (s component_msku quantity : cell) : Series :=
  series_set "Product_Type" (Str "Combo_Component")
    (series_set "Quantity" quantity
      (series_set "MSKU" component_msku
        (series_set "Original_SKU" s row))).

Definition single_line (row : Series) (m : cell) : Series :=
  series_set "Product_Type" (Str "Single") (series_set "MSKU" m row).

Definition unknown_line (row : Series) : Series :=
  series_set "Product_Type" (Str "Unknown")
    (series_set "MSKU" (Str "Mapping Not Found") row).

Fixpoint expand_combo (row : Series) (s quantity : cell)
    (components : list cell) (st : SalesState) : res SalesState :=
  match components with
  | [] => Ok st
  | component_msku :: rest =>
      let processed_rows := st.1 ++ [combo_line row s component_msku quantity] in
      inventory_changes ← dict_incr component_msku quantity st.2;
      expand_combo row s quantity rest (processed_rows, inventory_changes)
  end.

(** The body of the row loop of [process_sales_file]. *)
Definition process_row (self : t) (sku_column : string)
    (row : Series) (st : SalesState) : res SalesState :=
  s ← series_getitem sku_column row;
  let quantity := series_get_default "Quantity" (Num 1) row in
  skip ← (if isna s then Ok true else le quantity 0);
  if skip : bool then Ok st
  else
    match map_sku_to_msku self s with
    | Combo components => expand_combo row s quantity components st
    | Single m =>
        let processed_rows := st.1 ++ [single_line row m] in
        inventory_changes ← dict_incr m quantity st.2;
        Ok (processed_rows, inventory_changes)
    | NotFound => Ok (st.1 ++ [unknown_line row], st.2)
    end.

Fixpoint process_rows (self : t) (sku_column : string)
    (sales_rows : list Series) (st : SalesState) : res SalesState :=
  match sales_rows with
  | [] => Ok st
  | row :: rest =>
      st' ← process_row self sku_column row st;
      process_rows self sku_column rest st'
  end.

(** [detect_platform] and [get_sku_column] are written out a second time
    in this class, with the same text. *)
Definition detect_platform (cols : list string) : Platform :=
  let columns_str := upper (join_space cols) in
  if contains "FNSKU" columns_str || contains "FULFILLMENT CENTER" columns_str then Amazon
  else if contains "ORDER ITEM ID" columns_str || contains "FSN" columns_str then Flipkart
  else if contains "SUB ORDER NO" columns_str then Meesho
  else Unknown.

Definition get_sku_column (cols : list string) (platform : Platform) : option string :=
  match platform with
  | Amazon =>
      if bool_decide ("FNSKU" ∈ cols) then Some "FNSKU"
      else if bool_decide ("MSKU" ∈ cols) then Some "MSKU"
      else None
  | Flipkart | Meesho =>
      if bool_decide ("SKU" ∈ cols) then Some "SKU" else None
  | Unknown => None
  end.

(** [process_sales_file], on the frame read from the file: the list
    [processed_rows] that [output_df] is built from, together with the
    [inventory_changes] handed to [update_inventory_tracking], or [None].
    Writing the output file, the log and the reports is left out. *)
Definition process_sales_file (self : t) (df : DataFrame) : option SalesState :=
  let platform := detect_platform (columns df) in
  match get_sku_column (columns df) platform with
  | None => None
  | Some sku_column =>
      match process_rows self sku_column (rows df) ([], []) with
      | Ok st => Some st
      | Raise _ => None
      end
  end.

(** The frame [output_df] that the call returns and writes to the mapped
    file. *)
Definition output_df (r : option SalesState) : option DataFrame :=
  match r with
  | Some st => Some (pd_DataFrame st.1)
  | None => None
  end.

End SKUMapperGUI.

(** ** The database service: [database/service.py] *)

Module DatabaseService.

(** A row of the table [products] ([models.Product]), as the session
    holds it.  The stock columns are integers, written by the migration
    with [int(...)]: in the session they are Python [int]s, which have no
    bound; time stamps are instants. *)
Record Product : Type := mkProduct {
  id : Z;
  msku : string;
  product_name : string;
  opening_stock : Z;
  current_stock : Z;
  buffer_stock : Z;
  created_at : Z;
  updated_at : Z
}.

(** A row of the table [inventory_movements]. *)
Record InventoryMovement : Type := mkInventoryMovement {
  movement_msku : string;
  movement_type : string;
  quantity_change : Z;
  stock_before : Z;
  stock_after : Z;
  reference_id : option string;
  notes : option string
}.

(** A row of the table [sales_records], as [record_sale] adds it to the
    session: the values it takes from the line of the processed file. *)
Record SalesRecord : Type := mkSalesRecord {
  sale_order_id : cell;
  sale_platform : string;
  sale_original_sku : cell;
  sale_msku : cell;
  sale_quantity : Z;
  sale_date : cell;
  sale_product_type : cell;
  sale_details : Series
}.

(** The session [db.session]: the rows as the session holds them, those
    read from the database together with the writes that are not yet
    committed, and the rows of the last commit, to which a rollback
    returns. *)
Record Session : Type := mkSession {
  products : list Product;
  movements : list InventoryMovement;
  sales_records : list SalesRecord;
  committed_products : list Product;
  committed_movements : list InventoryMovement;
  committed_sales : list SalesRecord
}.

(** The messages [update_inventory] returns: ["Product {msku} not found"],
    ["Updated {msku}: {stock_before} -> {stock_after}"] and
    ["Error updating inventory: {e}"]. *)
Inductive Message : Type :=
| ProductNotFound (m : string)
| Updated (m : string) (before after : Z)
| UpdateError.

(** [product.current_stock = stock_after; product.updated_at = now]. *)
Definition set_stock (p : Product) (stock : Z) (now : Z) : Product :=
  mkProduct (id p) (msku p) (product_name p) (opening_stock p) stock
            (buffer_stock p) (created_at p) now.

(** The session with other rows of products and movements. *)
Definition with_rows (db : Session) (ps : list Product)
    (ms : list InventoryMovement) : Session :=
  mkSession ps ms (sales_records db)
            (committed_products db) (committed_movements db) (committed_sales db).

(** [db.session.rollback()]: the writes since the last commit are gone. *)
Definition rollback (db : Session) : Session :=
  mkSession (committed_products db) (committed_movements db) (committed_sales db)
            (committed_products db) (committed_movements db) (committed_sales db).

(** An SQLite INTEGER holds 64 bits: the driver refuses a Python [int]
    beyond them. *)
Definition in_INTEGER (z : Z) : bool :=
  bool_decide (- 2 ^ 63 <= z < 2 ^ 63)%Z.

Definition movement_storable (mv : InventoryMovement) : bool :=
  in_INTEGER (quantity_change mv) && in_INTEGER (stock_before mv)
  && in_INTEGER (stock_after mv).

Section session.

(** Whether the database takes a row of [sales_records]: its NOT NULL
    columns and the types of its values. *)
Variable accepts : SalesRecord -> bool.

(** The flush that a query sets off (autoflush): it writes what the
    session holds and fails when a value cannot be stored.  The rows that
    were read from the database can be stored, so it is the pending
    writes that decide. *)
Definition flush (db : Session) : bool :=
  forallb (fun p => in_INTEGER (current_stock p)) (products db)
  && forallb movement_storable (movements db)
  && forallb accepts (sales_records db).

(** The [try] block of [update_inventory] once its query has flushed, at
    the instant [now] that [datetime.utcnow()] returns. *)
Definition try_update (now : Z) (m : string) (change : Z)
    (mtype : string) (ref note : option string) (db : Session)
    : Session * (bool * Message) :=
  match list_find (fun p => msku p = m) (products db) with
  | None => (db, (false, ProductNotFound m))
  | Some (i, product) =>
      let before := current_stock product in
      let after := (before + change)%Z in
      let movement := mkInventoryMovement m mtype change before after ref note in
      (with_rows db (<[i := set_stock product after now]> (products db))
                 (movements db ++ [movement]),
       (true, Updated m before after))
  end.

(** [update_inventory]: the session after the call and the returned pair.
    The query is the first statement of the [try] block; when its flush
    fails, the [except] branch rolls the session back and returns [False]
    with the error. *)
Definition update_inventory (now : Z) (m : string) (change : Z)
    (mtype : string) (ref note : option string) (db : Session)
    : Session * (bool * Message) :=
  if flush db then try_update now m change mtype ref note db
  else (rollback db, (false, UpdateError)).

(** The loop "Apply inventory changes" of [process_sales_file_to_db]: each
    total is applied negated; the messages of the failed updates are the
    printed warnings.  The session it starts from holds the rows that
    [record_sale] added for the lines of the file. *)
Fixpoint apply_inventory_changes (now : Z) (batch_id file_notes : string)
    (inventory_changes : list (string * Z)) (db : Session)
    : Session * list Message :=
  match inventory_changes with
  | [] => (db, [])
  | (m, total_quantity) :: rest =>
      let '(db', (success, message)) :=
        update_inventory now m (- total_quantity) "Sale"
                         (Some batch_id) (Some file_notes) db in
      let '(db'', printed) := apply_inventory_changes now batch_id file_notes rest db' in
      (db'', if success then printed else message :: printed)
  end.

End session.

End DatabaseService.

(** ** The specification's wording, for comparison with the code *)

Module Spec.

Import WMSProcessor.

(** A mapping entry "for the detected platform": a row of the mapping
    table for the SKU whose platform column names the platform. *)
Definition entry_for_platform (platform : Platform) (s : cell) (r : MappingRow) : bool :=
  pd_eq (sku r) s
  && bool_decide (series_get "platform" (other r) = Some (Str (platform_name platform))).



End Spec.

(** ** Sample tables and files *)

Module Samples.

Import WMSProcessor.

Definition combo_x : cell := Str "COMBO_X".
Definition msku001 : cell := Str "MSKU001".
Definition msku002 : cell := Str "MSKU002".
Definition msku009 : cell := Str "MSKU009".

(** A ledger with two products: Widget with stock 85 and buffer 90,
    Gadget with stock 4 and buffer 0. *)
Definition widget_row : Series :=
  [("Product Name", Str "Widget"); ("msku", msku001);
   ("Opening Stock", Num 85); ("Buffer Stock", Num 90)].

Definition gadget_row : Series :=
  [("Product Name", Str "Gadget"); ("msku", msku002);
   ("Opening Stock", Num 4); ("Buffer Stock", Num 0)].

Definition ledger : DataFrame :=
  mkDataFrame ["Product Name"; "msku"; "Opening Stock"; "Buffer Stock"]
    [widget_row; gadget_row].

(** Three units sold of each, and one of an MSKU the ledger lacks. *)
Definition units_sold : dict cell :=
  [(msku001, Num 3); (msku002, Num 3); (msku009, Num 1)].

(** COMBO_X is a combo of MSKU001 and MSKU002, and is also listed in the
    mapping table; SKU-F is mapped for Flipkart. *)
Definition processor : WMSProcessor.t :=
  WMSProcessor.mk
    [mkMappingRow combo_x msku009 [("platform", Str "Meesho")];
     mkMappingRow (Str "SKU-F") msku001 [("platform", Str "Flipkart")]]
    [[("Combo ", combo_x); ("SKU1", msku001); ("SKU2", msku002)]]
    ledger
    [(combo_x, [msku001; msku002])].

(** The same tables in the desktop mapper, with 'Handle Combo Products'
    unticked. *)
Definition mapper_unticked : SKUMapperGUI.t :=
  SKUMapperGUI.mk (mapping_data processor) (combo_mapping processor) false true true.

Definition mapper_ticked : SKUMapperGUI.t :=
  SKUMapperGUI.mk (mapping_data processor) (combo_mapping processor) true true true.

(** A Meesho file selling three COMBO_X. *)
Definition combo_row : Series :=
  [("Sub Order No", Str "S1"); ("SKU", combo_x); ("Quantity", Num 3)].

Definition meesho_combo_file : DataFrame :=
  mkDataFrame ["Sub Order No"; "SKU"; "Quantity"] [combo_row].

(** A row that sells nothing. *)
Definition zero_quantity_row : Series :=
  [("Sub Order No", Str "S4"); ("SKU", Str "SKU-F"); ("Quantity", Num 0)].

(** Meesho files without a 'Quantity' column: a mapped and an unmapped
    SKU. *)
Definition no_quantity_row : Series :=
  [("Sub Order No", Str "S2"); ("SKU", Str "SKU-F")].

Definition meesho_no_quantity_single : DataFrame :=
  mkDataFrame ["Sub Order No"; "SKU"] [no_quantity_row].

Definition meesho_no_quantity_unknown : DataFrame :=
  mkDataFrame ["Sub Order No"; "SKU"]
    [[("Sub Order No", Str "S3"); ("SKU", Str "ZZZ999")]].

(** A Meesho file without a 'Quantity' column that sells a COMBO_X and a
    SKU-F. *)
Definition meesho_no_quantity_mixed : DataFrame :=
  mkDataFrame ["Sub Order No"; "SKU"]
    [[("Sub Order No", Str "S6"); ("SKU", combo_x)]; no_quantity_row].

(** Amazon files: a sellable shipment of SKU-F, and a return without a
    'Quantity' column. *)
Definition amazon_shipment_file : DataFrame :=
  mkDataFrame ["FNSKU"; "Event Type"; "Disposition"; "Quantity"]
    [[("FNSKU", Str "SKU-F"); ("Event Type", Str "Shipments");
      ("Disposition", Str "SELLABLE"); ("Quantity", Num 2)]].

Definition amazon_return_row : Series :=
  [("FNSKU", Str "SKU-F"); ("Event Type", Str "Returns");
   ("Disposition", Str "SELLABLE")].

Definition amazon_return_file : DataFrame :=
  mkDataFrame ["FNSKU"; "Event Type"; "Disposition"] [amazon_return_row].


(** The accumulators before the first row. *)
Definition no_sales : SalesState := ([], []).

(** Tables and a file of numbers only: the combo 7 is made of the MSKUs 1
    and 2, and two rows sell 2^62 units of it each.  Every column of the
    file is an integer column, so its cells are [int64] scalars. *)
Definition numeric_processor : WMSProcessor.t :=
  WMSProcessor.mk []
    [[("Combo ", Num 7); ("SKU1", Num 1); ("SKU2", Num 2)]]
    ledger
    [(Num 7, [Num 1; Num 2])].

Definition huge_combo_row (order : Z) : Series :=
  [("Sub Order No", Num order); ("SKU", Num 7); ("Quantity", Num (2 ^ 62))].

Definition huge_combo_file : DataFrame :=
  mkDataFrame ["Sub Order No"; "SKU"; "Quantity"] [huge_combo_row 1; huge_combo_row 2].

(** A session with the two products, written at the instant 100, and the
    totals of a batch. *)
Definition widget : DatabaseService.Product :=
  DatabaseService.mkProduct 1 "MSKU001" "Widget" 85 85 90 100 100.

Definition gadget : DatabaseService.Product :=
  DatabaseService.mkProduct 2 "MSKU002" "Gadget" 4 4 0 100 100.

Definition session : DatabaseService.Session :=
  DatabaseService.mkSession [widget; gadget] [] [] [widget; gadget] [] [].

Definition totals : list (string * Z) :=
  [("MSKU009", 1%Z); ("MSKU001", 3%Z)].


(** A database that takes every row of [sales_records]. *)
Definition accepts_all (r : DatabaseService.SalesRecord) : bool := true.

End Samples.

(** ** Predicates of the statements *)

Module Props.

Import WMSProcessor.

(** A cell of a numeric column: a number or a missing number. *)
Definition is_number (c : cell) : Prop :=
  match c with Str _ => False | _ => True end.

(** The values of a dictionary of quantities are numbers. *)
Definition numeric_values (d : dict cell) : Prop :=
  Forall (fun kv => is_number kv.2) d.

(** A column of the ledger is numeric, as [load_wms_data] leaves every
    column but 'Product Name' and 'msku' ([pd.to_numeric] and
    [fillna(0)]). *)
Definition numeric_column (quantity_column : string) (inv : list Series) : Prop :=
  Forall (fun row => is_number (frame_cell quantity_column row)) inv.

(** The keys of a dictionary, in insertion order; a Python dictionary has
    each key once, missing values apart. *)
Definition keys {V : Type} (d : dict V) : list cell := d.*1.

(** Two rows agree on every label but one. *)
Definition same_except (label : string) (row row' : Series) : Prop :=
  forall col, col ≠ label -> series_get col row' = series_get col row.

(** What a run of updates for the keys [ks] may do to a row of the
    ledger: it keeps every label but the quantity column, and keeps the
    whole row when the row's MSKU equals none of the keys. *)
Definition row_step (msku_column quantity_column : string) (ks : list cell)
    (row row' : Series) : Prop :=
  same_except quantity_column row row'
  /\ ((forall k, k ∈ ks -> mask msku_column k row = false) -> row' = row).

(** The values of a dictionary of quantities are whole numbers. *)
Definition counted_values (d : dict cell) : Prop :=
  Forall (fun kv => exists z, kv.2 = Num z) d.

(** The MSKU a warning names. *)
Definition warning_key (w : Warning) : cell :=
  match w with
  | NegativeStock m _ | LowStock m _ | MskuNotFound m => m
  end.

(** The counters of a run started from [acc], from those of the same run
    started from zero updated items and no warnings. *)
Definition shift_acc (acc : nat * list Warning) (r : res (nat * list Warning))
    : res (nat * list Warning) :=
  match r with
  | Ok a => Ok (acc.1 + a.1, acc.2 ++ a.2)
  | Raise e => Raise e
  end.

(** The quantity recorded for a key, zero when the key is absent. *)
Definition sold (d : dict cell) (k : cell) : Z :=
  match assoc_get k d with
  | Some (Num z) => z
  | _ => 0%Z
  end.

(** Two products agree on every column but [current_stock] and
    [updated_at]. *)
Definition same_but_stock (p p' : DatabaseService.Product) : Prop :=
  DatabaseService.id p' = DatabaseService.id p
  /\ DatabaseService.msku p' = DatabaseService.msku p
  /\ DatabaseService.product_name p' = DatabaseService.product_name p
  /\ DatabaseService.opening_stock p' = DatabaseService.opening_stock p
  /\ DatabaseService.buffer_stock p' = DatabaseService.buffer_stock p
  /\ DatabaseService.created_at p' = DatabaseService.created_at p.

(** What a run of updates for the keys [ks] may do to a product: it keeps
    every column but [current_stock] and [updated_at], and keeps the whole
    row when the product's MSKU is none of the keys. *)
Definition product_step (ks : list string) (p p' : DatabaseService.Product) : Prop :=
  same_but_stock p p' /\ (DatabaseService.msku p ∉ ks -> p' = p).

(** The batch loop in which every flush passes, the turns of
    [try_update]: what [apply_inventory_changes] computes under
    [flushes_through]. *)
Fixpoint apply_flushed (now : Z) (batch_id file_notes : string)
    (inventory_changes : list (string * Z)) (db : DatabaseService.Session)
    : DatabaseService.Session * list DatabaseService.Message :=
  match inventory_changes with
  | [] => (db, [])
  | (m, total_quantity) :: rest =>
      let '(db', (success, message)) :=
        DatabaseService.try_update now m (- total_quantity) "Sale"
                                   (Some batch_id) (Some file_notes) db in
      let '(db'', printed) := apply_flushed now batch_id file_notes rest db' in
      (db'', if success then printed else message :: printed)
  end.

(** No update of the batch fails on its flush: at each turn of the loop
    the session holds nothing that the database refuses. *)
Fixpoint flushes_through (accepts : DatabaseService.SalesRecord -> bool)
    (now : Z) (batch_id file_notes : string)
    (inventory_changes : list (string * Z)) (db : DatabaseService.Session) : bool :=
  match inventory_changes with
  | [] => true
  | (m, total_quantity) :: rest =>
      DatabaseService.flush accepts db
      && flushes_through accepts now batch_id file_notes rest
           (DatabaseService.try_update now m (- total_quantity) "Sale"
              (Some batch_id) (Some file_notes) db).1
  end.

(** A quantity that every kind of numeric cell holds exactly, or a
    missing number. *)
Definition exact_cell (c : cell) : Prop :=
  match c with
  | Num z => exact z
  | NaN => True
  | Str _ => False
  end.

(** The quantities of a dictionary of changes are exact or missing. *)
Definition exact_values (d : dict cell) : Prop :=
  Forall (fun kv => exact_cell kv.2) d.

(** How often an MSKU occurs among the components of a combo. *)
Definition occurrences (k : cell) (components : list cell) : Z :=
  Z.of_nat (length (filter (fun c => c = k) components)).

(** The entry of [k] after [n] units were added to the dictionary [d] for
    each of the [components]: a number grows by [n] per occurrence of
    [k], a missing number stays missing, and an MSKU without an entry
    gets one when it is among the components. *)
Definition raised (components : list cell) (n : Z) (d : dict cell) (k : cell)
    : option cell :=
  match assoc_get k d with
  | Some (Num z) => Some (Num (z + occurrences k components * n))
  | Some v => Some v
  | None =>
      if bool_decide (k ∈ components) then Some (Num (occurrences k components * n))
      else None
  end.

(** The sums that adding [n] units for each of the [components] computes
    are exact. *)
Definition room (components : list cell) (n : Z) (d : dict cell) : Prop :=
  exact n
  /\ forall k, k ∈ components ->
       exact (sold d k) /\ exact (sold d k + occurrences k components * n).

(** The tables resolve no SKU to a missing MSKU: the mapping table has no
    blank MSKU and no combo has a missing component. *)
Definition resolves_to_mskus (self : WMSProcessor.t) : Prop :=
  Forall (fun r => msku r ≠ NaN) (mapping_data self)
  /\ Forall (fun kv => Forall (fun c => c ≠ NaN) kv.2) (combo_mapping self).

(** The missing-data guard of the row loop: the SKU cell is missing, or
    the quantity read from the row is a number not above zero. *)
Definition missing_data (sku_column : string) (row : Series) : Prop :=
  exists s, series_get sku_column row = Some s
    /\ (s = NaN
        \/ exists z, series_get_default "Quantity" (Num 1) row = Num z /\ (z <= 0)%Z).

(** The row is not a sellable shipment: its 'Event Type' is not
    'Shipments' or its 'Disposition' is not 'SELLABLE'. *)
Definition not_sellable_shipment (row : Series) : Prop :=
  series_get "Event Type" row ≠ Some (Str "Shipments")
  \/ series_get "Disposition" row ≠ Some (Str "SELLABLE").

End Props.

(** ** The routes of [wms_web_app.py] *)

Module Routes.

Import WMSProcessor.

(** The text after the last '.' of a name, [None] when the name has no
    '.': [filename.rsplit('.', 1)[1]] under the test ['.' in filename]. *)
Fixpoint after_last_dot (s : string) : option string :=
  match s with
  | EmptyString => None
  | String c rest =>
      match after_last_dot rest with
      | Some ext => Some ext
      | None => if bool_decide (c = "."%char) then Some rest else None
      end
  end.

Definition ALLOWED_EXTENSIONS : list string := ["csv"; "xlsx"].

(** [allowed_file]. *)
Definition allowed_file (filename : string) : bool :=
  match after_last_dot filename with
  | Some ext => bool_decide (lower ext ∈ ALLOWED_EXTENSIONS)
  | None => false
  end.

(** The entries of [results] in [process_files]: an error with its
    message, a success with the numbers of processed rows and of changed
    MSKUs, or the error "No data processed". *)
Inductive FileResult : Type :=
| FileError (error : SalesError)
| FileSuccess (processed_rows inventory_changes : nat)
| NoDataProcessed.

(** "Combine inventory changes": the loop over [inventory_changes.items()]
    that adds a file's changes to [total_inventory_changes]. *)
Fixpoint combine_changes (inventory_changes total : dict cell) : res (dict cell) :=
  match inventory_changes with
  | [] => Ok total
  | (m, qty) :: rest =>
      total' ← dict_incr m qty total;
      combine_changes rest total'
  end.

(** The loop [for file_info in file_paths] of [process_files], over the
    frames read from the files. *)
Fixpoint process_files_loop (self : WMSProcessor.t) (files : list DataFrame)
    (results : list FileResult) (total : dict cell)
    : res (list FileResult * dict cell) :=
  match files with
  | [] => Ok (results, total)
  | df :: rest =>
      match process_sales_file self df with
      | Failed error =>
          process_files_loop self rest (results ++ [FileError error]) total
      | Processed [] _ =>
          process_files_loop self rest (results ++ [NoDataProcessed]) total
      | Processed processed_rows inventory_changes =>
          total' ← combine_changes inventory_changes total;
          process_files_loop self rest
            (results ++ [FileSuccess (length processed_rows) (length inventory_changes)])
            total'
      end
  end.

(** The answer of [process_files]. *)
Inductive ProcessResponse : Type :=
| NoFilesToProcess
| FilesProcessed (file_results : list FileResult) (inventory_update : Report)
    (total_changes : nat).

(** [process_files]: the processor after the request, and the answer or
    the exception that escaped the route. *)
Definition process_files (self : WMSProcessor.t) (files : list DataFrame)
    : WMSProcessor.t * res ProcessResponse :=
  match files with
  | [] => (self, Ok NoFilesToProcess)
  | _ =>
      match process_files_loop self files [] [] with
      | Raise e => (self, Raise e)
      | Ok (results, total) =>
          let '(self', r) := update_inventory self total in
          (self', inventory_result ← r;
                  Ok (FilesProcessed results inventory_result (length total)))
      end
  end.

End Routes.

(** ** The dashboard of [wms_web_app.py] *)

Module Dashboard.

Import WMSProcessor.

Section numeric.

(** The whole number that [pd.to_numeric] reads from a text cell, [None]
    when it reads none. *)
Variable parse : string -> option Z.

(** [pd.to_numeric(..., errors='coerce').fillna(0)] on a cell. *)
Definition to_numeric_fillna (c : cell) : Z :=
  match c with
  | Num z => z
  | NaN => 0
  | Str s => default 0%Z (parse s)
  end.

(** The column after [df[col] = pd.to_numeric(df[col],
    errors='coerce').fillna(0)]. *)
Definition coerce_column (col : string) (inv : list Series) : list Series :=
  map (fun row => series_set col (Num (to_numeric_fillna (frame_cell col row))) row) inv.

(** [len(stock_values[stock_values < k])] on the coerced column. *)
Definition count_below (k : Z) (col : string) (inv : list Series) : nat :=
  length (filter (fun row => (to_numeric_fillna (frame_cell col row) < k)%Z) inv).

(** [len(df[(df[col] >= lo) & (df[col] <= hi)])]. *)
Definition count_between (lo hi : Z) (col : string) (inv : list Series) : nat :=
  length (filter (fun row => (lo <= to_numeric_fillna (frame_cell col row) <= hi)%Z) inv).

(** [len(df[df[col] >= k])]. *)
Definition count_from (k : Z) (col : string) (inv : list Series) : nat :=
  length (filter (fun row => (k <= to_numeric_fillna (frame_cell col row))%Z) inv).

(** The dictionary [get_dashboard_data] returns. *)
Record DashboardData : Type := mkDashboardData {
  total_products : nat;
  total_combos : nat;
  total_mappings : nat;
  low_stock_count : nat;
  negative_stock_count : nat
}.

(** [get_dashboard_data], on a loaded processor: the quantity column is
    searched as in [update_inventory]; when found it is coerced in place
    and counted below 10 and below 0. *)
Definition get_dashboard_data (self : WMSProcessor.t) : WMSProcessor.t * DashboardData :=
  let inv := rows (current_inventory self) in
  match find_quantity_column (columns (current_inventory self)) with
  | Some quantity_col =>
      (set_inventory_rows self (coerce_column quantity_col inv),
       mkDashboardData (length inv) (length (combo_mapping self))
         (length (mapping_data self))
         (count_below 10 quantity_col inv) (count_below 0 quantity_col inv))
  | None =>
      (self,
       mkDashboardData (length inv) (length (combo_mapping self))
         (length (mapping_data self)) 0 0)
  end.

(** The chart of the route [/api/dashboard-data]: the counts of 'Negative
    Stock', 'Low Stock (1-9)', 'Normal Stock (10-99)' and 'High Stock
    (100+)', computed on a copy of the ledger; [None] when no quantity
    column is found. *)
Definition stock_distribution (self : WMSProcessor.t) : option (list nat) :=
  let inv := rows (current_inventory self) in
  match find_quantity_column (columns (current_inventory self)) with
  | Some qty_col =>
      Some [count_below 0 qty_col inv; count_between 1 9 qty_col inv;
            count_between 10 99 qty_col inv; count_from 100 qty_col inv]
  | None => None
  end.

End numeric.

End Dashboard.

(** ** The stock queries of [database/service.py] *)

Module DatabaseStats.

Import DatabaseService.

(** [get_product_by_msku]. *)
Definition get_product_by_msku (m : string) (db : Session) : option Product :=
  snd <$> list_find (fun p => msku p = m) (products db).

(** [get_low_stock_products]. *)
Definition get_low_stock_products (threshold : Z) (db : Session) : list Product :=
  filter (fun p => (current_stock p < threshold)%Z) (products db).

(** [get_negative_stock_products]. *)
Definition get_negative_stock_products (db : Session) : list Product :=
  filter (fun p => (current_stock p < 0)%Z) (products db).

(** The entries of [get_dashboard_stats] that are computed from the table
    of products. *)
Record StockStats : Type := mkStockStats {
  total_products : nat;
  low_stock_count : nat;
  negative_stock_count : nat;
  distribution_negative : nat;
  distribution_low : nat;
  distribution_normal : nat;
  distribution_high : nat
}.

Definition get_dashboard_stats (db : Session) : StockStats :=
  let ps := products db in
  mkStockStats (length ps)
    (length (filter (fun p => (current_stock p < 10)%Z) ps))
    (length (filter (fun p => (current_stock p < 0)%Z) ps))
    (length (filter (fun p => (current_stock p < 0)%Z) ps))
    (length (filter (fun p => (1 <= current_stock p <= 9)%Z) ps))
    (length (filter (fun p => (10 <= current_stock p <= 99)%Z) ps))
    (length (filter (fun p => (100 <= current_stock p)%Z) ps)).

End DatabaseStats.

(** ** Predicates of the further statements *)

Module MoreProps.

Import WMSProcessor.
Import Props.

(** A row of a sales file that can be read without an exception: it has
    the SKU cell, and its quantity, when it has one, is not text. *)
Definition readable_row (sku_column : string) (row : Series) : Prop :=
  is_Some (series_get sku_column row)
  /\ is_number (series_get_default "Quantity" (Num 1) row).

(** A name, or an extension, without the character '.'. *)
Definition dotless (s : string) : Prop := "."%char ∉ list_ascii_of_string s.

(** The warning "MSKU not found". *)
Definition is_not_found (w : Warning) : bool :=
  match w with MskuNotFound _ => true | _ => false end.

(** The quantities of a dictionary of changes are whole numbers not below
    zero. *)
Definition counted_from_zero (d : dict cell) : Prop :=
  Forall (fun kv => exists z, kv.2 = Num z /\ (0 <= z)%Z) d.

(** The units of an MSKU sold over the files of a request, by the changes
    that [process_sales_file] returns for each file. *)
Definition total_sold (self : WMSProcessor.t) (files : list DataFrame) (k : cell) : Z :=
  foldr (fun df acc => (sold (result_changes (process_sales_file self df)) k + acc)%Z)
        0%Z files.

End MoreProps.

(** ** Further sample files *)

Module MoreSamples.

Import WMSProcessor.

(** A row whose quantity is text. *)
Definition text_quantity_row : Series :=
  [("Sub Order No", Str "S5"); ("SKU", Str "SKU-F"); ("Quantity", Str "two")].

(** The files of a request: three COMBO_X sold on Meesho, two SKU-F
    shipped by Amazon, and a file no platform is detected for. *)
Definition unknown_file : DataFrame :=
  mkDataFrame ["Item"; "Count"] [[("Item", Str "SKU-F"); ("Count", Num 1)]].

Definition request_files : list DataFrame :=
  [Samples.meesho_combo_file; unknown_file; Samples.amazon_shipment_file].

End MoreSamples.

Import Props.
Import MoreProps.
Import WMSProcessor.

(** * Properties *)

(** ** Association lists *)

Section assoc_facts.
Context {K V : Type} `{EqDecision K}.
Implicit Types (k : K) (v : V) (d : list (K * V)).

Lemma assoc_get_set_eq k v d : assoc_get k (assoc_set k v d) = Some v.
Proof.
  induction d as [|[k' v'] d IH]; simpl.
  - by rewrite decide_True.
  - destruct (decide (k' = k)) as [->|Hne]; simpl.
    + by rewrite decide_True.
    + by rewrite decide_False.
Qed.

Lemma assoc_get_set_ne k k' v d :
  k ≠ k' -> assoc_get k' (assoc_set k v d) = assoc_get k' d.
Proof.
  intros Hne. induction d as [|[k0 v0] d IH]; simpl.
  - by rewrite decide_False.
  - destruct (decide (k0 = k)) as [->|Hne0]; simpl.
    + by rewrite !decide_False.
    + destruct (decide (k0 = k')); [done | apply IH].
Qed.

Lemma assoc_get_Some_elem k v d : assoc_get k d = Some v -> (k, v) ∈ d.
Proof.
  induction d as [|[k0 v0] d IH]; simpl; [done|].
  destruct (decide (k0 = k)) as [->|Hne]; intros Hg.
  - injection Hg as ->. apply list_elem_of_here.
  - apply list_elem_of_further, IH, Hg.
Qed.

Lemma assoc_get_None_keys k d : assoc_get k d = None <-> k ∉ d.*1.
Proof.
  induction d as [|[k0 v0] d IH]; simpl.
  - split; [intros _; apply not_elem_of_nil | done].
  - rewrite not_elem_of_cons. destruct (decide (k0 = k)) as [->|Hne].
    + split; [done | intros [? _]; done].
    + rewrite IH. split; [intros ?; split; [congruence | done] | intros [_ ?]; done].
Qed.


Lemma assoc_set_keys_present k v d :
  is_Some (assoc_get k d) -> (assoc_set k v d).*1 = d.*1.
Proof.
  induction d as [|[k0 v0] d IH]; simpl; intros [x Hx]; [done|].
  destruct (decide (k0 = k)) as [->|Hne]; simpl; [done|].
  f_equal. apply IH. by exists x.
Qed.

Lemma assoc_set_keys_absent k v d :
  assoc_get k d = None -> (assoc_set k v d).*1 = d.*1 ++ [k].
Proof.
  induction d as [|[k0 v0] d IH]; simpl; intros Hx; [done|].
  destruct (decide (k0 = k)) as [->|Hne]; simpl; [done|].
  f_equal. by apply IH.
Qed.

End assoc_facts.

(** ** Cells *)

Lemma pd_eq_true a b : pd_eq a b = true -> a = b /\ a ≠ NaN.
Proof.
  destruct a, b; simpl; try done; intros Hb%bool_decide_eq_true; by subst.
Qed.

Lemma int64_small z : (- 2 ^ 63 <= z < 2 ^ 63)%Z -> int64 z = z.
Proof. intros Hz. unfold int64. rewrite Z.mod_small; lia. Qed.

Lemma int64_exact z : exact z -> int64 z = z.
Proof. unfold exact. intros Hz. apply int64_small. lia. Qed.

Lemma sub_number a b :
  is_number a -> is_number b -> exists c, sub a b = Ok c /\ is_number c.
Proof. destruct a, b; simpl; try done; eauto. Qed.

Lemma add_number a b :
  is_number a -> is_number b -> exists c, add a b = Ok c /\ is_number c.
Proof. destruct a, b; simpl; try done; eauto. Qed.

Lemma stock_warning_number m c :
  is_number c -> exists ws, stock_warning m c = Ok ws.
Proof.
  destruct c as [|s|z]; simpl; [eauto | done | intros _].
  unfold stock_warning; simpl. destruct (z <? 0)%Z; simpl; [eauto|].
  destruct (z <? 5)%Z; eauto.
Qed.


(** ** Rows of the ledger *)

Section ledger_rows.
Variables msku_column quantity_column : string.
Implicit Types (row : Series) (inv : list Series) (m k : cell).

Lemma same_except_refl row : same_except quantity_column row row.
Proof. by intros col _. Qed.

Lemma same_except_trans row1 row2 row3 :
  same_except quantity_column row1 row2 ->
  same_except quantity_column row2 row3 ->
  same_except quantity_column row1 row3.
Proof. intros H12 H23 col Hcol. rewrite H23, H12; done. Qed.

Lemma same_except_set v row :
  same_except quantity_column row (series_set quantity_column v row).
Proof. intros col Hcol. unfold series_get, series_set. by apply assoc_get_set_ne. Qed.

Lemma frame_cell_set v row :
  frame_cell quantity_column (series_set quantity_column v row) = v.
Proof.
  unfold frame_cell, series_get_default, series_get, series_set.
  by rewrite assoc_get_set_eq.
Qed.

Lemma mask_same_except m row row' :
  msku_column ≠ quantity_column ->
  same_except quantity_column row row' ->
  mask msku_column m row' = mask msku_column m row.
Proof.
  intros Hne Hsame. unfold mask, frame_cell, series_get_default.
  by rewrite (Hsame msku_column Hne).
Qed.

(** A row matches at most one key. *)
Lemma mask_functional m k row :
  mask msku_column m row = true -> mask msku_column k row = true -> m = k.
Proof.
  unfold mask. intros [H1 _]%pd_eq_true [H2 _]%pd_eq_true. congruence.
Qed.

Lemma row_step_refl ks row : row_step msku_column quantity_column ks row row.
Proof. split; [apply same_except_refl | done]. Qed.

Lemma row_step_compose k ks row1 row2 row3 :
  row_step msku_column quantity_column [k] row1 row2 ->
  row_step msku_column quantity_column ks row2 row3 ->
  row_step msku_column quantity_column (k :: ks) row1 row3.
Proof.
  intros [Hs12 Hk12] [Hs23 Hk23]. split; [by eapply same_except_trans|].
  intros Hnone.
  assert (row2 = row1) as ->.
  { apply Hk12. intros k' ->%list_elem_of_singleton. apply Hnone, list_elem_of_here. }
  apply Hk23. intros k' Hk'. by apply Hnone, list_elem_of_further.
Qed.

Lemma Forall2_row_step_compose k ks inv1 inv2 inv3 :
  Forall2 (row_step msku_column quantity_column [k]) inv1 inv2 ->
  Forall2 (row_step msku_column quantity_column ks) inv2 inv3 ->
  Forall2 (row_step msku_column quantity_column (k :: ks)) inv1 inv3.
Proof.
  intros H12. revert inv3. induction H12 as [|r1 r2 l1 l2 Hr _ IH]; intros inv3 H23.
  - inversion H23; subst. constructor.
  - inversion H23 as [|? r3 ? l3 Hr' Hl']; subst.
    constructor; [by eapply row_step_compose | by apply IH].
Qed.

Lemma loc_set_row_step m v inv :
  Forall2 (row_step msku_column quantity_column [m]) inv
          (loc_set msku_column quantity_column m v inv).
Proof.
  unfold loc_set. induction inv as [|row inv IH]; simpl; constructor; [|done].
  destruct (mask msku_column m row) eqn:Hm.
  - split; [apply same_except_set|].
    intros Hnone. rewrite Hnone in Hm; [done | apply list_elem_of_here].
  - apply row_step_refl.
Qed.

Lemma update_one_row_step m q inv acc :
  Forall2 (row_step msku_column quantity_column [m]) inv
          (update_one msku_column quantity_column m q inv acc).1.
Proof.
  unfold update_one.
  destruct (filter _ inv) as [|first ?].
  - simpl. apply Forall_Forall2_diag, Forall_forall. intros; apply row_step_refl.
  - destruct (sub _ q) as [new_qty|e]; simpl.
    + apply loc_set_row_step.
    + apply Forall_Forall2_diag, Forall_forall. intros; apply row_step_refl.
Qed.

Lemma update_loop_row_step items inv acc :
  Forall2 (row_step msku_column quantity_column (keys items)) inv
          (update_loop msku_column quantity_column items inv acc).1.
Proof.
  revert inv acc. induction items as [|[m q] items IH]; intros inv acc; simpl.
  - apply Forall_Forall2_diag, Forall_forall. intros; apply row_step_refl.
  - pose proof (update_one_row_step m q inv acc) as H1.
    destruct (update_one msku_column quantity_column m q inv acc) as [inv1 [acc1|e]];
      simpl in *.
    + eapply Forall2_row_step_compose; [exact H1 | apply IH].
    + eapply Forall2_row_step_compose; [exact H1|].
      apply Forall_Forall2_diag, Forall_forall. intros; apply row_step_refl.
Qed.

End ledger_rows.

(** ** One turn and one run of the update loop *)

Section update_loop_facts.
Variables msku_column quantity_column : string.
Implicit Types (row : Series) (inv : list Series) (m k q : cell)
  (items : dict cell) (acc : nat * list Warning).


Lemma loc_set_numeric m v inv :
  is_number v -> numeric_column quantity_column inv ->
  numeric_column quantity_column (loc_set msku_column quantity_column m v inv).
Proof.
  intros Hv. unfold numeric_column, loc_set.
  induction 1 as [|row inv Hrow _ IH]; simpl; constructor; [|done].
  destruct (mask msku_column m row); [by rewrite frame_cell_set | done].
Qed.

Lemma update_one_not_found m q inv acc :
  filter (fun row => mask msku_column m row = true) inv = [] ->
  update_one msku_column quantity_column m q inv acc
  = (inv, Ok (acc.1, acc.2 ++ [MskuNotFound m])).
Proof. intros Hf. unfold update_one. by rewrite Hf. Qed.

Lemma stock_warning_num m z :
  stock_warning m (Num z)
  = Ok (if (z <? 0)%Z then [NegativeStock m (Num z)]
        else if (z <? 5)%Z then [LowStock m (Num z)] else []).
Proof.
  unfold stock_warning; simpl. destruct (z <? 0)%Z; simpl; [done|].
  by destruct (z <? 5)%Z.
Qed.

Lemma update_one_found m n c first others inv acc :
  filter (fun row => mask msku_column m row = true) inv = first :: others ->
  frame_cell quantity_column first = Num c ->
  update_one msku_column quantity_column m (Num n) inv acc
  = (loc_set msku_column quantity_column m (Num (int64 (c - n))) inv,
     Ok (S acc.1,
         acc.2 ++ (if (int64 (c - n) <? 0)%Z then [NegativeStock m (Num (int64 (c - n)))]
                   else if (int64 (c - n) <? 5)%Z then [LowStock m (Num (int64 (c - n)))]
                   else []))).
Proof.
  intros Hf Hc. unfold update_one. rewrite Hf, Hc. simpl.
  by rewrite stock_warning_num.
Qed.

Lemma update_one_numeric m q inv acc :
  is_number q -> numeric_column quantity_column inv ->
  exists inv' acc',
    update_one msku_column quantity_column m q inv acc = (inv', Ok acc')
    /\ numeric_column quantity_column inv'.
Proof.
  intros Hq Hinv. unfold update_one.
  destruct (filter _ inv) as [|first others] eqn:Hf; [eauto|].
  assert (first ∈ inv) as Hin.
  { eapply (list_elem_of_filter (fun row => mask msku_column m row = true)).
    rewrite Hf. apply list_elem_of_here. }
  assert (is_number (frame_cell quantity_column first)) as Hfirst.
  { unfold numeric_column in Hinv. rewrite Forall_forall in Hinv. by apply Hinv. }
  destruct (sub_number _ _ Hfirst Hq) as (new_qty & -> & Hnew).
  destruct (stock_warning_number m new_qty Hnew) as [ws ->]. simpl.
  eexists _, _. split; [done|]. by apply loc_set_numeric.
Qed.

Lemma update_loop_numeric items inv acc :
  numeric_values items -> numeric_column quantity_column inv ->
  exists inv' acc',
    update_loop msku_column quantity_column items inv acc = (inv', Ok acc')
    /\ numeric_column quantity_column inv'.
Proof.
  revert inv acc. induction items as [|[m q] items IH]; intros inv acc Hv Hinv; simpl.
  - eauto.
  - apply Forall_cons in Hv as [Hq Hv]. simpl in Hq.
    destruct (update_one_numeric m q inv acc Hq Hinv) as (inv1 & acc1 & -> & Hinv1).
    by apply IH.
Qed.

Lemma update_loop_app items1 items2 inv acc :
  update_loop msku_column quantity_column (items1 ++ items2) inv acc
  = match update_loop msku_column quantity_column items1 inv acc with
    | (inv1, Ok acc1) => update_loop msku_column quantity_column items2 inv1 acc1
    | (inv1, Raise e) => (inv1, Raise e)
    end.
Proof.
  revert inv acc. induction items1 as [|[m q] items1 IH]; intros inv acc; simpl; [done|].
  destruct (update_one msku_column quantity_column m q inv acc) as [inv1 [acc1|e]];
    [apply IH | done].
Qed.

(** Rows keep matching the keys they matched, and a run that does not
    hold the key of a row leaves the rows of that key as they were. *)
Lemma row_step_filter_other ks m inv inv' :
  msku_column ≠ quantity_column -> m ∉ ks ->
  Forall2 (row_step msku_column quantity_column ks) inv inv' ->
  filter (fun row => mask msku_column m row = true) inv'
  = filter (fun row => mask msku_column m row = true) inv.
Proof.
  intros Hne Hm. induction 1 as [|row row' inv inv' [Hsame Hkeep] _ IH]; [done|].
  rewrite !filter_cons, IH, (mask_same_except _ _ m row row' Hne Hsame).
  case_decide as Hmask; [|done].
  rewrite Hkeep; [done|].
  intros k Hk. destruct (mask msku_column k row) eqn:Hmk; [|done].
  exfalso. apply Hm. by rewrite (mask_functional _ m k row Hmask Hmk).
Qed.


End update_loop_facts.

(** ** The database service *)

Section database_facts.
Import DatabaseService.
Variables (now : Z) (batch_id file_notes : string).
Implicit Types (db : Session) (p : Product) (m : string).

Lemma same_but_stock_refl p : same_but_stock p p.
Proof. by repeat split. Qed.

Lemma product_step_refl ks p : product_step ks p p.
Proof. split; [apply same_but_stock_refl | done]. Qed.

Lemma product_step_compose k ks p1 p2 p3 :
  product_step [k] p1 p2 -> product_step ks p2 p3 -> product_step (k :: ks) p1 p3.
Proof.
  intros [H12 Hk12] [H23 Hk23]. split.
  - destruct H12 as (?&?&?&?&?&?), H23 as (?&?&?&?&?&?).
    repeat split; congruence.
  - intros [Hk Hks]%not_elem_of_cons.
    assert (p2 = p1) as -> by (apply Hk12; by intros ?%list_elem_of_singleton).
    by apply Hk23.
Qed.

Lemma Forall2_product_step_compose k ks l1 l2 l3 :
  Forall2 (product_step [k]) l1 l2 -> Forall2 (product_step ks) l2 l3 ->
  Forall2 (product_step (k :: ks)) l1 l3.
Proof.
  intros H12. revert l3. induction H12 as [|p1 p2 l1 l2 Hp _ IH]; intros l3 H23.
  - inversion H23; subst. constructor.
  - inversion H23 as [|? p3 ? l3' Hp' Hl']; subst.
    constructor; [by eapply product_step_compose | by apply IH].
Qed.

Lemma Forall2_product_step_diag ks (l : list Product) : Forall2 (product_step ks) l l.
Proof. apply Forall_Forall2_diag, Forall_forall. intros; apply product_step_refl. Qed.

Lemma db_update_not_found m change mtype ref note db :
  list_find (fun p => msku p = m) (products db) = None ->
  try_update now m change mtype ref note db = (db, (false, ProductNotFound m)).
Proof. intros Hf. unfold try_update. by rewrite Hf. Qed.

Lemma db_update_found m change mtype ref note db i p :
  list_find (fun p => msku p = m) (products db) = Some (i, p) ->
  try_update now m change mtype ref note db
  = (with_rows db (<[i := set_stock p (current_stock p + change) now]> (products db))
       (movements db
        ++ [mkInventoryMovement m mtype change (current_stock p)
              (current_stock p + change) ref note]),
     (true, Updated m (current_stock p) (current_stock p + change))).
Proof. intros Hf. unfold try_update. by rewrite Hf. Qed.

Lemma db_update_step m change mtype ref note db :
  Forall2 (product_step [m]) (products db)
          (products (try_update now m change mtype ref note db).1).
Proof.
  destruct (list_find (fun p => msku p = m) (products db)) as [[i p]|] eqn:Hf.
  - rewrite (db_update_found _ _ _ _ _ _ _ _ Hf). simpl.
    apply list_find_Some in Hf as (Hi & Hp & _).
    rewrite <- (list_insert_id _ _ _ Hi) at 1.
    apply Forall2_insert; [apply Forall2_product_step_diag|].
    split; [by repeat split|].
    intros Hnot. exfalso. apply Hnot. rewrite Hp. apply list_elem_of_here.
  - rewrite (db_update_not_found _ _ _ _ _ _ Hf). apply Forall2_product_step_diag.
Qed.

Lemma db_apply_step changes db :
  Forall2 (product_step changes.*1) (products db)
    (products (apply_flushed now batch_id file_notes changes db).1).
Proof.
  revert db. induction changes as [|[m total] changes IH]; intros db; simpl.
  - apply Forall2_product_step_diag.
  - pose proof (db_update_step m (- total) "Sale" (Some batch_id) (Some file_notes) db) as H1.
    destruct (try_update now m (- total) "Sale" (Some batch_id) (Some file_notes) db)
      as [db1 [success message]]; simpl in H1.
    specialize (IH db1).
    destruct (apply_flushed now batch_id file_notes changes db1) as [db2 printed].
    simpl in *. by eapply Forall2_product_step_compose.
Qed.

Lemma db_apply_app changes1 changes2 db :
  apply_flushed now batch_id file_notes (changes1 ++ changes2) db
  = let '(db1, printed1) := apply_flushed now batch_id file_notes changes1 db in
    let '(db2, printed2) := apply_flushed now batch_id file_notes changes2 db1 in
    (db2, printed1 ++ printed2).
Proof.
  revert db. induction changes1 as [|[m total] changes1 IH]; intros db; simpl.
  - by destruct (apply_flushed now batch_id file_notes changes2 db).
  - destruct (try_update now m (- total) "Sale" (Some batch_id) (Some file_notes) db)
      as [db1 [success message]].
    rewrite IH.
    destruct (apply_flushed now batch_id file_notes changes1 db1) as [db2 printed1].
    destruct (apply_flushed now batch_id file_notes changes2 db2) as [db3 printed2].
    by destruct success.
Qed.

(** The first product of an MSKU stays the first, and stays as it was,
    through a run that does not hold that MSKU. *)
Lemma product_step_find_other ks m l l' i p :
  m ∉ ks -> Forall2 (product_step ks) l l' ->
  list_find (fun p => msku p = m) l = Some (i, p) ->
  list_find (fun p => msku p = m) l' = Some (i, p).
Proof.
  intros Hm Hl. revert i. induction Hl as [|x y l l' [Hs Hk] _ IH]; intros i; csimpl; [done|].
  destruct Hs as (_ & Hmsku & _). rewrite Hmsku.
  case_decide as Hx.
  - intros [= <- <-]. rewrite Hk; [done | by rewrite Hx].
  - intros ([j q] & Hj & Heq)%fmap_Some. simpl in Heq. injection Heq as -> ->.
    by rewrite (IH _ Hj).
Qed.


(** When the flush passes, the call is its [try] block; when every flush
    of the batch passes, the loop is the loop of the [try] blocks. *)
Lemma db_update_flushed accepts m change mtype ref note db :
  flush accepts db = true ->
  update_inventory accepts now m change mtype ref note db
  = try_update now m change mtype ref note db.
Proof. intros Hf. unfold update_inventory. by rewrite Hf. Qed.

Lemma db_update_rolled_back accepts m change mtype ref note db :
  flush accepts db = false ->
  update_inventory accepts now m change mtype ref note db
  = (rollback db, (false, UpdateError)).
Proof. intros Hf. unfold update_inventory. by rewrite Hf. Qed.

Lemma db_apply_flushed accepts changes db :
  flushes_through accepts now batch_id file_notes changes db = true ->
  apply_inventory_changes accepts now batch_id file_notes changes db
  = apply_flushed now batch_id file_notes changes db.
Proof.
  revert db. induction changes as [|[m total] changes IH]; intros db; simpl; [done|].
  intros [Hflush Hrest]%andb_true_iff.
  rewrite (db_update_flushed accepts _ _ _ _ _ _ Hflush).
  destruct (try_update now m (- total) "Sale" (Some batch_id) (Some file_notes) db)
    as [db1 [success message]]; simpl in *.
  by rewrite (IH db1 Hrest).
Qed.


End database_facts.

(** ** The row loop of [process_sales_file] *)

Lemma ne_str_true o s : o ≠ Some (Str s) -> ne_str o s = true.
Proof.
  destruct o as [[|t|z]|]; simpl; try done.
  intros Hne. apply negb_true_iff, bool_decide_eq_false. congruence.
Qed.


Lemma amazon_filtered_not_sellable row :
  not_sellable_shipment row -> amazon_filtered Amazon row = true.
Proof.
  intros [H|H]; unfold amazon_filtered; simpl.
  - by rewrite (ne_str_true _ _ H).
  - rewrite (ne_str_true _ _ H). apply orb_true_r.
Qed.


Section sales_rows.
Variables (self : WMSProcessor.t) (platform : Platform) (sku_column : string).
Implicit Types (row : Series) (st : SalesState).

Lemma process_rows_app rows1 rows2 st :
  process_rows self platform sku_column (rows1 ++ rows2) st
  = (st1 ← process_rows self platform sku_column rows1 st;
     process_rows self platform sku_column rows2 st1).
Proof.
  revert st. induction rows1 as [|row rows1 IH]; intros st; simpl; [done|].
  destruct (process_row self platform sku_column row st) as [st1|e]; simpl; [apply IH | done].
Qed.

Lemma process_row_missing_data row st :
  missing_data sku_column row ->
  process_row self platform sku_column row st = Ok st.
Proof.
  intros (s & Hs & Hcase). unfold process_row, series_getitem. rewrite Hs. simpl.
  destruct Hcase as [->|(z & -> & Hz)]; simpl; [done|].
  destruct (isna s); simpl; [done|].
  by rewrite (proj2 (Z.leb_le z 0) Hz).
Qed.

(** A row that the loop passes over can be taken out of the file. *)
Lemma process_rows_drop row before after :
  (forall st, process_row self platform sku_column row st = Ok st) ->
  forall st,
    process_rows self platform sku_column (before ++ row :: after) st
    = process_rows self platform sku_column (before ++ after) st.
Proof.
  intros Hrow st. rewrite !process_rows_app.
  destruct (process_rows self platform sku_column before st) as [st1|e]; simpl; [|done].
  by rewrite Hrow.
Qed.

(** The guard and the filter passed, the row is resolved. *)
Lemma process_row_resolved row s st :
  series_get sku_column row = Some s -> s ≠ NaN ->
  le (series_get_default "Quantity" (Num 1) row) 0 = Ok false ->
  amazon_filtered platform row = false ->
  process_row self platform sku_column row st
  = match map_sku_to_msku self s with
    | Combo components =>
        expand_combo row s (series_get_default "Quantity" (Num 1) row)
                     platform components st
    | Single m =>
        inventory_changes ← dict_incr m (series_get_default "Quantity" (Num 1) row) st.2;
        Ok (st.1 ++ [single_line row m platform], inventory_changes)
    | NotFound => Ok (st.1 ++ [unknown_line row platform], st.2)
    end.
Proof.
  intros Hs Hna Hle Hf. unfold process_row, series_getitem. rewrite Hs. simpl.
  destruct s; [done | |]; simpl; rewrite Hle; simpl; by rewrite Hf.
Qed.

End sales_rows.

(** The same facts for the desktop mapper, which has no platform filter. *)
Lemma gui_process_row_resolved (self : SKUMapperGUI.t) sku_column row s st :
  series_get sku_column row = Some s -> s ≠ NaN ->
  le (series_get_default "Quantity" (Num 1) row) 0 = Ok false ->
  SKUMapperGUI.process_row self sku_column row st
  = match SKUMapperGUI.map_sku_to_msku self s with
    | Combo components =>
        SKUMapperGUI.expand_combo row s (series_get_default "Quantity" (Num 1) row)
                                  components st
    | Single m =>
        inventory_changes ← dict_incr m (series_get_default "Quantity" (Num 1) row) st.2;
        Ok (st.1 ++ [SKUMapperGUI.single_line row m], inventory_changes)
    | NotFound => Ok (st.1 ++ [SKUMapperGUI.unknown_line row], st.2)
    end.
Proof.
  intros Hs Hna Hle. unfold SKUMapperGUI.process_row, series_getitem. rewrite Hs. simpl.
  destruct s; [done | |]; simpl; by rewrite Hle.
Qed.

(** ** Quantities in the dictionary of changes *)

Lemma counted_get d k v :
  counted_values d -> assoc_get k d = Some v -> exists z, v = Num z.
Proof.
  intros Hd Hg%assoc_get_Some_elem. unfold counted_values in Hd.
  rewrite Forall_forall in Hd. apply (Hd _ Hg).
Qed.

Lemma counted_set d k z :
  counted_values d -> counted_values (assoc_set k (Num z) d).
Proof.
  unfold counted_values. induction 1 as [|[k0 v0] d Hkv Hd IH]; simpl.
  - constructor; [by exists z | constructor].
  - destruct (decide (k0 = k)); constructor; simpl; eauto.
Qed.

Lemma numeric_set d k v :
  is_number v -> numeric_values d -> numeric_values (assoc_set k v d).
Proof.
  intros Hv. unfold numeric_values. induction 1 as [|[k0 v0] d Hkv Hd IH]; simpl.
  - by repeat constructor.
  - destruct (decide (k0 = k)); constructor; simpl; eauto.
Qed.

Lemma numeric_get d k v :
  numeric_values d -> assoc_get k d = Some v -> is_number v.
Proof.
  intros Hd Hg%assoc_get_Some_elem. unfold numeric_values in Hd.
  rewrite Forall_forall in Hd. apply (Hd _ Hg).
Qed.

Lemma isna_false k : k ≠ NaN -> isna k = false.
Proof. by destruct k. Qed.

(** [dict_incr] of a number into a dictionary of numbers returns, and
    the values stay numbers. *)
Lemma dict_incr_returns k q d :
  is_number q -> numeric_values d ->
  exists d', dict_incr k q d = Ok d' /\ numeric_values d'.
Proof.
  intros Hq Hnum. unfold dict_incr. destruct (isna k).
  - eexists. split; [done|]. apply Forall_app. split; [done|]. by repeat constructor.
  - destruct (assoc_get k d) as [v|] eqn:Hg.
    + destruct (add_number v q (numeric_get _ _ _ Hnum Hg) Hq) as (c & -> & Hc). simpl.
      eexists. split; [done|]. by apply numeric_set.
    + eexists. split; [done|]. by apply numeric_set.
Qed.

Lemma dict_incr_numeric k q d d' :
  is_number q -> numeric_values d -> dict_incr k q d = Ok d' -> numeric_values d'.
Proof.
  intros Hq Hnum Hd. destruct (dict_incr_returns k q d Hq Hnum) as (d0 & Hd0 & Hnum0).
  congruence.
Qed.

(** A key that is not missing is found again: the keys stay without
    repetition. *)
Lemma dict_incr_keys k q d d' :
  k ≠ NaN -> NoDup (keys d) -> dict_incr k q d = Ok d' ->
  NoDup (keys d') /\ forall x, x ∈ keys d' <-> x ∈ keys d \/ x = k.
Proof.
  intros Hk Hnd. unfold dict_incr, keys in *. rewrite (isna_false k Hk).
  destruct (assoc_get k d) as [v|] eqn:Hg.
  - destruct (add v q) as [c|e]; simpl; [|done]. intros [= <-].
    rewrite assoc_set_keys_present by (by exists v). split; [done|].
    intros x. split; [by left|]. intros [Hx| ->]; [done|].
    destruct (decide (k ∈ d.*1)) as [Hin|Hout]; [done|].
    apply assoc_get_None_keys in Hout. congruence.
  - intros [= <-]. rewrite assoc_set_keys_absent by done. split.
    + apply NoDup_app. split; [done|]. split; [|apply NoDup_singleton].
      intros x Hx ->%list_elem_of_singleton. by apply assoc_get_None_keys in Hg.
    + intros x. rewrite elem_of_app, list_elem_of_singleton. done.
Qed.

(** The entry of a key after [n] more units, when the sum is exact. *)
Lemma dict_incr_entry k n d :
  k ≠ NaN -> numeric_values d -> exact (sold d k + n) ->
  exists d',
    dict_incr k (Num n) d = Ok d'
    /\ numeric_values d'
    /\ assoc_get k d'
       = Some (match assoc_get k d with
               | Some (Num z) => Num (z + n)
               | Some v => v
               | None => Num n
               end)
    /\ (forall k', k' ≠ k -> assoc_get k' d' = assoc_get k' d).
Proof.
  intros Hk Hnum Hexact. unfold dict_incr, sold in *. rewrite (isna_false k Hk).
  destruct (assoc_get k d) as [v|] eqn:Hg.
  - pose proof (numeric_get _ _ _ Hnum Hg) as Hv.
    destruct v as [|t|z]; [|done|]; simpl.
    + eexists. split; [done|]. split; [by apply numeric_set|].
      split; [apply assoc_get_set_eq|]. intros k' Hk'. by apply assoc_get_set_ne.
    + rewrite (int64_exact _ Hexact).
      eexists. split; [done|]. split; [by apply numeric_set|].
      split; [apply assoc_get_set_eq|]. intros k' Hk'. by apply assoc_get_set_ne.
  - eexists. split; [done|]. split; [by apply numeric_set|].
    split; [apply assoc_get_set_eq|]. intros k' Hk'. by apply assoc_get_set_ne.
Qed.

Lemma dict_incr_counted d k n :
  k ≠ NaN -> counted_values d -> exact (sold d k + n) ->
  exists d', dict_incr k (Num n) d = Ok d'
    /\ counted_values d'
    /\ assoc_get k d' = Some (Num (sold d k + n))
    /\ (forall k', k' ≠ k -> assoc_get k' d' = assoc_get k' d).
Proof.
  intros Hk Hd Hexact. unfold dict_incr, sold in *. rewrite (isna_false k Hk).
  destruct (assoc_get k d) as [v|] eqn:Hg.
  - destruct (counted_get _ _ _ Hd Hg) as [z ->]. simpl.
    rewrite (int64_exact _ Hexact).
    eexists. split; [done|]. split; [by apply counted_set|].
    split; [apply assoc_get_set_eq|]. intros k' Hk'. by apply assoc_get_set_ne.
  - eexists. split; [done|]. split; [by apply counted_set|].
    split; [apply assoc_get_set_eq|]. intros k' Hk'. by apply assoc_get_set_ne.
Qed.

(** The MSKUs that [map_sku_to_msku] answers with are not missing when
    the tables hold no missing MSKU. *)
Lemma map_sku_to_msku_notna self s :
  resolves_to_mskus self ->
  match map_sku_to_msku self s with
  | Combo components => Forall (fun c => c ≠ NaN) components
  | Single m => m ≠ NaN
  | NotFound => True
  end.
Proof.
  intros [Hmap Hcombo]. unfold map_sku_to_msku.
  destruct (assoc_get s (combo_mapping self)) as [components|] eqn:Hg.
  - apply assoc_get_Some_elem in Hg. rewrite Forall_forall in Hcombo.
    apply (Hcombo _ Hg).
  - destruct (mapping_matches (mapping_data self) s) as [|r rest] eqn:Hm; [done|].
    assert (r ∈ mapping_data self) as Hr.
    { eapply (list_elem_of_filter (fun r => pd_eq (sku r) s = true)).
      unfold mapping_matches in Hm. rewrite Hm. apply list_elem_of_here. }
    rewrite Forall_forall in Hmap. by apply Hmap.
Qed.

(** The dictionary that the row loop builds: its values are numbers, and
    with no missing MSKU in the tables it holds each key once and no
    missing key. *)
Lemma expand_combo_numeric row s q platform components st st' :
  is_number q -> numeric_values st.2 ->
  expand_combo row s q platform components st = Ok st' -> numeric_values st'.2.
Proof.
  intros Hq. revert st. induction components as [|c components IH]; intros st Hnum; simpl.
  - by intros [= <-].
  - destruct (dict_incr c q st.2) as [d|e] eqn:Hd; simpl; [|done].
    apply IH. simpl. by eapply dict_incr_numeric.
Qed.

Lemma dict_incr_clean k q d d' :
  k ≠ NaN -> NoDup (keys d) /\ NaN ∉ keys d -> dict_incr k q d = Ok d' ->
  NoDup (keys d') /\ NaN ∉ keys d'.
Proof.
  intros Hk [Hnd Hna] Hd. destruct (dict_incr_keys _ _ _ _ Hk Hnd Hd) as [Hnd' Hkeys].
  split; [done|]. rewrite Hkeys. intros [?|?]; [done | congruence].
Qed.

Lemma expand_combo_keys row s q platform components st st' :
  Forall (fun c => c ≠ NaN) components -> NoDup (keys st.2) /\ NaN ∉ keys st.2 ->
  expand_combo row s q platform components st = Ok st' ->
  NoDup (keys st'.2) /\ NaN ∉ keys st'.2.
Proof.
  intros Hcs. revert st. induction Hcs as [|c components Hc _ IH]; intros st Hnd; simpl.
  - by intros [= <-].
  - destruct (dict_incr c q st.2) as [d|e] eqn:Hd; simpl; [|done].
    apply IH. simpl. by eapply dict_incr_clean.
Qed.

Lemma process_row_numeric self platform sku_column row st st' :
  numeric_values st.2 ->
  process_row self platform sku_column row st = Ok st' -> numeric_values st'.2.
Proof.
  intros Hnum. unfold process_row.
  destruct (series_getitem sku_column row) as [s|e]; simpl; [|done].
  set (quantity := series_get_default "Quantity" (Num 1) row).
  assert (forall b, le quantity 0 = Ok b -> is_number quantity) as Hle
    by (destruct quantity; done).
  destruct (isna s); simpl; [by intros [= <-]|].
  destruct (le quantity 0) as [[]|e] eqn:Hq; simpl; [by intros [= <-] | | done].
  specialize (Hle _ eq_refl).
  destruct (amazon_filtered platform row); [by intros [= <-]|].
  destruct (map_sku_to_msku self s) as [components|m|].
  - by apply expand_combo_numeric.
  - destruct (dict_incr m quantity st.2) as [d|e] eqn:Hd; simpl; [|done].
    intros [= <-]. simpl. by eapply dict_incr_numeric.
  - by intros [= <-].
Qed.

Lemma process_row_keys self platform sku_column row st st' :
  resolves_to_mskus self -> NoDup (keys st.2) /\ NaN ∉ keys st.2 ->
  process_row self platform sku_column row st = Ok st' ->
  NoDup (keys st'.2) /\ NaN ∉ keys st'.2.
Proof.
  intros Hself Hnd. unfold process_row.
  destruct (series_getitem sku_column row) as [s|e]; simpl; [|done].
  destruct (isna s); simpl; [by intros [= <-]|].
  destruct (le _ 0) as [[]|e]; simpl; [by intros [= <-] | | done].
  destruct (amazon_filtered platform row); [by intros [= <-]|].
  pose proof (map_sku_to_msku_notna self s Hself) as Hna.
  destruct (map_sku_to_msku self s) as [components|m|].
  - by apply expand_combo_keys.
  - destruct (dict_incr m _ st.2) as [d|e] eqn:Hd; simpl; [|done].
    intros [= <-]. simpl. by eapply dict_incr_clean.
  - by intros [= <-].
Qed.

Lemma process_rows_numeric self platform sku_column sales_rows st st' :
  numeric_values st.2 ->
  process_rows self platform sku_column sales_rows st = Ok st' -> numeric_values st'.2.
Proof.
  revert st. induction sales_rows as [|row sales_rows IH]; intros st Hnum; simpl.
  - by intros [= <-].
  - destruct (process_row self platform sku_column row st) as [st1|e] eqn:H1; simpl; [|done].
    apply IH. by eapply process_row_numeric.
Qed.

Lemma process_rows_keys self platform sku_column sales_rows st st' :
  resolves_to_mskus self -> NoDup (keys st.2) /\ NaN ∉ keys st.2 ->
  process_rows self platform sku_column sales_rows st = Ok st' ->
  NoDup (keys st'.2) /\ NaN ∉ keys st'.2.
Proof.
  intros Hself. revert st.
  induction sales_rows as [|row sales_rows IH]; intros st Hnd; simpl.
  - by intros [= <-].
  - destruct (process_row self platform sku_column row st) as [st1|e] eqn:H1; simpl; [|done].
    apply IH. by eapply process_row_keys.
Qed.

Lemma process_sales_file_changes_numeric self df :
  numeric_values (result_changes (process_sales_file self df)).
Proof.
  unfold process_sales_file.
  destruct (get_sku_column _ _) as [sku_column|]; simpl; [|constructor].
  destruct (process_rows self _ sku_column (rows df) ([], [])) as [st|e] eqn:Hrun; simpl;
    [|constructor].
  eapply process_rows_numeric; [|exact Hrun]. constructor.
Qed.

Lemma process_sales_file_changes_keys self df :
  resolves_to_mskus self ->
  NoDup (keys (result_changes (process_sales_file self df)))
  /\ NaN ∉ keys (result_changes (process_sales_file self df)).
Proof.
  intros Hself. unfold process_sales_file.
  destruct (get_sku_column _ _) as [sku_column|]; simpl;
    [|split; [constructor | apply not_elem_of_nil]].
  destruct (process_rows self _ sku_column (rows df) ([], [])) as [st|e] eqn:Hrun; simpl;
    [|split; [constructor | apply not_elem_of_nil]].
  eapply process_rows_keys; [done | |exact Hrun].
  split; [constructor | apply not_elem_of_nil].
Qed.

(** In a file without a 'Quantity' column no row has a quantity. *)
Lemma no_quantity_column df row :
  frame_wf df -> "Quantity" ∉ columns df -> row ∈ rows df ->
  series_get "Quantity" row = None.
Proof.
  unfold frame_wf. rewrite Forall_forall. intros Hwf Hcol Hrow.
  apply assoc_get_None_keys. by rewrite (Hwf row Hrow).
Qed.

(** ** The combo dictionary *)

Lemma row_components_notna row : Forall (fun c => c ≠ NaN) (row_components row).
Proof.
  unfold row_components. induction component_columns as [|col cols IH]; simpl; [constructor|].
  apply Forall_app. split; [|done].
  destruct (series_get col row) as [[|s|z]|]; simpl; by repeat constructor.
Qed.

(** A key of the dictionary that [create_combo_mapping] builds is the
    'Combo ' cell, not missing, of a combo row with at least one
    component, and its components are the non-missing cells SKU1..SKU14 of
    such a row. *)
Lemma create_combo_mapping_from_keys combo_rows combo_map combo_map' :
  create_combo_mapping_from combo_rows combo_map = Ok combo_map' ->
  forall k components,
    assoc_get k combo_map' = Some components ->
    assoc_get k combo_map = Some components
    \/ exists row,
         row ∈ combo_rows /\ series_get "Combo " row = Some k /\ k ≠ NaN
         /\ components = row_components row /\ components ≠ [].
Proof.
  revert combo_map. induction combo_rows as [|row combo_rows IH]; intros combo_map; simpl.
  - intros [= <-] k components Hk. by left.
  - unfold series_getitem.
    destruct (series_get "Combo " row) as [combo_sku|] eqn:Hsku; simpl; [|done].
    assert (forall k components,
              (exists row', row' ∈ combo_rows /\ series_get "Combo " row' = Some k
                 /\ k ≠ NaN /\ components = row_components row' /\ components ≠ []) ->
              exists row', row' ∈ row :: combo_rows /\ series_get "Combo " row' = Some k
                 /\ k ≠ NaN /\ components = row_components row' /\ components ≠ []) as Hmono.
    { intros k components (row' & Hin & Hrest). exists row'.
      split; [by apply list_elem_of_further | done]. }
    destruct (notna combo_sku) eqn:Hna.
    2: { intros Hrun k components Hk.
         destruct (IH _ Hrun k components Hk) as [|]; [by left | right; by apply Hmono]. }
    destruct (row_components row) as [|c cs] eqn:Hcs.
    { intros Hrun k components Hk.
      destruct (IH _ Hrun k components Hk) as [|]; [by left | right; by apply Hmono]. }
    intros Hrun k components Hk.
    destruct (IH _ Hrun k components Hk) as [Hold|]; [|right; by apply Hmono].
    destruct (decide (combo_sku = k)) as [->|Hne].
    + rewrite assoc_get_set_eq in Hold. injection Hold as <-.
      right. exists row. split; [apply list_elem_of_here|]. split; [done|].
      split; [by destruct k|]. by rewrite Hcs.
    + rewrite assoc_get_set_ne in Hold by done. by left.
Qed.

Lemma create_combo_mapping_keys combo_rows combo_map k components :
  create_combo_mapping combo_rows = Ok combo_map ->
  assoc_get k combo_map = Some components ->
  exists row,
    row ∈ combo_rows /\ series_get "Combo " row = Some k /\ k ≠ NaN
    /\ components = row_components row /\ components ≠ [].
Proof.
  intros Hrun Hk.
  by destruct (create_combo_mapping_from_keys _ _ _ Hrun k components Hk) as [|].
Qed.

(** The combo dictionary of the sample processor is the one built from its
    combo sheet. *)
Example sample_combo_mapping :
  create_combo_mapping (combo_data Samples.processor)
  = Ok (combo_mapping Samples.processor).
Proof. reflexivity. Qed.

(** ** Resolution of a SKU *)

Lemma filter_head_split {A} (P : A -> Prop) `{!forall x, Decision (P x)} l r rest :
  filter P l = r :: rest ->
  exists before after,
    l = before ++ r :: after /\ P r /\ Forall (fun x => ¬ P x) before.
Proof.
  induction l as [|x l IH]; [done|]. rewrite filter_cons.
  case_decide as Hx.
  - intros [= -> _]. exists [], l. by repeat split.
  - intros (before & after & -> & Hr & Hb)%IH.
    exists (x :: before), after. repeat split; [done|]. by constructor.
Qed.

Lemma filter_head_join {A} (P : A -> Prop) `{!forall x, Decision (P x)} before r after :
  P r -> Forall (fun x => ¬ P x) before ->
  filter P (before ++ r :: after) = r :: filter P after.
Proof.
  intros Hr. induction 1 as [|x before Hx _ IH]; simpl.
  - by rewrite filter_cons_True.
  - by rewrite filter_cons_False.
Qed.

(** C1, as amended.  A SKU that is a key of the combo dictionary and has a
    row in the mapping table resolves to [Combo] in the web application;
    in the desktop mapper it does so when 'Handle Combo Products' is
    ticked, and resolves to [Single], by the first mapping row, when the
    box is not ticked. *)
Theorem map_sku_to_msku_combo_first
    (web : WMSProcessor.t) (gui : SKUMapperGUI.t) (s : cell) :
  assoc_mem s (combo_mapping web) = true ->
  mapping_matches (mapping_data web) s ≠ [] ->
  SKUMapperGUI.combo_mapping gui = combo_mapping web ->
  SKUMapperGUI.mapping_data gui = mapping_data web ->
  exists components r rest,
    assoc_get s (combo_mapping web) = Some components
    /\ mapping_matches (mapping_data web) s = r :: rest
    /\ map_sku_to_msku web s = Combo components
    /\ SKUMapperGUI.map_sku_to_msku gui s
       = if SKUMapperGUI.handle_combos gui then Combo components else Single (msku r).
Proof.
  unfold assoc_mem. intros Hmem Hmatch Hcombo Hmapping.
  destruct (assoc_get s (combo_mapping web)) as [components|] eqn:Hget; [|done].
  destruct (mapping_matches (mapping_data web) s) as [|r rest] eqn:Hm; [done|].
  exists components, r, rest. repeat split.
  - unfold map_sku_to_msku. by rewrite Hget.
  - unfold SKUMapperGUI.map_sku_to_msku. rewrite Hcombo, Hmapping, Hget, Hm.
    by destruct (SKUMapperGUI.handle_combos gui).
Qed.

Lemma map_sku_to_msku_combo_first_witness :
  exists components r rest,
    assoc_get Samples.combo_x (combo_mapping Samples.processor) = Some components
    /\ mapping_matches (mapping_data Samples.processor) Samples.combo_x = r :: rest
    /\ map_sku_to_msku Samples.processor Samples.combo_x = Combo components
    /\ SKUMapperGUI.map_sku_to_msku Samples.mapper_ticked Samples.combo_x
       = if SKUMapperGUI.handle_combos Samples.mapper_ticked
         then Combo components else Single (msku r).
Proof.
  apply (map_sku_to_msku_combo_first Samples.processor Samples.mapper_ticked
           Samples.combo_x); [reflexivity | discriminate | reflexivity | reflexivity].
Defined.

(** C1, as stated, fails in the desktop mapper: with 'Handle Combo
    Products' unticked, COMBO_X, a key of the combo dictionary that also
    has a mapping row, resolves to [Single]. *)
Lemma gui_unticked_resolves_single :
  assoc_mem Samples.combo_x (SKUMapperGUI.combo_mapping Samples.mapper_unticked) = true
  /\ mapping_matches (SKUMapperGUI.mapping_data Samples.mapper_unticked) Samples.combo_x ≠ []
  /\ SKUMapperGUI.map_sku_to_msku Samples.mapper_unticked Samples.combo_x
     = Single Samples.msku009.
Proof. split; [reflexivity | split; [discriminate | reflexivity]]. Qed.

(** C6, as amended.  [map_sku_to_msku] takes no platform: it answers
    [Single m] exactly when the SKU is no key of the combo dictionary (in
    the desktop mapper: or the combo box is unticked) and [m] is the MSKU
    of the first mapping row whose [sku] equals it, whatever platform the
    file was detected as. *)
Theorem map_sku_to_msku_single_first_match
    (web : WMSProcessor.t) (gui : SKUMapperGUI.t) (s m : cell) :
  (map_sku_to_msku web s = Single m
   <-> assoc_get s (combo_mapping web) = None
       /\ exists before r after,
            mapping_data web = before ++ r :: after
            /\ pd_eq (sku r) s = true /\ msku r = m
            /\ Forall (fun r' => pd_eq (sku r') s ≠ true) before)
  /\ (SKUMapperGUI.map_sku_to_msku gui s = Single m
      <-> (SKUMapperGUI.handle_combos gui = false
           \/ assoc_get s (SKUMapperGUI.combo_mapping gui) = None)
          /\ exists before r after,
               SKUMapperGUI.mapping_data gui = before ++ r :: after
               /\ pd_eq (sku r) s = true /\ msku r = m
               /\ Forall (fun r' => pd_eq (sku r') s ≠ true) before).
Proof.
  split.
  - unfold map_sku_to_msku, mapping_matches. split.
    + destruct (assoc_get s (combo_mapping web)); [done|].
      destruct (filter _ (mapping_data web)) as [|r rest] eqn:Hf; [done|].
      intros [= <-]. split; [done|].
      destruct (filter_head_split _ _ _ _ Hf) as (before & after & ? & ? & ?).
      by exists before, r, after.
    + intros [-> (before & r & after & -> & Hr & <- & Hb)].
      by rewrite (filter_head_join (fun r => pd_eq (sku r) s = true) before r after Hr Hb).
  - unfold SKUMapperGUI.map_sku_to_msku, mapping_matches. split.
    + intros Hres.
      assert ((if SKUMapperGUI.handle_combos gui
               then assoc_get s (SKUMapperGUI.combo_mapping gui) else None) = None) as Hnone.
      { destruct (if SKUMapperGUI.handle_combos gui then _ else _); done. }
      rewrite Hnone in Hres. split.
      { destruct (SKUMapperGUI.handle_combos gui); [by right | by left]. }
      destruct (filter _ (SKUMapperGUI.mapping_data gui)) as [|r rest] eqn:Hf; [done|].
      injection Hres as <-.
      destruct (filter_head_split _ _ _ _ Hf) as (before & after & ? & ? & ?).
      by exists before, r, after.
    + intros [Hgate (before & r & after & -> & Hr & <- & Hb)].
      rewrite (filter_head_join (fun r => pd_eq (sku r) s = true) before r after Hr Hb).
      destruct Hgate as [-> | ->]; [done|].
      by destruct (SKUMapperGUI.handle_combos gui).
Qed.

(** C6, as stated, fails: SKU-F has a mapping row for Flipkart only, and a
    file detected as Amazon still resolves it to [Single]. *)
Lemma single_ignores_platform :
  detect_platform (columns Samples.amazon_shipment_file) = Amazon
  /\ filter (fun r => Spec.entry_for_platform Amazon (Str "SKU-F") r = true)
            (mapping_data Samples.processor) = []
  /\ map_sku_to_msku Samples.processor (Str "SKU-F") = Single Samples.msku001
  /\ series_get "Product_Type"
       <$> result_lines (process_sales_file Samples.processor Samples.amazon_shipment_file)
     = [Some (Str "Single")]
  /\ result_changes (process_sales_file Samples.processor Samples.amazon_shipment_file)
     = [(Samples.msku001, Num 2)].
Proof. repeat split; vm_compute; reflexivity. Qed.

(** ** Rows the loop passes over *)

(** C4.  A row whose SKU cell is missing, or whose quantity is a number
    not above zero, is passed over without an exception: the accumulated
    lines and changes stay as they are, and the file gives the same result
    as the file without that row. *)
Theorem missing_data_row_skipped
    (self : WMSProcessor.t) (cols : list string) (platform : Platform)
    (sku_column : string) (row : Series) (before after : list Series) :
  missing_data sku_column row ->
  (forall st, process_row self platform sku_column row st = Ok st)
  /\ (forall st,
        process_rows self platform sku_column (before ++ row :: after) st
        = process_rows self platform sku_column (before ++ after) st)
  /\ (get_sku_column cols (detect_platform cols) = Some sku_column ->
      platform = detect_platform cols ->
      process_sales_file self (mkDataFrame cols (before ++ row :: after))
      = process_sales_file self (mkDataFrame cols (before ++ after))).
Proof.
  intros Hmiss.
  assert (forall st, process_row self platform sku_column row st = Ok st) as Hrow
    by (intros st; by apply process_row_missing_data).
  split; [done|]. split; [by apply process_rows_drop|].
  intros Hcol ->. unfold process_sales_file. simpl. rewrite Hcol.
  by rewrite process_rows_drop.
Qed.

Lemma missing_data_row_skipped_witness :
  process_row Samples.processor Meesho "SKU" Samples.zero_quantity_row Samples.no_sales
  = Ok Samples.no_sales
  /\ process_sales_file Samples.processor
       (mkDataFrame (columns Samples.meesho_combo_file)
          (Samples.zero_quantity_row :: rows Samples.meesho_combo_file))
     = process_sales_file Samples.processor Samples.meesho_combo_file.
Proof.
  destruct (missing_data_row_skipped Samples.processor
              (columns Samples.meesho_combo_file) Meesho "SKU"
              Samples.zero_quantity_row [] (rows Samples.meesho_combo_file))
    as (Hrow & _ & Hfile).
  - exists (Str "SKU-F"). split; [reflexivity|].
    right. exists 0%Z. split; [reflexivity | lia].
  - split; [apply Hrow | exact (Hfile eq_refl eq_refl)].
Defined.

(** C8.  In a file detected as Amazon, a row that is not a sellable
    shipment adds no line and no change, whatever its SKU: the loop passes
    over it, or, when reading the row raises (no SKU cell, or a quantity
    that is text), the whole file fails with no frame and an empty
    dictionary.  The file gives the result of the file without that row,
    or that failure. *)
Theorem amazon_row_filtered
    (self : WMSProcessor.t) (cols : list string) (sku_column : string)
    (row : Series) (before after : list Series) :
  detect_platform cols = Amazon ->
  get_sku_column cols Amazon = Some sku_column ->
  not_sellable_shipment row ->
  (forall st, process_row self Amazon sku_column row st = Ok st
              \/ exists e, process_row self Amazon sku_column row st = Raise e)
  /\ (forall s, series_get sku_column row = Some s ->
        s = NaN \/ is_number (series_get_default "Quantity" (Num 1) row) ->
        forall st, process_row self Amazon sku_column row st = Ok st)
  /\ (process_sales_file self (mkDataFrame cols (before ++ row :: after))
      = process_sales_file self (mkDataFrame cols (before ++ after))
      \/ exists e,
          process_sales_file self (mkDataFrame cols (before ++ row :: after))
          = Failed (Caught e)).
Proof.
  intros Hplat Hcol Hrow.
  pose proof (amazon_filtered_not_sellable row Hrow) as Hf.
  assert (forall st, process_row self Amazon sku_column row st = Ok st
                     \/ exists e, process_row self Amazon sku_column row st = Raise e) as H1.
  { intros st. unfold process_row, series_getitem.
    destruct (series_get sku_column row) as [s|]; simpl; [|eauto].
    destruct (isna s); simpl; [by left|].
    destruct (le _ 0) as [[]|e]; simpl; [by left | | eauto].
    rewrite Hf. by left. }
  split; [done|]. split.
  - intros s Hs Hnum st. unfold process_row, series_getitem. rewrite Hs. simpl.
    destruct Hnum as [->|Hnum]; [done|].
    destruct (isna s); simpl; [done|].
    destruct (series_get_default "Quantity" (Num 1) row) as [|t|z]; simpl in *; [| done |].
    + by rewrite Hf.
    + destruct (z <=? 0)%Z; [done | by rewrite Hf].
  - unfold process_sales_file. simpl. rewrite Hplat, Hcol, !process_rows_app.
    destruct (process_rows self Amazon sku_column before ([], [])) as [st1|e]; simpl;
      [|by left].
    destruct (H1 st1) as [-> | [e ->]]; simpl; [by left | right; by exists e].
Qed.

Lemma amazon_row_filtered_witness :
  (forall st, process_row Samples.processor Amazon "FNSKU" Samples.amazon_return_row st = Ok st
              \/ exists e, process_row Samples.processor Amazon "FNSKU"
                             Samples.amazon_return_row st = Raise e)
  /\ (forall s, series_get "FNSKU" Samples.amazon_return_row = Some s ->
        s = NaN
        \/ is_number (series_get_default "Quantity" (Num 1) Samples.amazon_return_row) ->
        forall st, process_row Samples.processor Amazon "FNSKU"
                     Samples.amazon_return_row st = Ok st)
  /\ (process_sales_file Samples.processor
        (mkDataFrame (columns Samples.amazon_shipment_file)
           (rows Samples.amazon_shipment_file ++ Samples.amazon_return_row :: []))
      = process_sales_file Samples.processor
          (mkDataFrame (columns Samples.amazon_shipment_file)
             (rows Samples.amazon_shipment_file ++ []))
      \/ exists e,
          process_sales_file Samples.processor
            (mkDataFrame (columns Samples.amazon_shipment_file)
               (rows Samples.amazon_shipment_file ++ Samples.amazon_return_row :: []))
          = Failed (Caught e)).
Proof.
  apply (amazon_row_filtered Samples.processor (columns Samples.amazon_shipment_file)
           "FNSKU" Samples.amazon_return_row (rows Samples.amazon_shipment_file) []);
    [reflexivity | reflexivity | left; discriminate].
Defined.

(** ** Lines and changes of a resolved row *)

Lemma series_get_set_eq label v (row : Series) :
  series_get label (series_set label v row) = Some v.
Proof. apply assoc_get_set_eq. Qed.

Lemma series_get_set_ne label label' v (row : Series) :
  label ≠ label' -> series_get label' (series_set label v row) = series_get label' row.
Proof. apply assoc_get_set_ne. Qed.

Lemma combo_line_fields row s c q platform :
  series_get "Quantity" (combo_line row s c q platform) = Some q
  /\ series_get "MSKU" (combo_line row s c q platform) = Some c
  /\ series_get "Original_SKU" (combo_line row s c q platform) = Some s
  /\ series_get "Product_Type" (combo_line row s c q platform)
     = Some (Str "Combo_Component").
Proof.
  unfold combo_line.
  repeat split;
    repeat (rewrite series_get_set_ne by discriminate); apply series_get_set_eq.
Qed.

Lemma gui_combo_line_fields row s c q :
  series_get "Quantity" (SKUMapperGUI.combo_line row s c q) = Some q
  /\ series_get "MSKU" (SKUMapperGUI.combo_line row s c q) = Some c.
Proof.
  unfold SKUMapperGUI.combo_line.
  repeat split;
    repeat (rewrite series_get_set_ne by discriminate); apply series_get_set_eq.
Qed.

(** The lines of single and unmapped rows carry the 'Quantity' field of
    the input row, and none when the row has none. *)
Lemma plain_line_quantity row m platform :
  series_get "Quantity" (single_line row m platform) = series_get "Quantity" row
  /\ series_get "Quantity" (unknown_line row platform) = series_get "Quantity" row
  /\ series_get "Quantity" (SKUMapperGUI.single_line row m) = series_get "Quantity" row
  /\ series_get "Quantity" (SKUMapperGUI.unknown_line row) = series_get "Quantity" row.
Proof.
  unfold single_line, unknown_line, SKUMapperGUI.single_line, SKUMapperGUI.unknown_line.
  repeat split; by repeat (rewrite series_get_set_ne by discriminate).
Qed.

(** *** Adding the units of a row to the changes *)

Lemma occurrences_nil k : occurrences k [] = 0%Z.
Proof. done. Qed.

Lemma occurrences_cons k c cs :
  occurrences k (c :: cs)
  = ((if decide (c = k) then 1 else 0) + occurrences k cs)%Z.
Proof.
  unfold occurrences. rewrite filter_cons. destruct (decide (c = k)); simpl; lia.
Qed.

Lemma occurrences_nonneg k cs : (0 <= occurrences k cs)%Z.
Proof. unfold occurrences. lia. Qed.

Lemma exact_between a b c : exact a -> exact c -> (a <= b <= c)%Z -> exact b.
Proof. unfold exact. lia. Qed.

Lemma raised_nil n d k : raised [] n d k = assoc_get k d.
Proof.
  unfold raised. rewrite occurrences_nil.
  destruct (assoc_get k d) as [[|t|z]|]; try done.
  do 2 f_equal. lia.
Qed.

(** One line per component, in the order of the components, and [n] units
    more for each occurrence of an MSKU among them. *)
Lemma expand_combo_raised row s n platform components st :
  Forall (fun c => c ≠ NaN) components -> numeric_values st.2 ->
  (0 <= n)%Z -> room components n st.2 ->
  exists changes,
    expand_combo row s (Num n) platform components st
    = Ok (st.1 ++ map (fun c => combo_line row s c (Num n) platform) components, changes)
    /\ numeric_values changes
    /\ forall k, assoc_get k changes = raised components n st.2 k.
Proof.
  intros Hcs Hnum Hn. revert st Hnum.
  induction Hcs as [|c components Hc _ IH]; intros [lines d] Hnum Hroom; simpl in *.
  - exists d. rewrite app_nil_r. split; [done|]. split; [done|].
    intros k. by rewrite raised_nil.
  - destruct Hroom as [Hexact Hroom].
    destruct (Hroom c (list_elem_of_here _ _)) as [Hc0 Hc1].
    rewrite occurrences_cons, decide_True in Hc1 by done.
    pose proof (occurrences_nonneg c components) as Hocc.
    assert (exact (sold d c + n)) as Hstep.
    { apply (exact_between (sold d c) _ _ Hc0 Hc1). nia. }
    destruct (dict_incr_entry c n d Hc Hnum Hstep) as (d1 & -> & Hnum1 & Hget & Hother).
    simpl.
    destruct (IH (lines ++ [combo_line row s c (Num n) platform], d1) Hnum1)
      as (changes & -> & Hnum2 & Hentries).
    { split; [done|]. intros k Hk. simpl.
      destruct (Hroom k (list_elem_of_further _ _ _ Hk)) as [Hk0 Hk1].
      rewrite occurrences_cons in Hk1.
      pose proof (occurrences_nonneg k components) as Hok.
      destruct (decide (c = k)) as [->|Hne].
      - unfold sold in *. rewrite Hget.
        destruct (assoc_get k d) as [[|t|z]|]; split;
          apply (exact_between _ _ _ Hk0 Hk1); nia.
      - assert (sold d1 k = sold d k) as ->.
        { unfold sold. by rewrite Hother. }
        split; [done|]. by rewrite Z.add_0_l in Hk1. }
    exists changes. split; [simpl; by rewrite <- app_assoc|]. split; [done|].
    intros k. rewrite Hentries. unfold raised. simpl. rewrite occurrences_cons.
    destruct (decide (c = k)) as [->|Hne].
    + rewrite Hget.
      pose proof (fun v => numeric_get d k v Hnum) as Hv.
      destruct (assoc_get k d) as [[|t|z]|].
      * done.
      * by destruct (Hv _ eq_refl).
      * do 2 f_equal. lia.
      * rewrite bool_decide_eq_true_2 by apply list_elem_of_here. do 2 f_equal. lia.
    + rewrite Hother by done.
      destruct (assoc_get k d) as [[|t|z]|]; try done.
      rewrite Z.add_0_l.
      destruct (decide (k ∈ components)) as [Hin|Hout].
      * rewrite !bool_decide_eq_true_2; [done | by apply list_elem_of_further | done].
      * rewrite !bool_decide_eq_false_2; [done | | done].
        intros [->|Hin]%elem_of_cons; done.
Qed.

(** C2, as amended.  A row of a file that passes the guard and the
    filter, sells [N > 0] units and resolves to the combo [A; B] appends
    one line per component, each with 'Quantity' [N], and adds [N] to the
    quantity sold recorded for [A] and for [B], once for each time the
    MSKU stands in the combo: the dictionary of changes counts the units
    sold upwards, [+ N] and not [- N], a missing number stays missing,
    and every other entry stays as it was.  The components of a combo are
    MSKUs, never missing values, and the sums are within the whole
    numbers that every numeric cell holds exactly. *)
Theorem combo_row_fans_out
    (self : WMSProcessor.t) (platform : Platform) (sku_column : string)
    (before : list Series) (row : Series) (s A B : cell) (N : Z) (st : SalesState) :
  process_rows self platform sku_column before ([], []) = Ok st ->
  series_get sku_column row = Some s -> s ≠ NaN ->
  series_get_default "Quantity" (Num 1) row = Num N -> (0 < N)%Z ->
  amazon_filtered platform row = false ->
  map_sku_to_msku self s = Combo [A; B] -> A ≠ NaN -> B ≠ NaN ->
  room [A; B] N st.2 ->
  exists changes,
    process_rows self platform sku_column (before ++ [row]) ([], [])
    = Ok (st.1 ++ [combo_line row s A (Num N) platform;
                   combo_line row s B (Num N) platform], changes)
    /\ series_get "Quantity" (combo_line row s A (Num N) platform) = Some (Num N)
    /\ series_get "Quantity" (combo_line row s B (Num N) platform) = Some (Num N)
    /\ series_get "MSKU" (combo_line row s A (Num N) platform) = Some A
    /\ series_get "MSKU" (combo_line row s B (Num N) platform) = Some B
    /\ (forall k, assoc_get k changes = raised [A; B] N st.2 k).
Proof.
  intros Hbefore Hs Hna Hq HN Hf Hmap HA HB Hroom.
  rewrite process_rows_app, Hbefore. simpl.
  rewrite (process_row_resolved self platform sku_column row s st Hs Hna); [| |done].
  2: { rewrite Hq. simpl. by rewrite (proj2 (Z.leb_gt N 0) HN). }
  rewrite Hmap, Hq.
  destruct (expand_combo_raised row s N platform [A; B] st)
    as (changes & -> & _ & Hentries).
  - by repeat constructor.
  - eapply process_rows_numeric; [|exact Hbefore]. constructor.
  - lia.
  - done.
  - exists changes. simpl. split; [done|].
    destruct (combo_line_fields row s A (Num N) platform) as (-> & -> & _).
    destruct (combo_line_fields row s B (Num N) platform) as (-> & -> & _).
    by repeat split.
Qed.

Lemma combo_row_fans_out_witness :
  exists changes,
    process_rows Samples.processor Meesho "SKU" ([] ++ [Samples.combo_row]) ([], [])
    = Ok (Samples.no_sales.1
          ++ [combo_line Samples.combo_row
                Samples.combo_x Samples.msku001 (Num 3) Meesho;
              combo_line Samples.combo_row
                Samples.combo_x Samples.msku002 (Num 3) Meesho], changes)
    /\ series_get "Quantity"
         (combo_line Samples.combo_row
            Samples.combo_x Samples.msku001 (Num 3) Meesho) = Some (Num 3)
    /\ series_get "Quantity"
         (combo_line Samples.combo_row
            Samples.combo_x Samples.msku002 (Num 3) Meesho) = Some (Num 3)
    /\ series_get "MSKU"
         (combo_line Samples.combo_row
            Samples.combo_x Samples.msku001 (Num 3) Meesho) = Some Samples.msku001
    /\ series_get "MSKU"
         (combo_line Samples.combo_row
            Samples.combo_x Samples.msku002 (Num 3) Meesho) = Some Samples.msku002
    /\ (forall k,
          assoc_get k changes
          = raised [Samples.msku001; Samples.msku002] 3 Samples.no_sales.2 k).
Proof.
  apply (combo_row_fans_out Samples.processor Meesho "SKU" [] Samples.combo_row
           Samples.combo_x Samples.msku001 Samples.msku002 3 Samples.no_sales);
    [reflexivity | reflexivity | discriminate | reflexivity | lia | reflexivity
    | reflexivity | discriminate | discriminate |].
  split; [vm_compute; split; discriminate|].
  intros k Hk. apply elem_of_cons in Hk as [->|Hk].
  - vm_compute. repeat split; discriminate.
  - apply list_elem_of_singleton in Hk as ->. vm_compute. repeat split; discriminate.
Defined.

(** C2, as stated, fails: three COMBO_X sold record 3 for each component
    in the dictionary of changes, not -3.  And the sums are those of the
    cells: in a file of integer columns two rows of 2^62 units of the
    combo 7 leave -2^63 for each component, not 2^63. *)
Lemma combo_changes_count_units_sold :
  (map_sku_to_msku Samples.processor Samples.combo_x
   = Combo [Samples.msku001; Samples.msku002]
   /\ result_changes (process_sales_file Samples.processor Samples.meesho_combo_file)
      = [(Samples.msku001, Num 3); (Samples.msku002, Num 3)]
   /\ assoc_get Samples.msku001
        (result_changes (process_sales_file Samples.processor Samples.meesho_combo_file))
      ≠ Some (Num (-3))
   /\ assoc_get Samples.msku002
        (result_changes (process_sales_file Samples.processor Samples.meesho_combo_file))
      ≠ Some (Num (-3)))
  /\ (map_sku_to_msku Samples.numeric_processor (Num 7) = Combo [Num 1; Num 2]
      /\ result_changes
           (process_sales_file Samples.numeric_processor Samples.huge_combo_file)
         = [(Num 1, Num (- 2 ^ 63)); (Num 2, Num (- 2 ^ 63))]
      /\ (2 ^ 62 + 2 ^ 62 = 2 ^ 63)%Z).
Proof. repeat split; vm_compute; congruence. Qed.

(** The desktop mapper expands a combo in the same way, with its own
    lines. *)
Lemma gui_expand_combo_raised row s n components st :
  Forall (fun c => c ≠ NaN) components -> numeric_values st.2 ->
  (0 <= n)%Z -> room components n st.2 ->
  exists changes,
    SKUMapperGUI.expand_combo row s (Num n) components st
    = Ok (st.1 ++ map (fun c => SKUMapperGUI.combo_line row s c (Num n)) components,
          changes)
    /\ numeric_values changes
    /\ forall k, assoc_get k changes = raised components n st.2 k.
Proof.
  intros Hcs Hnum Hn. revert st Hnum.
  induction Hcs as [|c components Hc _ IH]; intros [lines d] Hnum Hroom; simpl in *.
  - exists d. rewrite app_nil_r. split; [done|]. split; [done|].
    intros k. by rewrite raised_nil.
  - destruct Hroom as [Hexact Hroom].
    destruct (Hroom c (list_elem_of_here _ _)) as [Hc0 Hc1].
    rewrite occurrences_cons, decide_True in Hc1 by done.
    pose proof (occurrences_nonneg c components) as Hocc.
    assert (exact (sold d c + n)) as Hstep.
    { apply (exact_between (sold d c) _ _ Hc0 Hc1). nia. }
    destruct (dict_incr_entry c n d Hc Hnum Hstep) as (d1 & -> & Hnum1 & Hget & Hother).
    simpl.
    destruct (IH (lines ++ [SKUMapperGUI.combo_line row s c (Num n)], d1) Hnum1)
      as (changes & -> & Hnum2 & Hentries).
    { split; [done|]. intros k Hk. simpl.
      destruct (Hroom k (list_elem_of_further _ _ _ Hk)) as [Hk0 Hk1].
      rewrite occurrences_cons in Hk1.
      pose proof (occurrences_nonneg k components) as Hok.
      destruct (decide (c = k)) as [->|Hne].
      - unfold sold in *. rewrite Hget.
        destruct (assoc_get k d) as [[|t|z]|]; split;
          apply (exact_between _ _ _ Hk0 Hk1); nia.
      - assert (sold d1 k = sold d k) as ->.
        { unfold sold. by rewrite Hother. }
        split; [done|]. by rewrite Z.add_0_l in Hk1. }
    exists changes. split; [simpl; by rewrite <- app_assoc|]. split; [done|].
    intros k. rewrite Hentries. unfold raised. simpl. rewrite occurrences_cons.
    destruct (decide (c = k)) as [->|Hne].
    + rewrite Hget.
      pose proof (fun v => numeric_get d k v Hnum) as Hv.
      destruct (assoc_get k d) as [[|t|z]|].
      * done.
      * by destruct (Hv _ eq_refl).
      * do 2 f_equal. lia.
      * rewrite bool_decide_eq_true_2 by apply list_elem_of_here. do 2 f_equal. lia.
    + rewrite Hother by done.
      destruct (assoc_get k d) as [[|t|z]|]; try done.
      rewrite Z.add_0_l.
      destruct (decide (k ∈ components)) as [Hin|Hout].
      * rewrite !bool_decide_eq_true_2; [done | by apply list_elem_of_further | done].
      * rewrite !bool_decide_eq_false_2; [done | | done].
        intros [->|Hin]%elem_of_cons; done.
Qed.

Lemma gui_process_rows_app (self : SKUMapperGUI.t) sku_column rows1 rows2 st :
  SKUMapperGUI.process_rows self sku_column (rows1 ++ rows2) st
  = (st1 ← SKUMapperGUI.process_rows self sku_column rows1 st;
     SKUMapperGUI.process_rows self sku_column rows2 st1).
Proof.
  revert st. induction rows1 as [|row rows1 IH]; intros st; simpl; [done|].
  destruct (SKUMapperGUI.process_row self sku_column row st) as [st1|e]; simpl;
    [apply IH | done].
Qed.

Lemma gui_expand_combo_numeric row s q components st st' :
  is_number q -> numeric_values st.2 ->
  SKUMapperGUI.expand_combo row s q components st = Ok st' -> numeric_values st'.2.
Proof.
  intros Hq. revert st. induction components as [|c components IH]; intros st Hnum; simpl.
  - by intros [= <-].
  - destruct (dict_incr c q st.2) as [d|e] eqn:Hd; simpl; [|done].
    apply IH. simpl. by eapply dict_incr_numeric.
Qed.

Lemma gui_process_row_numeric (self : SKUMapperGUI.t) sku_column row st st' :
  numeric_values st.2 ->
  SKUMapperGUI.process_row self sku_column row st = Ok st' -> numeric_values st'.2.
Proof.
  intros Hnum. unfold SKUMapperGUI.process_row.
  destruct (series_getitem sku_column row) as [s|e]; simpl; [|done].
  set (quantity := series_get_default "Quantity" (Num 1) row).
  assert (forall b, le quantity 0 = Ok b -> is_number quantity) as Hle
    by (destruct quantity; done).
  destruct (isna s); simpl; [by intros [= <-]|].
  destruct (le quantity 0) as [[]|e] eqn:Hq; simpl; [by intros [= <-] | | done].
  specialize (Hle _ eq_refl).
  destruct (SKUMapperGUI.map_sku_to_msku self s) as [components|m|].
  - by apply gui_expand_combo_numeric.
  - destruct (dict_incr m quantity st.2) as [d|e] eqn:Hd; simpl; [|done].
    intros [= <-]. simpl. by eapply dict_incr_numeric.
  - by intros [= <-].
Qed.

Lemma gui_process_rows_numeric (self : SKUMapperGUI.t) sku_column sales_rows st st' :
  numeric_values st.2 ->
  SKUMapperGUI.process_rows self sku_column sales_rows st = Ok st' ->
  numeric_values st'.2.
Proof.
  revert st. induction sales_rows as [|row sales_rows IH]; intros st Hnum; simpl.
  - by intros [= <-].
  - destruct (SKUMapperGUI.process_row self sku_column row st) as [st1|e] eqn:H1;
      simpl; [|done].
    apply IH. by eapply gui_process_row_numeric.
Qed.

(** One unit more for a single MSKU. *)
Lemma dict_incr_raised m n d :
  m ≠ NaN -> numeric_values d -> room [m] n d ->
  exists changes,
    dict_incr m (Num n) d = Ok changes
    /\ forall k, assoc_get k changes = raised [m] n d k.
Proof.
  intros Hm Hnum [Hexact Hroom].
  destruct (Hroom m (list_elem_of_here _ _)) as [_ Hm1].
  assert (occurrences m [m] = 1%Z) as Hocc.
  { rewrite occurrences_cons, decide_True by done. done. }
  rewrite Hocc, Z.mul_1_l in Hm1.
  destruct (dict_incr_entry m n d Hm Hnum Hm1) as (changes & -> & _ & Hget & Hother).
  exists changes. split; [done|]. intros k. unfold raised.
  destruct (decide (k = m)) as [->|Hne].
  - rewrite Hget, Hocc, Z.mul_1_l.
    pose proof (fun v => numeric_get d m v Hnum) as Hv.
    destruct (assoc_get m d) as [[|t|z]|]; try done.
    by rewrite bool_decide_eq_true_2 by apply list_elem_of_here.
  - rewrite Hother by done.
    assert (occurrences k [m] = 0%Z) as ->.
    { rewrite occurrences_cons, decide_False by done. done. }
    destruct (assoc_get k d) as [[|t|z]|]; try done.
    + do 2 f_equal. lia.
    + rewrite bool_decide_eq_false_2; [done|]. by intros ?%list_elem_of_singleton.
Qed.

(** *** The frame built from the lines *)

Lemma union_labels_from (cols : list string) (data : list Series) (label : string) :
  label ∈ foldl (fun cols row => cols ++ filter (fun label => label ∉ cols) row.*1)
            cols data
  <-> label ∈ cols \/ exists row, row ∈ data /\ label ∈ row.*1.
Proof.
  revert cols. induction data as [|row data IH]; intros cols; simpl.
  - split; [by left|]. intros [?|(row & Hrow & _)]; [done|].
    by apply elem_of_nil in Hrow.
  - rewrite IH, elem_of_app, list_elem_of_filter. split.
    + intros [[Hin|[_ Hin]]|(row' & Hrow' & Hin)].
      * by left.
      * right. exists row. split; [apply list_elem_of_here | done].
      * right. exists row'. split; [by apply list_elem_of_further | done].
    + intros [Hin|(row' & Hrow' & Hin)]; [by left; left|].
      apply elem_of_cons in Hrow' as [->|Hrow'].
      * left. destruct (decide (label ∈ cols)); [by left | by right].
      * right. by exists row'.
Qed.

Lemma elem_of_union_labels (data : list Series) (label : string) :
  label ∈ union_labels data <-> exists row, row ∈ data /\ label ∈ row.*1.
Proof.
  unfold union_labels. rewrite union_labels_from. split; [|by right].
  intros [Hin|?]; [|done]. by apply elem_of_nil in Hin.
Qed.

Lemma series_get_reindex (cols : list string) (row : Series) (label : string) :
  series_get label (reindex cols row)
  = if bool_decide (label ∈ cols) then Some (frame_cell label row) else None.
Proof.
  unfold series_get, reindex. induction cols as [|col cols IH]; simpl; [done|].
  destruct (decide (col = label)) as [->|Hne].
  - by rewrite bool_decide_eq_true_2 by apply list_elem_of_here.
  - rewrite IH. destruct (decide (label ∈ cols)) as [Hin|Hout].
    + rewrite !bool_decide_eq_true_2; [done | by apply list_elem_of_further | done].
    + rewrite !bool_decide_eq_false_2; [done | | done].
      intros [->|Hin]%elem_of_cons; done.
Qed.

Lemma has_label (row : Series) (label : string) : label ∈ row.*1 <-> is_Some (series_get label row).
Proof.
  unfold series_get. destruct (assoc_get label row) as [v|] eqn:Hg.
  - split; [by eexists|]. intros _.
    destruct (decide (label ∈ row.*1)) as [|Hout]; [done|].
    apply assoc_get_None_keys in Hout. congruence.
  - split; [|by intros [? [=]]]. intros Hin. by apply assoc_get_None_keys in Hg.
Qed.

(** A line in the frame: it keeps its cells, and has a missing value in
    the columns that only other lines brought. *)
Lemma frame_line (data : list Series) i (line : Series) (label : string) :
  data !! i = Some line ->
  exists line',
    rows (pd_DataFrame data) !! i = Some line'
    /\ series_get label line'
       = if bool_decide (label ∈ columns (pd_DataFrame data))
         then Some (frame_cell label line) else None.
Proof.
  intros Hi. exists (reindex (union_labels data) line). split.
  - simpl. by rewrite list_lookup_fmap, Hi.
  - apply series_get_reindex.
Qed.

(** C9, as amended.  A row without a 'Quantity' label, with its SKU
    present, passes the missing-data guard with the quantity 1.  In the
    web application an Amazon row must still pass the filter.  A combo
    row then appends one line per component, each with 'Quantity' 1, and
    adds 1 to the changes for each occurrence of an MSKU among the
    components; a single row appends its line and adds 1 to the changes
    of its MSKU; an unmapped row appends its line and adds nothing.  The
    line appended for a single or an unmapped row has no 'Quantity'
    label: in the frame that is built from the lines its 'Quantity' is a
    missing value when some line of the file has the label (a combo
    line), and the frame has no such column otherwise.  The MSKUs are not
    missing values and the sums are exact. *)
Theorem quantity_defaults_to_one
    (web : WMSProcessor.t) (gui : SKUMapperGUI.t) (platform : Platform)
    (sku_column : string) (before : list Series) (row : Series) (s : cell) :
  series_get "Quantity" row = None ->
  series_get sku_column row = Some s -> s ≠ NaN ->
  (forall st,
     process_rows web platform sku_column before ([], []) = Ok st ->
     (amazon_filtered platform row = true ->
      process_rows web platform sku_column (before ++ [row]) ([], []) = Ok st)
     /\ (amazon_filtered platform row = false ->
         match map_sku_to_msku web s with
         | Combo components =>
             Forall (fun c => c ≠ NaN) components -> room components 1 st.2 ->
             exists changes,
               process_rows web platform sku_column (before ++ [row]) ([], [])
               = Ok (st.1 ++ map (fun c => combo_line row s c (Num 1) platform)
                               components, changes)
               /\ forall k, assoc_get k changes = raised components 1 st.2 k
         | Single m =>
             m ≠ NaN -> room [m] 1 st.2 ->
             exists changes,
               process_rows web platform sku_column (before ++ [row]) ([], [])
               = Ok (st.1 ++ [single_line row m platform], changes)
               /\ forall k, assoc_get k changes = raised [m] 1 st.2 k
         | NotFound =>
             process_rows web platform sku_column (before ++ [row]) ([], [])
             = Ok (st.1 ++ [unknown_line row platform], st.2)
         end))
  /\ (forall st,
        SKUMapperGUI.process_rows gui sku_column before ([], []) = Ok st ->
        match SKUMapperGUI.map_sku_to_msku gui s with
        | Combo components =>
            Forall (fun c => c ≠ NaN) components -> room components 1 st.2 ->
            exists changes,
              SKUMapperGUI.process_rows gui sku_column (before ++ [row]) ([], [])
              = Ok (st.1 ++ map (fun c => SKUMapperGUI.combo_line row s c (Num 1))
                              components, changes)
              /\ forall k, assoc_get k changes = raised components 1 st.2 k
        | Single m =>
            m ≠ NaN -> room [m] 1 st.2 ->
            exists changes,
              SKUMapperGUI.process_rows gui sku_column (before ++ [row]) ([], [])
              = Ok (st.1 ++ [SKUMapperGUI.single_line row m], changes)
              /\ forall k, assoc_get k changes = raised [m] 1 st.2 k
        | NotFound =>
            SKUMapperGUI.process_rows gui sku_column (before ++ [row]) ([], [])
            = Ok (st.1 ++ [SKUMapperGUI.unknown_line row], st.2)
        end)
  /\ (forall c,
        series_get "Quantity" (combo_line row s c (Num 1) platform) = Some (Num 1)
        /\ series_get "Quantity" (SKUMapperGUI.combo_line row s c (Num 1)) = Some (Num 1))
  /\ (forall m,
        series_get "Quantity" (single_line row m platform) = None
        /\ series_get "Quantity" (unknown_line row platform) = None
        /\ series_get "Quantity" (SKUMapperGUI.single_line row m) = None
        /\ series_get "Quantity" (SKUMapperGUI.unknown_line row) = None)
  /\ (forall (processed_rows : list Series) (i : nat) (line : Series),
        processed_rows !! i = Some line ->
        ("Quantity" ∈ columns (pd_DataFrame processed_rows)
         <-> exists l, l ∈ processed_rows /\ is_Some (series_get "Quantity" l))
        /\ exists line',
             rows (pd_DataFrame processed_rows) !! i = Some line'
             /\ (series_get "Quantity" line = Some (Num 1) ->
                 series_get "Quantity" line' = Some (Num 1))
             /\ (series_get "Quantity" line = None ->
                 series_get "Quantity" line'
                 = if bool_decide ("Quantity" ∈ columns (pd_DataFrame processed_rows))
                   then Some NaN else None)).
Proof.
  intros Hq Hs Hna.
  assert (series_get_default "Quantity" (Num 1) row = Num 1) as Hdef
    by (unfold series_get_default; by rewrite Hq).
  split; [|split; [|split; [|split]]].
  - intros st Hbefore.
    pose proof (process_rows_numeric web platform sku_column before ([], []) st
                  (Forall_nil_2 _)  Hbefore) as Hnum.
    rewrite process_rows_app, Hbefore. simpl. split.
    + intros Hf. unfold process_row, series_getitem. rewrite Hs, Hdef. simpl.
      destruct (isna s) eqn:Hi; simpl; [done | by rewrite Hf].
    + intros Hf.
      rewrite (process_row_resolved web platform sku_column row s st Hs Hna);
        rewrite ?Hdef; [|done..].
      destruct (map_sku_to_msku web s) as [components|m|]; [| |done].
      * intros Hcs Hroom.
        destruct (expand_combo_raised row s 1 platform components st Hcs Hnum)
          as (changes & -> & _ & Hentries); [lia | done |].
        by exists changes.
      * intros Hm Hroom.
        destruct (dict_incr_raised m 1 st.2 Hm Hnum Hroom) as (changes & -> & Hentries).
        by exists changes.
  - intros st Hbefore.
    pose proof (gui_process_rows_numeric gui sku_column before ([], []) st
                  (Forall_nil_2 _) Hbefore) as Hnum.
    rewrite gui_process_rows_app, Hbefore. simpl.
    rewrite (gui_process_row_resolved gui sku_column row s st Hs Hna);
      rewrite ?Hdef; [|done].
    destruct (SKUMapperGUI.map_sku_to_msku gui s) as [components|m|]; [| |done].
    + intros Hcs Hroom.
      destruct (gui_expand_combo_raised row s 1 components st Hcs Hnum)
        as (changes & -> & _ & Hentries); [lia | done |].
      by exists changes.
    + intros Hm Hroom.
      destruct (dict_incr_raised m 1 st.2 Hm Hnum Hroom) as (changes & -> & Hentries).
      by exists changes.
  - intros c. split; [apply combo_line_fields | apply gui_combo_line_fields].
  - intros m. destruct (plain_line_quantity row m platform) as (-> & -> & -> & ->).
    by rewrite Hq.
  - intros processed_rows i line Hi. split.
    + simpl. rewrite elem_of_union_labels. split.
      * intros (l & Hl & Hin). exists l. split; [done|]. by apply has_label.
      * intros (l & Hl & Hin). exists l. split; [done|]. by apply has_label.
    + destruct (frame_line processed_rows i line "Quantity" Hi) as (line' & Hline' & Hcell).
      exists line'. split; [done|]. split.
      * intros Hline. rewrite Hcell, bool_decide_eq_true_2.
        -- unfold frame_cell, series_get_default. by rewrite Hline.
        -- simpl. apply elem_of_union_labels. exists line.
           split; [by eapply list_elem_of_lookup_2|]. apply has_label. by rewrite Hline.
      * intros Hline. rewrite Hcell.
        unfold frame_cell, series_get_default. by rewrite Hline.
Qed.

Lemma quantity_defaults_to_one_witness :
  exists changes,
    process_rows Samples.processor Meesho "SKU" ([] ++ [Samples.no_quantity_row]) ([], [])
    = Ok (Samples.no_sales.1
          ++ [single_line Samples.no_quantity_row Samples.msku001 Meesho], changes)
    /\ forall k, assoc_get k changes = raised [Samples.msku001] 1 Samples.no_sales.2 k.
Proof.
  destruct (quantity_defaults_to_one Samples.processor Samples.mapper_ticked Meesho "SKU"
              [] Samples.no_quantity_row (Str "SKU-F"))
    as (Hweb & _); [reflexivity | reflexivity | discriminate |].
  destruct (Hweb Samples.no_sales) as [_ Hrow]; [reflexivity|].
  specialize (Hrow eq_refl).
  change (map_sku_to_msku Samples.processor (Str "SKU-F"))
    with (Single Samples.msku001) in Hrow.
  apply Hrow; [discriminate|].
  split; [vm_compute; split; discriminate|].
  intros k ->%list_elem_of_singleton. vm_compute. repeat split; discriminate.
Defined.

(** C9, as stated, fails.  In a file without a 'Quantity' column the
    frame returned for a single row has no 'Quantity' column at all; an
    unmapped row leaves the changes empty; in a file that also sells a
    combo the frame has the column, with 1 on the combo lines and a
    missing value on the line of the single row; and an Amazon return is
    passed over although its SKU is present. *)
Lemma default_quantity_not_recorded :
  (fun df => (columns df, series_get "Quantity" <$> rows df))
    <$> processed_df (process_sales_file Samples.processor Samples.meesho_no_quantity_single)
  = Some (["Sub Order No"; "SKU"; "MSKU"; "Product_Type"; "Platform"], [None])
  /\ result_changes (process_sales_file Samples.processor Samples.meesho_no_quantity_unknown)
     = []
  /\ (fun df => series_get "Quantity" <$> rows df)
       <$> processed_df
             (process_sales_file Samples.processor Samples.meesho_no_quantity_unknown)
     = Some [None]
  /\ (fun df => (columns df, series_get "Quantity" <$> rows df))
       <$> processed_df
             (process_sales_file Samples.processor Samples.meesho_no_quantity_mixed)
     = Some (["Sub Order No"; "SKU"; "Original_SKU"; "MSKU"; "Quantity"; "Product_Type";
              "Platform"],
             [Some (Num 1); Some (Num 1); Some NaN])
  /\ series_get "FNSKU" Samples.amazon_return_row = Some (Str "SKU-F")
  /\ process_sales_file Samples.processor Samples.amazon_return_file = Processed [] [].
Proof. repeat split. Qed.

(** ** The counters of the update loop *)

Section update_counters.
Variables msku_column quantity_column : string.
Implicit Types (inv : list Series) (m q : cell) (items : dict cell)
  (acc : nat * list Warning).

Lemma update_one_acc m q inv acc :
  update_one msku_column quantity_column m q inv acc
  = ((update_one msku_column quantity_column m q inv (0, [])).1,
     shift_acc acc (update_one msku_column quantity_column m q inv (0, [])).2).
Proof.
  unfold update_one.
  destruct (filter _ inv) as [|first others]; simpl.
  - by rewrite Nat.add_0_r.
  - destruct (sub _ q) as [new_qty|e]; simpl; [|done].
    destruct (stock_warning m new_qty) as [ws|e]; simpl; [|done].
    by rewrite Nat.add_1_r.
Qed.

Lemma shift_acc_shift acc a r :
  shift_acc (acc.1 + a.1, acc.2 ++ a.2) r = shift_acc acc (shift_acc a r).
Proof. destruct r as [b|e]; simpl; [|done]. by rewrite Nat.add_assoc, app_assoc. Qed.

Lemma update_loop_acc items inv acc :
  update_loop msku_column quantity_column items inv acc
  = ((update_loop msku_column quantity_column items inv (0, [])).1,
     shift_acc acc (update_loop msku_column quantity_column items inv (0, [])).2).
Proof.
  revert inv acc. induction items as [|[m q] items IH]; intros inv acc; simpl.
  - by rewrite Nat.add_0_r, app_nil_r; destruct acc.
  - rewrite (update_one_acc m q inv acc).
    destruct (update_one msku_column quantity_column m q inv (0, [])) as [inv1 [a1|e]];
      simpl; [|done].
    rewrite (IH inv1 (acc.1 + a1.1, acc.2 ++ a1.2)), (IH inv1 a1). simpl.
    by rewrite shift_acc_shift.
Qed.

Lemma stock_warning_keys m c ws :
  stock_warning m c = Ok ws -> Forall (fun w => warning_key w = m) ws.
Proof.
  unfold stock_warning.
  destruct (lt c 0) as [[]|e]; simpl; [intros [= <-]; by repeat constructor | | done].
  destruct (lt c 5) as [[]|e]; simpl; [| | done]; intros [= <-]; by repeat constructor.
Qed.

Lemma update_one_warning_keys m q inv inv' a :
  update_one msku_column quantity_column m q inv (0, []) = (inv', Ok a) ->
  Forall (fun w => warning_key w = m) a.2.
Proof.
  unfold update_one.
  destruct (filter _ inv) as [|first others]; simpl.
  - intros [= _ <-]. by repeat constructor.
  - destruct (sub _ q) as [new_qty|e]; simpl; [|done].
    destruct (stock_warning m new_qty) as [ws|e] eqn:Hws; simpl; [|done].
    intros [= _ <-]. simpl. by apply stock_warning_keys in Hws.
Qed.

Lemma update_loop_warning_keys items inv inv' a :
  update_loop msku_column quantity_column items inv (0, []) = (inv', Ok a) ->
  Forall (fun w => warning_key w ∈ keys items) a.2.
Proof.
  revert inv inv' a. induction items as [|[m q] items IH]; intros inv inv' a; simpl.
  - intros [= _ <-]. constructor.
  - destruct (update_one msku_column quantity_column m q inv (0, []))
      as [inv1 [a1|e]] eqn:H1; [|done].
    rewrite update_loop_acc.
    destruct (update_loop msku_column quantity_column items inv1 (0, []))
      as [inv2 [a2|e]] eqn:H2; simpl; [|done].
    intros [= _ <-]. simpl. apply Forall_app. split.
    + apply update_one_warning_keys in H1.
      eapply Forall_impl; [exact H1|]. intros w ->. apply list_elem_of_here.
    + apply IH in H2. eapply Forall_impl; [exact H2|].
      intros w Hw. by apply list_elem_of_further.
Qed.

Lemma filter_warning_key_other m (ws : list Warning) (ks : list cell) :
  m ∉ ks -> Forall (fun w => warning_key w ∈ ks) ws ->
  filter (fun w => warning_key w = m) ws = [].
Proof.
  intros Hm. induction 1 as [|w ws Hw _ IH]; [done|].
  rewrite filter_cons_False; [done|]. intros Heq. apply Hm. by rewrite <- Heq.
Qed.

Lemma filter_warning_key_same m (ws : list Warning) :
  Forall (fun w => warning_key w = m) ws ->
  filter (fun w => warning_key w = m) ws = ws.
Proof.
  induction 1 as [|w ws Hw _ IH]; [done|]. by rewrite filter_cons_True, IH.
Qed.

End update_counters.

(** ** A run of the update loop, entry by entry *)

Lemma Forall2_compose {A B C} (R1 : A -> B -> Prop) (R2 : B -> C -> Prop)
    (R3 : A -> C -> Prop) l1 l2 l3 :
  (forall x y z, R1 x y -> R2 y z -> R3 x z) ->
  Forall2 R1 l1 l2 -> Forall2 R2 l2 l3 -> Forall2 R3 l1 l3.
Proof.
  intros HR H12. revert l3. induction H12 as [|x y l1 l2 Hxy _ IH]; intros l3 H23.
  - inversion H23; subst. constructor.
  - inversion H23 as [|? z ? l3' Hyz Hl']; subst. constructor; eauto.
Qed.

(** A key of a dictionary splits it into the entries before and after,
    none of which has that key. *)
Lemma split_entry {K V} (items : list (K * V)) k v :
  NoDup items.*1 -> (k, v) ∈ items ->
  exists before after,
    items = before ++ (k, v) :: after /\ (k ∉ before.*1) /\ (k ∉ after.*1).
Proof.
  intros Hnd (before & after & ->)%list_elem_of_split.
  exists before, after. split; [done|].
  rewrite fmap_app, fmap_cons in Hnd. simpl in Hnd.
  apply NoDup_app in Hnd as (_ & Hba & Hnd).
  apply NoDup_cons in Hnd as [Hafter _]. split; [|done].
  intros Hb. apply (Hba _ Hb), list_elem_of_here.
Qed.

Lemma update_inventory_run (self : WMSProcessor.t) items msku_column quantity_column :
  items ≠ [] ->
  find_msku_column (columns (current_inventory self)) = Some msku_column ->
  find_quantity_column (columns (current_inventory self)) = Some quantity_column ->
  update_inventory self items
  = (set_inventory_rows self
       (update_loop msku_column quantity_column items
          (rows (current_inventory self)) (0, [])).1,
     acc ← (update_loop msku_column quantity_column items
              (rows (current_inventory self)) (0, [])).2;
     Ok (Success acc.1 acc.2)).
Proof.
  intros Hne Hm Hq. unfold update_inventory. destruct items as [|item items]; [done|].
  rewrite Hm, Hq.
  by destruct (update_loop msku_column quantity_column (item :: items)
                 (rows (current_inventory self)) (0, [])).
Qed.

Section update_entry.
Variables msku_column quantity_column : string.
Hypothesis columns_differ : msku_column ≠ quantity_column.
Implicit Types (row : Series) (inv : list Series) (m k q : cell) (items : dict cell).

Lemma loc_set_Forall2 m v inv :
  Forall2 (fun row row' =>
             row' = if mask msku_column m row
                    then series_set quantity_column v row else row)
          inv (loc_set msku_column quantity_column m v inv).
Proof. unfold loc_set. induction inv; simpl; by constructor. Qed.

(** The entry of an MSKU that the ledger holds, in a run whose other
    entries are arbitrary numbers: the run returns, every row of that MSKU
    ends with the first row's stock less the quantity sold, and the
    warnings naming the MSKU are decided by that value against 0 and 5. *)
Lemma update_loop_found_entry items inv m n c first others :
  NoDup (keys items) -> (m, Num n) ∈ items ->
  numeric_values items -> numeric_column quantity_column inv ->
  filter (fun row => mask msku_column m row = true) inv = first :: others ->
  frame_cell quantity_column first = Num c ->
  exists inv' updated ws,
    update_loop msku_column quantity_column items inv (0, []) = (inv', Ok (updated, ws))
    /\ filter (fun w => warning_key w = m) ws
       = (if (int64 (c - n) <? 0)%Z then [NegativeStock m (Num (int64 (c - n)))]
          else if (int64 (c - n) <? 5)%Z then [LowStock m (Num (int64 (c - n)))] else [])
    /\ Forall2 (fun row row' =>
                  same_except quantity_column row row'
                  /\ (mask msku_column m row = true ->
                      frame_cell quantity_column row' = Num (int64 (c - n)))
                  /\ (mask msku_column m row = false ->
                      (forall k, k ∈ keys items -> mask msku_column k row = false) ->
                      row' = row))
               inv inv'.
Proof.
  intros Hnd Hin Hvalues Hinv Hfilter Hc.
  destruct (split_entry items m (Num n) Hnd Hin) as (before & after & -> & Hb & Ha).
  fold (keys before) in Hb. fold (keys after) in Ha.
  apply Forall_app in Hvalues as [Hvb Hva]. apply Forall_cons in Hva as [_ Hva].
  destruct (update_loop_numeric msku_column quantity_column before inv (0, []) Hvb Hinv)
    as (inv1 & a1 & Hrun1 & Hinv1).
  pose proof (update_loop_row_step msku_column quantity_column before inv (0, [])) as Hstep1.
  rewrite Hrun1 in Hstep1. simpl in Hstep1.
  pose proof (row_step_filter_other msku_column quantity_column _ m inv inv1
                columns_differ Hb Hstep1) as Hfilter1.
  rewrite Hfilter in Hfilter1.
  pose proof (update_one_found msku_column quantity_column m n c first others inv1 a1
                Hfilter1 Hc) as Hone.
  set (v := Num (int64 (c - n))) in *.
  set (inv2 := loc_set msku_column quantity_column m v inv1) in *.
  assert (numeric_column quantity_column inv2) as Hinv2 by by apply loc_set_numeric.
  destruct (update_loop_numeric msku_column quantity_column after inv2 (0, []) Hva Hinv2)
    as (inv3 & a3 & Hrun3 & _).
  pose proof (update_loop_row_step msku_column quantity_column after inv2 (0, [])) as Hstep3.
  rewrite Hrun3 in Hstep3. simpl in Hstep3.
  set (wsm := if (int64 (c - n) <? 0)%Z then [NegativeStock m v]
              else if (int64 (c - n) <? 5)%Z then [LowStock m v] else []) in *.
  exists inv3, (S a1.1 + a3.1), ((a1.2 ++ wsm) ++ a3.2). split; [|split].
  - rewrite update_loop_app, Hrun1. simpl. rewrite Hone.
    by rewrite update_loop_acc, Hrun3.
  - rewrite !filter_app.
    rewrite (filter_warning_key_other m a1.2 (keys before) Hb
               (update_loop_warning_keys _ _ _ _ _ _ Hrun1)).
    rewrite (filter_warning_key_other m a3.2 (keys after) Ha
               (update_loop_warning_keys _ _ _ _ _ _ Hrun3)).
    rewrite app_nil_r. simpl. apply filter_warning_key_same.
    unfold wsm. destruct (int64 (c - n) <? 0)%Z; [by repeat constructor|].
    destruct (int64 (c - n) <? 5)%Z; by repeat constructor.
  - assert (Forall2 (fun row1 row3 =>
                       row_step msku_column quantity_column (keys after)
                         (if mask msku_column m row1
                          then series_set quantity_column v row1 else row1) row3)
                    inv1 inv3) as Hstep13.
    { eapply Forall2_compose; [|apply (loc_set_Forall2 m v inv1)|exact Hstep3].
      intros x y z -> Hyz. exact Hyz. }
    eapply Forall2_compose; [|exact Hstep1|exact Hstep13].
    intros row0 row1 row3 [Hs01 Hk01] [Hs23 Hk23].
    assert (same_except quantity_column row1
              (if mask msku_column m row1
               then series_set quantity_column v row1 else row1)) as Hs12.
    { destruct (mask msku_column m row1);
        [apply same_except_set | apply same_except_refl]. }
    assert (forall k, mask msku_column k row1 = mask msku_column k row0) as Hm1
      by (intros k; by apply (mask_same_except msku_column quantity_column)).
    assert (forall k, mask msku_column k
                        (if mask msku_column m row1
                         then series_set quantity_column v row1 else row1)
                      = mask msku_column k row0) as Hm2.
    { intros k. rewrite <- Hm1.
      by apply (mask_same_except msku_column quantity_column). }
    split; [|split].
    + eapply same_except_trans; [exact Hs01|].
      eapply same_except_trans; [exact Hs12 | exact Hs23].
    + intros Hmask. rewrite Hk23.
      * rewrite Hm1, Hmask. apply frame_cell_set.
      * intros k Hk. rewrite Hm2.
        destruct (mask msku_column k row0) eqn:Hmk; [|done].
        exfalso. apply Ha. by rewrite (mask_functional _ m k row0 Hmask Hmk).
    + intros Hmask Hnone. rewrite Hk23.
      * rewrite Hm1, Hmask. apply Hk01.
        intros k Hk. apply Hnone. unfold keys. rewrite fmap_app.
        apply elem_of_app. by left.
      * intros k Hk. rewrite Hm2. apply Hnone. unfold keys.
        rewrite fmap_app, fmap_cons. apply elem_of_app. right.
        by apply list_elem_of_further.
Qed.

End update_entry.

(** ** A run of the database updates, entry by entry *)

Section database_entry.
Import DatabaseService.
Variables (now : Z) (batch_id file_notes : string).

Lemma list_find_insert m (l : list Product) i p p' :
  list_find (fun p => msku p = m) l = Some (i, p) -> msku p' = m ->
  list_find (fun p => msku p = m) (<[i := p']> l) = Some (i, p').
Proof.
  intros (Hi & _ & Hfirst)%list_find_Some Hp'. apply list_find_Some.
  split; [|split; [done|]].
  - apply list_lookup_insert_eq. by eapply lookup_lt_Some.
  - intros j y Hj Hlt. rewrite list_lookup_insert_ne in Hj by lia. by eapply Hfirst.
Qed.

(** The entry of an MSKU that the table holds, in a run whose other
    entries are arbitrary: its first product ends with the stock it had
    less the total sold. *)
Lemma db_apply_found_entry changes db m total i p :
  NoDup changes.*1 -> (m, total) ∈ changes ->
  list_find (fun p => msku p = m) (products db) = Some (i, p) ->
  list_find (fun p => msku p = m)
    (products (apply_flushed now batch_id file_notes changes db).1)
  = Some (i, set_stock p (current_stock p + - total) now).
Proof.
  intros Hnd Hin Hfind.
  destruct (split_entry changes m total Hnd Hin) as (before & after & -> & Hb & Ha).
  rewrite db_apply_app.
  pose proof (db_apply_step now batch_id file_notes before db) as Hstep1.
  destruct (apply_flushed now batch_id file_notes before db) as [db1 printed1].
  simpl in Hstep1.
  pose proof (product_step_find_other _ _ _ _ _ _ Hb Hstep1 Hfind) as Hfind1.
  simpl. rewrite (db_update_found now _ _ _ _ _ _ _ _ Hfind1).
  set (p' := set_stock p (current_stock p + - total) now).
  set (db2 := with_rows _ _ _).
  pose proof (db_apply_step now batch_id file_notes after db2) as Hstep3.
  destruct (apply_flushed now batch_id file_notes after db2) as [db3 printed3].
  simpl in *.
  apply (product_step_find_other _ _ _ _ _ _ Ha Hstep3).
  apply (list_find_insert m _ i p p'); [done|].
  by apply list_find_Some in Hfind as (_ & Hm & _).
Qed.


End database_entry.

(** ** The inventory update *)

Lemma exact_values_numeric d : exact_values d -> numeric_values d.
Proof.
  unfold exact_values, numeric_values. intros Hd.
  eapply Forall_impl; [exact Hd|]. intros [k v]; simpl. by destruct v.
Qed.












(** C10, as amended.  A call of the web application's update keeps the
    tables and the columns of the ledger, keeps every row whose MSKU is no
    key of the changes as it is, and changes no label of any row but the
    quantity column.  In the database service, a call whose flush passes
    and a batch loop in which every flush passes keep every product whose
    MSKU is no key as it is, and change no column of any product but
    [current_stock] and [updated_at], the time stamp that each update
    also writes; a call whose flush fails rolls the session back to the
    last commit. *)
Theorem update_inventory_frame
    (self : WMSProcessor.t) (items : dict cell)
    (accepts : DatabaseService.SalesRecord -> bool)
    (now : Z) (batch_id file_notes mtype : string) (ref note : option string)
    (changes : list (string * Z)) (db : DatabaseService.Session)
    (dm : string) (D : Z) :
  (mapping_data (update_inventory self items).1 = mapping_data self
   /\ combo_mapping (update_inventory self items).1 = combo_mapping self
   /\ columns (current_inventory (update_inventory self items).1)
      = columns (current_inventory self)
   /\ forall i row,
        rows (current_inventory self) !! i = Some row ->
        exists row',
          rows (current_inventory (update_inventory self items).1) !! i = Some row'
          /\ (forall quantity_column,
                find_quantity_column (columns (current_inventory self))
                = Some quantity_column ->
                same_except quantity_column row row')
          /\ (forall msku_column,
                find_msku_column (columns (current_inventory self)) = Some msku_column ->
                (forall k, k ∈ keys items -> mask msku_column k row = false) ->
                row' = row)
          /\ (find_msku_column (columns (current_inventory self)) = None
              \/ find_quantity_column (columns (current_inventory self)) = None ->
              row' = row))
  /\ (DatabaseService.flush accepts db = true ->
      forall i p,
        DatabaseService.products db !! i = Some p ->
        exists p',
          DatabaseService.products
            (DatabaseService.update_inventory accepts now dm D mtype ref note db).1 !! i
          = Some p'
          /\ same_but_stock p p'
          /\ (DatabaseService.msku p ≠ dm -> p' = p))
  /\ (DatabaseService.flush accepts db = false ->
      DatabaseService.update_inventory accepts now dm D mtype ref note db
      = (DatabaseService.rollback db, (false, DatabaseService.UpdateError)))
  /\ (flushes_through accepts now batch_id file_notes changes db = true ->
      forall i p,
        DatabaseService.products db !! i = Some p ->
        exists p',
          DatabaseService.products
            (DatabaseService.apply_inventory_changes
               accepts now batch_id file_notes changes db).1
            !! i = Some p'
          /\ same_but_stock p p'
          /\ (DatabaseService.msku p ∉ changes.*1 -> p' = p)).
Proof.
  split; [|split; [|split]].
  - assert (forall i row,
              rows (current_inventory self) !! i = Some row ->
              exists row',
                rows (current_inventory self) !! i = Some row'
                /\ (forall quantity_column,
                      find_quantity_column (columns (current_inventory self))
                      = Some quantity_column ->
                      same_except quantity_column row row')
                /\ (forall msku_column,
                      find_msku_column (columns (current_inventory self))
                      = Some msku_column ->
                      (forall k, k ∈ keys items -> mask msku_column k row = false) ->
                      row' = row)
                /\ (find_msku_column (columns (current_inventory self)) = None
                    \/ find_quantity_column (columns (current_inventory self)) = None ->
                    row' = row)) as Hsame.
    { intros i row Hrow. exists row. split; [done|].
      split; [intros; apply same_except_refl|]. split; intros; done. }
    destruct items as [|item items]; [done|].
    destruct (find_msku_column (columns (current_inventory self))) as [mc|] eqn:Hm.
    2: { unfold update_inventory. rewrite Hm. done. }
    destruct (find_quantity_column (columns (current_inventory self))) as [qc|] eqn:Hq.
    2: { unfold update_inventory. rewrite Hm, Hq. done. }
    clear Hsame.
    rewrite (update_inventory_run self (item :: items) mc qc); [|done..].
    split; [done|]. split; [done|]. split; [done|].
    intros i row Hrow.
    pose proof (update_loop_row_step mc qc (item :: items)
                  (rows (current_inventory self)) (0, [])) as Hstep.
    destruct (Forall2_lookup_l _ _ _ _ _ Hstep Hrow) as (row' & Hrow' & Hsame & Hkeep).
    exists row'. split; [done|]. split; [|split].
    + by intros ? [= <-].
    + by intros ? [= <-].
    + intros [|]; done.
  - intros Hflush i p Hp.
    rewrite (db_update_flushed now accepts _ _ _ _ _ _ Hflush).
    pose proof (db_update_step now dm D mtype ref note db) as Hstep.
    destruct (Forall2_lookup_l _ _ _ _ _ Hstep Hp) as (p' & Hp' & Hsame & Hkeep).
    exists p'. split; [done|]. split; [done|].
    intros Hne. apply Hkeep. by intros ?%list_elem_of_singleton.
  - apply db_update_rolled_back.
  - intros Hflush i p Hp.
    rewrite (db_apply_flushed now batch_id file_notes accepts changes db Hflush).
    pose proof (db_apply_step now batch_id file_notes changes db) as Hstep.
    destruct (Forall2_lookup_l _ _ _ _ _ Hstep Hp) as (p' & Hp' & Hsame & Hkeep).
    by exists p'.
Qed.

Lemma update_inventory_frame_witness :
  rows (current_inventory
          (update_inventory Samples.processor [(Samples.msku001, Num 3)]).1) !! 1
  = Some Samples.gadget_row
  /\ exists row',
       rows (current_inventory
               (update_inventory Samples.processor [(Samples.msku001, Num 3)]).1) !! 0
       = Some row'
       /\ same_except "Opening Stock" Samples.widget_row row'.
Proof.
  destruct (update_inventory_frame Samples.processor [(Samples.msku001, Num 3)]
              Samples.accepts_all 200 "batch" "notes" "Sale" None None
              Samples.totals Samples.session
              "MSKU001" (-3)) as ((_ & _ & _ & Hrows) & _ & _ & _).
  split.
  - destruct (Hrows 1 Samples.gadget_row eq_refl) as (row' & Hrow' & _ & Hkeep & _).
    rewrite Hrow'. f_equal. apply (Hkeep "msku" eq_refl).
    intros k Hk. apply list_elem_of_singleton in Hk. rewrite Hk. reflexivity.
  - destruct (Hrows 0 Samples.widget_row eq_refl) as (row' & Hrow' & Hsame & _).
    exists row'. split; [exact Hrow'|]. apply Hsame. reflexivity.
Defined.

(** C10, as stated, fails in the database service.  An update of
    Widget's stock at the instant 200 also rewrites its [updated_at],
    which was 100.  And a call whose flush fails changes products that
    are not its own: after the total 2^63 + 100 was written for Widget,
    the update of Gadget rolls the session back, and Widget's stock is 85
    again. *)
Lemma update_writes_time_stamp :
  (DatabaseService.products Samples.session !! 0 = Some Samples.widget
   /\ DatabaseService.updated_at Samples.widget = 100%Z
   /\ DatabaseService.updated_at
        <$> DatabaseService.products
              (DatabaseService.update_inventory Samples.accepts_all 200 "MSKU001" (-3)
                 "Sale" None None Samples.session).1 !! 0
      = Some 200%Z
   /\ DatabaseService.current_stock
        <$> DatabaseService.products
              (DatabaseService.update_inventory Samples.accepts_all 200 "MSKU001" (-3)
                 "Sale" None None Samples.session).1 !! 0
      = Some 82%Z)
  /\ (DatabaseService.current_stock
        <$> DatabaseService.products
              (DatabaseService.update_inventory Samples.accepts_all 200 "MSKU001"
                 (- (2 ^ 63 + 100)) "Sale" None None Samples.session).1
      = [(85 - (2 ^ 63 + 100))%Z; 4%Z]
      /\ DatabaseService.update_inventory Samples.accepts_all 201 "MSKU002" (-3)
           "Sale" None None
           (DatabaseService.update_inventory Samples.accepts_all 200 "MSKU001"
              (- (2 ^ 63 + 100)) "Sale" None None Samples.session).1
         = (Samples.session, (false, DatabaseService.UpdateError))
      /\ DatabaseService.current_stock <$> DatabaseService.products Samples.session
         = [85%Z; 4%Z]).
Proof. repeat split. Qed.

Lemma map_sku_to_msku_single_first_match_witness :
  map_sku_to_msku Samples.processor (Str "SKU-F") = Single Samples.msku001
  /\ SKUMapperGUI.map_sku_to_msku Samples.mapper_unticked Samples.combo_x
     = Single Samples.msku009.
Proof.
  destruct (map_sku_to_msku_single_first_match Samples.processor Samples.mapper_unticked
              (Str "SKU-F") Samples.msku001) as [[_ Hweb] _].
  destruct (map_sku_to_msku_single_first_match Samples.processor Samples.mapper_unticked
              Samples.combo_x Samples.msku009) as [_ [_ Hgui]].
  split.
  - apply Hweb. split; [reflexivity|].
    exists [mkMappingRow Samples.combo_x Samples.msku009 [("platform", Str "Meesho")]],
      (mkMappingRow (Str "SKU-F") Samples.msku001 [("platform", Str "Flipkart")]), [].
    repeat split. repeat constructor. discriminate.
  - apply Hgui. split; [by left|].
    exists [], (mkMappingRow Samples.combo_x Samples.msku009 [("platform", Str "Meesho")]),
      [mkMappingRow (Str "SKU-F") Samples.msku001 [("platform", Str "Flipkart")]].
    repeat split. constructor.
Defined.

(** * Further properties *)

(** ** What [process_sales_file] returns *)

(** X1.  With no missing MSKU in the mapping table and in the combos,
    the changes that [process_sales_file] returns are a dictionary as
    [update_inventory] expects it: each MSKU once, no missing key, and
    every quantity a number or a missing number, never text; a rejected
    file gives the empty one. *)
Theorem sales_changes_well_formed (self : WMSProcessor.t) (df : DataFrame) :
  resolves_to_mskus self ->
  NoDup (keys (result_changes (process_sales_file self df)))
  /\ (NaN ∉ keys (result_changes (process_sales_file self df)))
  /\ numeric_values (result_changes (process_sales_file self df))
  /\ (forall error,
        process_sales_file self df = Failed error ->
        result_changes (process_sales_file self df) = []).
Proof.
  intros Hself.
  destruct (process_sales_file_changes_keys self df Hself) as [Hnd Hna].
  split; [done|]. split; [done|].
  split; [apply process_sales_file_changes_numeric|].
  by intros error ->.
Qed.

Lemma sales_changes_well_formed_witness :
  NoDup (keys (result_changes
                 (process_sales_file Samples.processor Samples.meesho_combo_file)))
  /\ (NaN ∉ keys (result_changes
                    (process_sales_file Samples.processor Samples.meesho_combo_file)))
  /\ numeric_values (result_changes
                       (process_sales_file Samples.processor Samples.meesho_combo_file))
  /\ (forall error,
        process_sales_file Samples.processor Samples.meesho_combo_file = Failed error ->
        result_changes (process_sales_file Samples.processor Samples.meesho_combo_file)
        = []).
Proof.
  apply (sales_changes_well_formed Samples.processor Samples.meesho_combo_file).
  split; repeat constructor; discriminate.
Defined.

(** The SKU column that [get_sku_column] names is a column of the file. *)
Lemma get_sku_column_elem cols platform sku_column :
  get_sku_column cols platform = Some sku_column -> sku_column ∈ cols.
Proof.
  unfold get_sku_column. destruct platform; repeat case_bool_decide; naive_solver.
Qed.

Lemma series_get_label (row : Series) label :
  label ∈ row.*1 -> is_Some (series_get label row).
Proof.
  intros Hin. destruct (series_get label row) eqn:Hg; [by eexists|].
  by apply assoc_get_None_keys in Hg.
Qed.

Lemma expand_combo_returns row s q platform components st :
  is_number q -> numeric_values st.2 ->
  exists st', expand_combo row s q platform components st = Ok st'.
Proof.
  intros Hq. revert st. induction components as [|c components IH]; intros st Hnum; simpl.
  - eauto.
  - destruct (dict_incr_returns c q st.2 Hq Hnum) as (d & Hd & Hnum'). rewrite Hd. simpl.
    by apply IH.
Qed.

Lemma process_row_returns self platform sku_column row st :
  readable_row sku_column row -> numeric_values st.2 ->
  exists st', process_row self platform sku_column row st = Ok st'.
Proof.
  intros [[s Hs] Hq] Hnum. unfold process_row, series_getitem. rewrite Hs. simpl.
  destruct (isna s); simpl; [eauto|].
  destruct (series_get_default "Quantity" (Num 1) row) as [|t|z] eqn:Hquantity;
    simpl in *; [| done |].
  - destruct (amazon_filtered platform row); [eauto|].
    destruct (map_sku_to_msku self s) as [components|m|]; [| |eauto].
    + by apply expand_combo_returns.
    + destruct (dict_incr_returns m NaN st.2 I Hnum) as (d & -> & _). simpl. eauto.
  - destruct (z <=? 0)%Z; [eauto|].
    destruct (amazon_filtered platform row); [eauto|].
    destruct (map_sku_to_msku self s) as [components|m|]; [| |eauto].
    + by apply expand_combo_returns.
    + destruct (dict_incr_returns m (Num z) st.2 I Hnum) as (d & -> & _). simpl. eauto.
Qed.

Lemma process_rows_returns self platform sku_column sales_rows st :
  Forall (readable_row sku_column) sales_rows -> numeric_values st.2 ->
  exists st', process_rows self platform sku_column sales_rows st = Ok st'.
Proof.
  intros Hrows. revert st.
  induction Hrows as [|row sales_rows Hrow _ IH]; intros st Hnum; simpl; [eauto|].
  destruct (process_row_returns self platform sku_column row st Hrow Hnum) as [st1 H1].
  rewrite H1. simpl. apply IH. by eapply process_row_numeric.
Qed.

(** X2.  On a frame whose rows carry the frame's columns and whose
    quantity cells are not text, [process_sales_file] catches no
    exception: it returns the processed lines, or rejects the file for its
    missing SKU column. *)
Theorem process_sales_file_no_exception (self : WMSProcessor.t) (df : DataFrame) :
  frame_wf df ->
  Forall (fun row => is_number (series_get_default "Quantity" (Num 1) row)) (rows df) ->
  (exists processed_rows inventory_changes,
     process_sales_file self df = Processed processed_rows inventory_changes)
  \/ process_sales_file self df = Failed (NoSkuColumn (detect_platform (columns df))).
Proof.
  intros Hwf Hq. unfold process_sales_file.
  destruct (get_sku_column _ _) as [sku_column|] eqn:Hcol; [left | by right].
  assert (Forall (readable_row sku_column) (rows df)) as Hrows.
  { unfold frame_wf in Hwf. rewrite Forall_forall in *. intros row Hrow. split.
    - apply series_get_label. rewrite (Hwf row Hrow). by eapply get_sku_column_elem.
    - by apply Hq. }
  destruct (process_rows_returns self (detect_platform (columns df)) sku_column
              (rows df) ([], []) Hrows) as [st ->]; [constructor..|].
  by exists st.1, st.2.
Qed.

Lemma process_sales_file_no_exception_witness :
  (exists processed_rows inventory_changes,
     process_sales_file Samples.processor Samples.meesho_combo_file
     = Processed processed_rows inventory_changes)
  \/ process_sales_file Samples.processor Samples.meesho_combo_file
     = Failed (NoSkuColumn (detect_platform (columns Samples.meesho_combo_file))).
Proof.
  apply (process_sales_file_no_exception Samples.processor Samples.meesho_combo_file);
    repeat constructor.
Defined.

(** X3.  A row with its SKU present and a text quantity loses the whole
    file: [process_sales_file] returns no frame and an empty dictionary,
    also for the rows before it that were read without an exception. *)
Theorem text_quantity_fails_file
    (self : WMSProcessor.t) (cols : list string) (sku_column : string)
    (before after : list Series) (row : Series) (s : cell) (t : string) :
  get_sku_column cols (detect_platform cols) = Some sku_column ->
  Forall (readable_row sku_column) before ->
  series_get sku_column row = Some s -> s ≠ NaN ->
  series_get "Quantity" row = Some (Str t) ->
  process_sales_file self (mkDataFrame cols (before ++ row :: after))
  = Failed (Caught TypeError)
  /\ result_lines (process_sales_file self (mkDataFrame cols (before ++ row :: after))) = []
  /\ result_changes (process_sales_file self (mkDataFrame cols (before ++ row :: after))) = [].
Proof.
  intros Hcol Hbefore Hs Hna Hq.
  assert (process_sales_file self (mkDataFrame cols (before ++ row :: after))
          = Failed (Caught TypeError)) as Hfail.
  { unfold process_sales_file. simpl. rewrite Hcol, process_rows_app.
    destruct (process_rows_returns self (detect_platform cols) sku_column before ([], [])
                Hbefore) as [st1 ->]; [constructor..|].
    simpl. unfold process_row, series_getitem, series_get_default.
    rewrite Hs, Hq. simpl. by destruct s. }
  by rewrite Hfail.
Qed.

Lemma text_quantity_fails_file_witness :
  process_sales_file Samples.processor
    (mkDataFrame (columns Samples.meesho_combo_file)
       ([Samples.combo_row] ++ MoreSamples.text_quantity_row :: []))
  = Failed (Caught TypeError)
  /\ result_lines
       (process_sales_file Samples.processor
          (mkDataFrame (columns Samples.meesho_combo_file)
             ([Samples.combo_row] ++ MoreSamples.text_quantity_row :: []))) = []
  /\ result_changes
       (process_sales_file Samples.processor
          (mkDataFrame (columns Samples.meesho_combo_file)
             ([Samples.combo_row] ++ MoreSamples.text_quantity_row :: []))) = [].
Proof.
  apply (text_quantity_fails_file Samples.processor (columns Samples.meesho_combo_file)
           "SKU" [Samples.combo_row] [] MoreSamples.text_quantity_row
           (Str "SKU-F") "two");
    [reflexivity | | reflexivity | discriminate | reflexivity].
  constructor; [|constructor]. split; [by eexists | exact I].
Defined.

(** ** From the sales file to the ledger *)

(** X4.  The changes of a file, applied to a ledger whose stock column is
    numeric, with no missing MSKU in the tables: for an MSKU of the
    changes that the ledger holds, the call returns its report and every
    row of the MSKU ends with the first row's stock less the units sold,
    for quantities, a stock and a result that every numeric cell holds
    exactly.  That the dictionary holds each MSKU once is not assumed: it
    is one that [process_sales_file] built. *)
Theorem sales_file_reduces_stock
    (self : WMSProcessor.t) (df : DataFrame) (msku_column quantity_column : string)
    (m : cell) (n c : Z) (first : Series) (others : list Series) :
  resolves_to_mskus self ->
  find_msku_column (columns (current_inventory self)) = Some msku_column ->
  find_quantity_column (columns (current_inventory self)) = Some quantity_column ->
  msku_column ≠ quantity_column ->
  numeric_column quantity_column (rows (current_inventory self)) ->
  exact_values (result_changes (process_sales_file self df)) ->
  assoc_get m (result_changes (process_sales_file self df)) = Some (Num n) ->
  filter (fun row => mask msku_column m row = true) (rows (current_inventory self))
  = first :: others ->
  frame_cell quantity_column first = Num c ->
  exact c -> exact (c - n) ->
  exists updated warnings,
    (update_inventory self (result_changes (process_sales_file self df))).2
    = Ok (Success updated warnings)
    /\ Forall2 (fun row row' =>
                  mask msku_column m row = true ->
                  frame_cell quantity_column row' = Num (c - n))
               (rows (current_inventory self))
               (rows (current_inventory
                        (update_inventory self
                           (result_changes (process_sales_file self df))).1)).
Proof.
  intros Hself Hm Hq Hne Hinv Hvalues Hget Hfilter Hc Hexc Hexact.
  destruct (process_sales_file_changes_keys self df Hself) as [Hnd _].
  pose proof (assoc_get_Some_elem _ _ _ Hget) as Hin.
  destruct (update_loop_found_entry msku_column quantity_column Hne _ _ m n c
              first others Hnd Hin (exact_values_numeric _ Hvalues) Hinv Hfilter Hc)
    as (inv' & updated & ws & Hrun & _ & Hrows).
  rewrite (update_inventory_run self _ msku_column quantity_column); [| |done..].
  2: { intros Heq. rewrite Heq in Hin. by apply elem_of_nil in Hin. }
  rewrite Hrun. simpl. exists updated, ws. split; [done|].
  eapply Forall2_impl; [exact Hrows|]. intros row row' (_ & Hrow & _) Hmask.
  rewrite (Hrow Hmask). f_equal. by apply int64_exact.
Qed.

Lemma sales_file_reduces_stock_witness :
  exists updated warnings,
    (update_inventory Samples.processor
       (result_changes (process_sales_file Samples.processor
                          Samples.meesho_combo_file))).2
    = Ok (Success updated warnings)
    /\ Forall2 (fun row row' =>
                  mask "msku" Samples.msku002 row = true ->
                  frame_cell "Opening Stock" row' = Num (4 - 3))
               (rows (current_inventory Samples.processor))
               (rows (current_inventory
                        (update_inventory Samples.processor
                           (result_changes
                              (process_sales_file Samples.processor
                                 Samples.meesho_combo_file))).1)).
Proof.
  apply (sales_file_reduces_stock Samples.processor Samples.meesho_combo_file
           "msku" "Opening Stock" Samples.msku002 3%Z 4%Z Samples.gadget_row []).
  - split; repeat constructor; discriminate.
  - reflexivity.
  - reflexivity.
  - discriminate.
  - repeat constructor.
  - repeat constructor; vm_compute; discriminate.
  - reflexivity.
  - reflexivity.
  - reflexivity.
  - vm_compute. split; discriminate.
  - vm_compute. split; discriminate.
Defined.

(** ** The processing route *)

Lemma counted_numeric d : counted_values d -> numeric_values d.
Proof.
  unfold counted_values, numeric_values. intros Hd.
  eapply Forall_impl; [exact Hd|]. by intros [k v] [z ->].
Qed.

Lemma sold_cons m q (d : dict cell) k :
  sold ((m, q) :: d) k = if decide (m = k) then sold [(m, q)] m else sold d k.
Proof. unfold sold. simpl. destruct (decide (m = k)); [by rewrite decide_True | done]. Qed.

Lemma sold_absent (d : dict cell) k : k ∉ keys d -> sold d k = 0%Z.
Proof. intros Hk%assoc_get_None_keys. unfold sold. by rewrite Hk. Qed.

Lemma sold_nonzero (d : dict cell) k :
  sold d k ≠ 0%Z -> assoc_get k d = Some (Num (sold d k)).
Proof. unfold sold. by destruct (assoc_get k d) as [[|s|z]|]. Qed.

Lemma counted_from_zero_counted d : counted_from_zero d -> counted_values d.
Proof.
  unfold counted_from_zero, counted_values. intros Hd.
  eapply Forall_impl; [exact Hd|]. intros [k v] (z & -> & _). by exists z.
Qed.

Lemma sold_from_zero (d : dict cell) k : counted_from_zero d -> (0 <= sold d k)%Z.
Proof.
  intros Hd. unfold sold. destruct (assoc_get k d) as [[|t|z]|] eqn:Hg; try done.
  apply assoc_get_Some_elem in Hg. unfold counted_from_zero in Hd.
  rewrite Forall_forall in Hd. destruct (Hd _ Hg) as (z' & [= <-] & Hz). done.
Qed.

Lemma total_sold_from_zero self files k :
  Forall (fun df => counted_from_zero (result_changes (process_sales_file self df))) files ->
  (0 <= total_sold self files k)%Z.
Proof.
  induction 1 as [|df files Hdf _ IH]; simpl; [done|].
  pose proof (sold_from_zero _ k Hdf). lia.
Qed.

Lemma combine_changes_sold d total :
  NoDup (keys d) -> NaN ∉ keys d -> counted_values d ->
  NoDup (keys total) /\ NaN ∉ keys total -> counted_values total ->
  (forall k, exact (sold total k + sold d k)) ->
  exists total',
    Routes.combine_changes d total = Ok total'
    /\ (NoDup (keys total') /\ NaN ∉ keys total') /\ counted_values total'
    /\ forall k, sold total' k = (sold total k + sold d k)%Z.
Proof.
  revert total. induction d as [|[m q] d IH]; intros total Hnd Hna Hd Hclean Ht Hexact; simpl.
  - exists total. repeat split; try done; try apply Hclean.
    intros k. unfold sold at 3. simpl. lia.
  - unfold keys in Hnd, Hna. simpl in Hnd, Hna. apply NoDup_cons in Hnd as [Hm Hnd].
    apply not_elem_of_cons in Hna as [Hmna Hna].
    apply Forall_cons in Hd as [[n Hq] Hd]. simpl in Hq. subst q.
    assert (sold ((m, Num n) :: d) m = n) as Hsold_m.
    { unfold sold. simpl. by rewrite decide_True. }
    assert (m ≠ NaN) as Hm_na by congruence.
    destruct (dict_incr_counted total m n Hm_na Ht) as (t1 & Hincr & Ht1 & Hget & Hother).
    { specialize (Hexact m). by rewrite Hsold_m in Hexact. }
    rewrite Hincr. simpl.
    pose proof (dict_incr_clean m (Num n) total t1 Hm_na Hclean Hincr) as Hclean1.
    assert (forall k, sold t1 k = (sold total k + sold [(m, Num n)] k)%Z) as Hsold1.
    { intros k. destruct (decide (k = m)) as [->|Hne].
      - unfold sold at 1 3. rewrite Hget. simpl. by rewrite decide_True.
      - unfold sold at 1 3. rewrite (Hother k Hne). simpl.
        rewrite decide_False by done. unfold sold. lia. }
    assert (forall k, sold ((m, Num n) :: d) k = (sold [(m, Num n)] k + sold d k)%Z)
      as Hsplit.
    { intros k. rewrite sold_cons. destruct (decide (m = k)) as [<-|Hne].
      - rewrite (sold_absent d m Hm). lia.
      - unfold sold at 2. simpl. rewrite decide_False by done. lia. }
    destruct (IH t1 Hnd Hna Hd Hclean1 Ht1) as (total' & -> & Hclean' & Ht' & Hsold).
    { intros k. rewrite Hsold1. specialize (Hexact k). rewrite Hsplit in Hexact.
      by replace (sold total k + sold [(m, Num n)] k + sold d k)%Z
        with (sold total k + (sold [(m, Num n)] k + sold d k))%Z by lia. }
    exists total'. split; [done|]. split; [done|]. split; [done|].
    intros k. rewrite Hsold, Hsold1, Hsplit. lia.
Qed.

(** The changes are empty as long as no line was appended. *)
Lemma expand_combo_lines row s q platform components st st' :
  expand_combo row s q platform components st = Ok st' ->
  (st.1 = [] -> st.2 = []) -> st'.1 = [] -> st'.2 = [].
Proof.
  revert st. induction components as [|c components IH]; intros st; simpl.
  - by intros [= <-].
  - destruct (dict_incr c q st.2) as [d|e]; simpl; [|done].
    intros Hrun _. apply (IH _ Hrun). simpl. intros [_ [=]]%app_eq_nil.
Qed.

Lemma process_row_lines self platform sku_column row st st' :
  process_row self platform sku_column row st = Ok st' ->
  (st.1 = [] -> st.2 = []) -> st'.1 = [] -> st'.2 = [].
Proof.
  unfold process_row.
  destruct (series_getitem sku_column row) as [s|e]; simpl; [|done].
  destruct (isna s); simpl; [by intros [= <-]|].
  destruct (le _ 0) as [[]|e]; simpl; [by intros [= <-] | | done].
  destruct (amazon_filtered platform row); [by intros [= <-]|].
  destruct (map_sku_to_msku self s) as [components|m|].
  - apply expand_combo_lines.
  - destruct (dict_incr m _ st.2) as [d|e]; simpl; [|done].
    intros [= <-] _. simpl. intros [_ [=]]%app_eq_nil.
  - intros [= <-] _. simpl. intros [_ [=]]%app_eq_nil.
Qed.

Lemma process_rows_lines self platform sku_column sales_rows st st' :
  process_rows self platform sku_column sales_rows st = Ok st' ->
  (st.1 = [] -> st.2 = []) -> st'.1 = [] -> st'.2 = [].
Proof.
  revert st. induction sales_rows as [|row sales_rows IH]; intros st; simpl.
  - by intros [= <-].
  - destruct (process_row self platform sku_column row st) as [st1|e] eqn:H1; simpl; [|done].
    intros Hrun Hst. apply (IH _ Hrun). by apply (process_row_lines _ _ _ _ _ _ H1).
Qed.

Lemma process_sales_file_no_lines self df inventory_changes :
  process_sales_file self df = Processed [] inventory_changes -> inventory_changes = [].
Proof.
  unfold process_sales_file.
  destruct (get_sku_column _ _) as [sku_column|]; [|done].
  destruct (process_rows self _ sku_column (rows df) ([], [])) as [st|e] eqn:Hrun; [|done].
  intros [= Hlines <-]. by apply (process_rows_lines _ _ _ _ _ _ Hrun).
Qed.

(** X5.  The loop of [process_files], with no missing MSKU in the tables,
    over files whose changes hold whole numbers not below zero, and with
    totals that every numeric cell holds exactly: it raises nothing and
    gives one result per file; a file that was rejected, or that yields no
    line, adds nothing; and for every MSKU the combined changes hold what
    was there before plus the units sold over all the files. *)
Theorem process_files_totals
    (self : WMSProcessor.t) (files : list DataFrame)
    (results : list Routes.FileResult) (total : dict cell) :
  resolves_to_mskus self ->
  NoDup (keys total) /\ NaN ∉ keys total ->
  counted_values total -> (forall k, 0 <= sold total k)%Z ->
  Forall (fun df => counted_from_zero (result_changes (process_sales_file self df)))
         files ->
  (forall k, exact (sold total k + total_sold self files k)) ->
  exists results' total',
    Routes.process_files_loop self files results total = Ok (results', total')
    /\ (NoDup (keys total') /\ NaN ∉ keys total') /\ counted_values total'
    /\ length results' = length results + length files
    /\ forall k, sold total' k = (sold total k + total_sold self files k)%Z.
Proof.
  intros Hself Hclean Ht Hzero Hfiles. revert results total Hclean Ht Hzero.
  induction Hfiles as [|df files Hdf Hfiles IH];
    intros results total Hclean Ht Hzero Hexact; simpl.
  - exists results, total. repeat split; try done; try apply Hclean; intros; simpl; lia.
  - destruct (process_sales_file_changes_keys self df Hself) as [Hndf Hnaf].
    pose proof (fun k => sold_from_zero _ k Hdf) as Hzero_df.
    pose proof (fun k => total_sold_from_zero self files k Hfiles) as Hzero_rest.
    apply counted_from_zero_counted in Hdf.
    simpl in Hexact.
    destruct (process_sales_file self df) as [lines changes|error] eqn:Hfile; simpl in *.
    + destruct lines as [|line lines].
      * apply process_sales_file_no_lines in Hfile as ->.
        destruct (IH (results ++ [Routes.NoDataProcessed]) total Hclean Ht Hzero)
          as (results' & total' & -> & ? & ? & Hlen & Hsold).
        { intros k. specialize (Hexact k). unfold sold at 2 in Hexact.
          simpl in Hexact. done. }
        exists results', total'. split; [done|]. split; [done|]. split; [done|]. split.
        { rewrite Hlen, length_app. simpl. lia. }
        intros k. rewrite Hsold. unfold sold at 3. simpl. lia.
      * destruct (combine_changes_sold changes total Hndf Hnaf Hdf Hclean Ht)
          as (t1 & -> & Hclean1 & Ht1 & Hsold1).
        { intros k. specialize (Hexact k). specialize (Hzero k).
          specialize (Hzero_df k). specialize (Hzero_rest k).
          unfold exact in *. lia. }
        simpl.
        destruct (IH (results ++ [Routes.FileSuccess (S (length lines))
                                    (length changes)]) t1 Hclean1 Ht1)
          as (results' & total' & -> & ? & ? & Hlen & Hsold).
        { intros k. rewrite Hsold1. specialize (Hzero k). specialize (Hzero_df k). lia. }
        { intros k. rewrite Hsold1. specialize (Hexact k).
          by replace (sold total k + sold changes k + total_sold self files k)%Z
            with (sold total k + (sold changes k + total_sold self files k))%Z by lia. }
        exists results', total'. split; [done|]. split; [done|]. split; [done|]. split.
        { rewrite Hlen, length_app. simpl. lia. }
        intros k. rewrite Hsold, Hsold1. lia.
    + destruct (IH (results ++ [Routes.FileError error]) total Hclean Ht Hzero)
        as (results' & total' & -> & ? & ? & Hlen & Hsold).
      { intros k. specialize (Hexact k). unfold sold at 2 in Hexact.
        simpl in Hexact. done. }
      exists results', total'. split; [done|]. split; [done|]. split; [done|]. split.
      { rewrite Hlen, length_app. simpl. lia. }
      intros k. rewrite Hsold. unfold sold at 3. simpl. lia.
Qed.

Lemma process_files_totals_witness :
  exists results' total',
    Routes.process_files_loop Samples.processor MoreSamples.request_files [] []
    = Ok (results', total')
    /\ (NoDup (keys total') /\ NaN ∉ keys total') /\ counted_values total'
    /\ length results' = length ([] : list Routes.FileResult)
                         + length MoreSamples.request_files
    /\ forall k,
         sold total' k
         = (sold [] k + total_sold Samples.processor MoreSamples.request_files k)%Z.
Proof.
  apply (process_files_totals Samples.processor MoreSamples.request_files [] []).
  - split; repeat constructor; discriminate.
  - split; [constructor | apply not_elem_of_nil].
  - constructor.
  - intros k. vm_compute. discriminate.
  - repeat (constructor;
            [vm_compute; repeat (constructor; [eexists; split; [reflexivity|discriminate]|]);
             constructor|]).
    constructor.
  - intros k. unfold total_sold, sold. simpl.
    repeat case_decide; vm_compute; split; discriminate.
Defined.

(** X6.  The route [process_files], with no missing MSKU in the tables,
    over files whose changes hold whole numbers not below zero, on a
    ledger with a numeric stock column: it answers with the results and
    the report of the update, and every row of an MSKU that was sold ends
    with the first row's stock less the units of that MSKU sold over all
    the files of the request, for totals, a stock and a result that every
    numeric cell holds exactly. *)
Theorem process_files_reduces_stock
    (self : WMSProcessor.t) (files : list DataFrame)
    (msku_column quantity_column : string)
    (m : cell) (c : Z) (first : Series) (others : list Series) :
  resolves_to_mskus self ->
  find_msku_column (columns (current_inventory self)) = Some msku_column ->
  find_quantity_column (columns (current_inventory self)) = Some quantity_column ->
  msku_column ≠ quantity_column ->
  numeric_column quantity_column (rows (current_inventory self)) ->
  Forall (fun df => counted_from_zero (result_changes (process_sales_file self df)))
         files ->
  (forall k, exact (total_sold self files k)) ->
  filter (fun row => mask msku_column m row = true) (rows (current_inventory self))
  = first :: others ->
  frame_cell quantity_column first = Num c ->
  (0 < total_sold self files m)%Z ->
  exact c -> exact (c - total_sold self files m) ->
  exists file_results updated warnings total_changes,
    (Routes.process_files self files).2
    = Ok (Routes.FilesProcessed file_results (Success updated warnings) total_changes)
    /\ length file_results = length files
    /\ Forall2 (fun row row' =>
                  mask msku_column m row = true ->
                  frame_cell quantity_column row' = Num (c - total_sold self files m))
               (rows (current_inventory self))
               (rows (current_inventory (Routes.process_files self files).1)).
Proof.
  intros Hself Hm Hq Hne Hinv Hfiles Htotals Hfilter Hc Hsold Hexc Hexact.
  destruct (process_files_totals self files [] [] Hself) as
    (results & total & Hloop & [Hnd _] & Ht & Hlen & Htotal); try done.
  { split; [constructor | apply not_elem_of_nil]. }
  { constructor. }
  assert (assoc_get m total = Some (Num (total_sold self files m))) as Hget.
  { specialize (Htotal m). unfold sold at 2 in Htotal. simpl in Htotal.
    assert (total_sold self files m = sold total m) as -> by lia.
    apply sold_nonzero. lia. }
  pose proof (assoc_get_Some_elem _ _ _ Hget) as Hin.
  destruct (update_loop_found_entry msku_column quantity_column Hne total _ m _ c
              first others Hnd Hin (counted_numeric _ Ht) Hinv Hfilter Hc)
    as (inv' & updated & ws & Hrun & _ & Hrows).
  unfold Routes.process_files.
  destruct files as [|df files]; [simpl in Hsold; lia|].
  rewrite Hloop.
  rewrite (update_inventory_run self total msku_column quantity_column); [| |done..].
  2: { intros Heq. rewrite Heq in Hin. by apply elem_of_nil in Hin. }
  rewrite Hrun. simpl. exists results, updated, ws, (length total).
  split; [done|]. split; [by rewrite Hlen|].
  eapply Forall2_impl; [exact Hrows|]. intros row row' (_ & Hrow & _) Hmask.
  rewrite (Hrow Hmask). f_equal. by apply int64_exact.
Qed.

Lemma process_files_reduces_stock_witness :
  exists file_results updated warnings total_changes,
    (Routes.process_files Samples.processor MoreSamples.request_files).2
    = Ok (Routes.FilesProcessed file_results (Success updated warnings) total_changes)
    /\ length file_results = length MoreSamples.request_files
    /\ Forall2 (fun row row' =>
                  mask "msku" Samples.msku001 row = true ->
                  frame_cell "Opening Stock" row'
                  = Num (85 - total_sold Samples.processor MoreSamples.request_files
                                 Samples.msku001))
               (rows (current_inventory Samples.processor))
               (rows (current_inventory
                        (Routes.process_files Samples.processor
                           MoreSamples.request_files).1)).
Proof.
  apply (process_files_reduces_stock Samples.processor MoreSamples.request_files
           "msku" "Opening Stock" Samples.msku001 85%Z Samples.widget_row []).
  - split; repeat constructor; discriminate.
  - reflexivity.
  - reflexivity.
  - discriminate.
  - repeat constructor.
  - repeat (constructor;
            [vm_compute; repeat (constructor; [eexists; split; [reflexivity|discriminate]|]);
             constructor|]).
    constructor.
  - intros k. unfold total_sold, sold. simpl.
    repeat case_decide; vm_compute; split; discriminate.
  - reflexivity.
  - reflexivity.
  - reflexivity.
  - vm_compute. split; discriminate.
  - vm_compute. split; discriminate.
Defined.

(** ** Building the combo dictionary *)

Lemma create_combo_mapping_from_app rows1 rows2 combo_map :
  create_combo_mapping_from (rows1 ++ rows2) combo_map
  = (combo_map1 ← create_combo_mapping_from rows1 combo_map;
     create_combo_mapping_from rows2 combo_map1).
Proof.
  revert combo_map. induction rows1 as [|row rows1 IH]; intros combo_map; simpl; [done|].
  destruct (series_getitem "Combo " row) as [combo_sku|e]; simpl; [|done].
  destruct (notna combo_sku); [|apply IH].
  destruct (row_components row); apply IH.
Qed.

(** X7.  Every entry of the dictionary that [create_combo_mapping] builds
    comes from the sheet: its key is the 'Combo ' cell, not missing, of
    some row, and its value is the list of that row's cells SKU1 to SKU14
    that are not missing, which is not empty. *)
Theorem combo_entries_come_from_sheet
    (combo_rows : list Series) (combo_map : dict (list cell)) (k : cell)
    (components : list cell) :
  create_combo_mapping combo_rows = Ok combo_map ->
  assoc_get k combo_map = Some components ->
  (exists row,
     row ∈ combo_rows /\ series_get "Combo " row = Some k
     /\ components = row_components row)
  /\ k ≠ NaN /\ components ≠ [] /\ Forall (fun c => c ≠ NaN) components.
Proof.
  intros Hrun Hk.
  destruct (create_combo_mapping_from_keys _ _ _ Hrun k components Hk)
    as [Hold|(row & Hin & Hsku & Hna & -> & Hne)]; [done|].
  split; [by exists row|]. split; [done|]. split; [done|]. apply row_components_notna.
Qed.

(** X8.  [create_combo_mapping] raises exactly when some row of the sheet
    has no 'Combo ' label, and then it raises [KeyError]. *)
Theorem create_combo_mapping_key_error (combo_rows : list Series) :
  (exists row, row ∈ combo_rows /\ series_get "Combo " row = None)
  <-> create_combo_mapping combo_rows = Raise KeyError.
Proof.
  unfold create_combo_mapping. generalize ([] : dict (list cell)) as combo_map.
  induction combo_rows as [|row combo_rows IH]; intros combo_map; simpl.
  - split; [intros (row & Hin & _); by apply elem_of_nil in Hin | done].
  - unfold series_getitem.
    destruct (series_get "Combo " row) as [combo_sku|] eqn:Hsku; simpl.
    + assert ((exists row0, row0 ∈ row :: combo_rows /\ series_get "Combo " row0 = None)
              <-> exists row0, row0 ∈ combo_rows /\ series_get "Combo " row0 = None) as ->.
      { split; intros (row0 & Hin & Hnone).
        - apply elem_of_cons in Hin as [->|Hin]; [congruence | by exists row0].
        - exists row0. split; [by apply list_elem_of_further | done]. }
      destruct (notna combo_sku); [|apply IH].
      destruct (row_components row); apply IH.
    + split; [done|]. intros _. exists row. split; [apply list_elem_of_here | done].
Qed.

(** The entry of a key survives the rows that do not set it. *)
Lemma create_combo_mapping_from_keeps combo_rows combo_map combo_map' k :
  create_combo_mapping_from combo_rows combo_map = Ok combo_map' ->
  Forall (fun row => series_get "Combo " row ≠ Some k \/ row_components row = [])
         combo_rows ->
  assoc_get k combo_map' = assoc_get k combo_map.
Proof.
  intros Hrun Hrows. revert combo_map Hrun.
  induction Hrows as [|row combo_rows Hrow _ IH]; intros combo_map; simpl.
  - by intros [= <-].
  - unfold series_getitem.
    destruct (series_get "Combo " row) as [combo_sku|] eqn:Hsku; simpl; [|done].
    destruct (notna combo_sku); [|apply IH].
    destruct (row_components row) as [|c cs] eqn:Hcs; [apply IH|].
    intros Hrun. rewrite (IH _ Hrun). apply assoc_get_set_ne.
    destruct Hrow as [Hne|Hnil]; congruence.
Qed.

(** X9.  When the dictionary is built, the last row of the sheet with a
    given 'Combo ' cell, not missing, and at least one component decides
    the entry of that cell: the entry is the list of the row's non-missing
    cells SKU1 to SKU14, in column order. *)
Theorem create_combo_mapping_last_row
    (before after : list Series) (row : Series) (k : cell) (combo_map : dict (list cell)) :
  create_combo_mapping (before ++ row :: after) = Ok combo_map ->
  series_get "Combo " row = Some k -> k ≠ NaN -> row_components row ≠ [] ->
  Forall (fun row' => series_get "Combo " row' ≠ Some k \/ row_components row' = []) after ->
  assoc_get k combo_map = Some (row_components row)
  /\ Forall (fun c => c ≠ NaN) (row_components row).
Proof.
  intros Hrun Hk Hna Hcs Hafter. split; [|apply row_components_notna].
  unfold create_combo_mapping in Hrun. rewrite create_combo_mapping_from_app in Hrun.
  destruct (create_combo_mapping_from before []) as [map1|e]; simpl in Hrun; [|done].
  unfold series_getitem in Hrun. rewrite Hk in Hrun. simpl in Hrun.
  assert (notna k = true) as Hnotna by by destruct k.
  rewrite Hnotna in Hrun.
  destruct (row_components row) as [|c cs] eqn:Hrc; [done|].
  rewrite (create_combo_mapping_from_keeps _ _ _ k Hrun Hafter).
  apply assoc_get_set_eq.
Qed.

Lemma combo_entries_come_from_sheet_witness :
  (exists row,
     row ∈ combo_data Samples.processor
     /\ series_get "Combo " row = Some Samples.combo_x
     /\ [Samples.msku001; Samples.msku002] = row_components row)
  /\ Samples.combo_x ≠ NaN /\ [Samples.msku001; Samples.msku002] ≠ []
  /\ Forall (fun c => c ≠ NaN) [Samples.msku001; Samples.msku002].
Proof.
  apply (combo_entries_come_from_sheet (combo_data Samples.processor)
           (combo_mapping Samples.processor) Samples.combo_x
           [Samples.msku001; Samples.msku002]); reflexivity.
Defined.

Lemma create_combo_mapping_last_row_witness :
  assoc_get Samples.combo_x [(Samples.combo_x, [Samples.msku002; Samples.msku009])]
  = Some (row_components
            [("Combo ", Samples.combo_x); ("SKU1", Samples.msku002); ("SKU2", NaN);
             ("SKU3", Samples.msku009)])
  /\ Forall (fun c => c ≠ NaN)
       (row_components
          [("Combo ", Samples.combo_x); ("SKU1", Samples.msku002); ("SKU2", NaN);
           ("SKU3", Samples.msku009)]).
Proof.
  apply (create_combo_mapping_last_row
           [[("Combo ", Samples.combo_x); ("SKU1", Samples.msku001); ("SKU2", NaN)];
            [("Combo ", Str "COMBO_Y"); ("SKU1", NaN); ("SKU2", NaN)]]
           []
           [("Combo ", Samples.combo_x); ("SKU1", Samples.msku002); ("SKU2", NaN);
            ("SKU3", Samples.msku009)]
           Samples.combo_x);
    [reflexivity | reflexivity | discriminate | discriminate | constructor].
Defined.

(** ** Detecting the platform *)

Lemma prefix_empty a : String.prefix "" a = true.
Proof. by destruct a. Qed.

Lemma prefix_append n a b : String.prefix n a = true -> String.prefix n (a +:+ b) = true.
Proof.
  revert n. induction a as [|c' a IH]; intros n.
  - destruct n; [intros _; apply prefix_empty | done].
  - destruct n as [|c n]; [done|]. simpl.
    destruct (Ascii.ascii_dec c c'); [apply IH | done].
Qed.

Lemma contains_cons n c a :
  contains n (String c a)
  = if String.prefix n (String c a) then true else contains n a.
Proof. done. Qed.

Lemma contains_append_l n a b : contains n a = true -> contains n (a +:+ b) = true.
Proof.
  induction a as [|c a IH].
  - destruct n; [intros _ | done]. by destruct b.
  - change (String c a +:+ b) with (String c (a +:+ b)). rewrite !contains_cons.
    destruct (String.prefix n (String c a)) eqn:Hp.
    + intros _. pose proof (prefix_append n (String c a) b Hp) as Hp'.
      change (String c a +:+ b) with (String c (a +:+ b)) in Hp'. by rewrite Hp'.
    + intros Ha. rewrite (IH Ha).
      by destruct (String.prefix n (String c (a +:+ b))).
Qed.

Lemma contains_append_r n a b : contains n b = true -> contains n (a +:+ b) = true.
Proof.
  intros Hb. induction a as [|c a IH]; [done|].
  change (String c a +:+ b) with (String c (a +:+ b)). rewrite contains_cons, IH.
  by destruct (String.prefix n (String c (a +:+ b))).
Qed.

Lemma upper_append a b : upper (a +:+ b) = upper a +:+ upper b.
Proof. induction a as [|c a IH]; simpl; [done | by rewrite IH]. Qed.

Lemma contains_upper_join n col cols :
  col ∈ cols -> contains n (upper col) = true ->
  contains n (upper (join_space cols)) = true.
Proof.
  unfold join_space. intros Hin Hcol.
  induction cols as [|h t IH]; [by apply elem_of_nil in Hin|].
  simpl. destruct t as [|h' t].
  - apply list_elem_of_singleton in Hin. by subst.
  - rewrite upper_append. apply elem_of_cons in Hin as [->|Hin].
    + by apply contains_append_l.
    + apply contains_append_r. rewrite upper_append. apply contains_append_r.
      by apply IH.
Qed.

(** X10.  [detect_platform] looks for its tokens in every header, in any
    letter case, and Amazon's tokens come first: a file with a header that
    contains 'FNSKU' or 'FULFILLMENT CENTER' is Amazon whatever its other
    headers are; one with a header that contains 'ORDER ITEM ID' or 'FSN'
    is Amazon or Flipkart; one with a header that contains 'SUB ORDER NO'
    is never Unknown. *)
Theorem detect_platform_by_header (cols : list string) (col : string) :
  col ∈ cols ->
  (contains "FNSKU" (upper col) = true \/ contains "FULFILLMENT CENTER" (upper col) = true ->
   detect_platform cols = Amazon)
  /\ (contains "ORDER ITEM ID" (upper col) = true \/ contains "FSN" (upper col) = true ->
      detect_platform cols = Amazon \/ detect_platform cols = Flipkart)
  /\ (contains "SUB ORDER NO" (upper col) = true -> detect_platform cols ≠ Unknown).
Proof.
  intros Hin. unfold detect_platform. split; [|split].
  - intros [H|H]; rewrite (contains_upper_join _ col cols Hin H); [done|].
    by rewrite orb_true_r.
  - intros [H|H]; rewrite (contains_upper_join _ col cols Hin H).
    + destruct (_ || _); [by left | by right].
    + rewrite orb_true_r. destruct (_ || _); [by left | by right].
  - intros H. rewrite (contains_upper_join _ col cols Hin H).
    destruct (_ || _); [done|]. by destruct (_ || _).
Qed.

Lemma detect_platform_by_header_witness :
  detect_platform ["Sub Order No"; "fulfillment center id"; "SKU"] = Amazon.
Proof.
  destruct (detect_platform_by_header ["Sub Order No"; "fulfillment center id"; "SKU"]
              "fulfillment center id") as (Hamazon & _ & _).
  - apply (bool_decide_unpack _). vm_compute. exact I.
  - apply Hamazon. right. reflexivity.
Defined.

(** ** The desktop mapper and the web application *)

Lemma expand_combo_agree row s q platform components (lines : list Series) (d : dict cell) :
  match SKUMapperGUI.expand_combo row s q components (lines, d) with
  | Ok st' =>
      expand_combo row s q platform components
        (series_set "Platform" (Str (platform_name platform)) <$> lines, d)
      = Ok (series_set "Platform" (Str (platform_name platform)) <$> st'.1, st'.2)
  | Raise e =>
      expand_combo row s q platform components
        (series_set "Platform" (Str (platform_name platform)) <$> lines, d)
      = Raise e
  end.
Proof.
  revert lines d. induction components as [|c components IH]; intros lines d; simpl; [done|].
  destruct (dict_incr c q d) as [d'|e]; simpl; [|done].
  specialize (IH (lines ++ [SKUMapperGUI.combo_line row s c q]) d').
  by rewrite fmap_app in IH.
Qed.

Lemma process_row_agree (web : WMSProcessor.t) (gui : SKUMapperGUI.t) platform
    sku_column row (lines : list Series) (d : dict cell) :
  SKUMapperGUI.handle_combos gui = true ->
  SKUMapperGUI.combo_mapping gui = combo_mapping web ->
  SKUMapperGUI.mapping_data gui = mapping_data web ->
  amazon_filtered platform row = false ->
  match SKUMapperGUI.process_row gui sku_column row (lines, d) with
  | Ok st' =>
      process_row web platform sku_column row
        (series_set "Platform" (Str (platform_name platform)) <$> lines, d)
      = Ok (series_set "Platform" (Str (platform_name platform)) <$> st'.1, st'.2)
  | Raise e =>
      process_row web platform sku_column row
        (series_set "Platform" (Str (platform_name platform)) <$> lines, d)
      = Raise e
  end.
Proof.
  intros Hcombos Hcm Hmd Hf. unfold SKUMapperGUI.process_row, process_row.
  destruct (series_getitem sku_column row) as [s|e]; simpl; [|done].
  destruct (if isna s then Ok true else le _ 0) as [[]|e]; simpl; [done | | done].
  rewrite Hf.
  unfold SKUMapperGUI.map_sku_to_msku, map_sku_to_msku. rewrite Hcombos, Hcm, Hmd.
  destruct (assoc_get s (combo_mapping web)) as [components|].
  - apply expand_combo_agree.
  - destruct (mapping_matches (mapping_data web) s) as [|r rest]; simpl.
    + by rewrite fmap_app.
    + destruct (dict_incr (msku r) _ d) as [d'|e]; simpl; [|done]. by rewrite fmap_app.
Qed.

Lemma process_rows_agree (web : WMSProcessor.t) (gui : SKUMapperGUI.t) platform
    sku_column sales_rows (lines : list Series) (d : dict cell) :
  SKUMapperGUI.handle_combos gui = true ->
  SKUMapperGUI.combo_mapping gui = combo_mapping web ->
  SKUMapperGUI.mapping_data gui = mapping_data web ->
  platform ≠ Amazon ->
  match SKUMapperGUI.process_rows gui sku_column sales_rows (lines, d) with
  | Ok st' =>
      process_rows web platform sku_column sales_rows
        (series_set "Platform" (Str (platform_name platform)) <$> lines, d)
      = Ok (series_set "Platform" (Str (platform_name platform)) <$> st'.1, st'.2)
  | Raise e =>
      process_rows web platform sku_column sales_rows
        (series_set "Platform" (Str (platform_name platform)) <$> lines, d)
      = Raise e
  end.
Proof.
  intros Hcombos Hcm Hmd Hp. revert lines d.
  induction sales_rows as [|row sales_rows IH]; intros lines d; simpl; [done|].
  assert (amazon_filtered platform row = false) as Hf.
  { unfold amazon_filtered. by rewrite bool_decide_eq_false_2. }
  pose proof (process_row_agree web gui platform sku_column row lines d
                Hcombos Hcm Hmd Hf) as Hrow.
  destruct (SKUMapperGUI.process_row gui sku_column row (lines, d)) as [[lines1 d1]|e];
    simpl in *; rewrite Hrow; simpl; [apply IH | done].
Qed.

Lemma process_rows_agree_ok (web : WMSProcessor.t) (gui : SKUMapperGUI.t) platform
    sku_column sales_rows (lines : list Series) (d : dict cell) st' :
  SKUMapperGUI.handle_combos gui = true ->
  SKUMapperGUI.combo_mapping gui = combo_mapping web ->
  SKUMapperGUI.mapping_data gui = mapping_data web ->
  platform ≠ Amazon ->
  SKUMapperGUI.process_rows gui sku_column sales_rows (lines, d) = Ok st' ->
  process_rows web platform sku_column sales_rows
    (series_set "Platform" (Str (platform_name platform)) <$> lines, d)
  = Ok (series_set "Platform" (Str (platform_name platform)) <$> st'.1, st'.2).
Proof.
  intros Hcombos Hcm Hmd Hp Hrun.
  pose proof (process_rows_agree web gui platform sku_column sales_rows lines d
                Hcombos Hcm Hmd Hp) as Hrows.
  by rewrite Hrun in Hrows.
Qed.

Lemma process_rows_agree_raise (web : WMSProcessor.t) (gui : SKUMapperGUI.t) platform
    sku_column sales_rows (lines : list Series) (d : dict cell) e :
  SKUMapperGUI.handle_combos gui = true ->
  SKUMapperGUI.combo_mapping gui = combo_mapping web ->
  SKUMapperGUI.mapping_data gui = mapping_data web ->
  platform ≠ Amazon ->
  SKUMapperGUI.process_rows gui sku_column sales_rows (lines, d) = Raise e ->
  process_rows web platform sku_column sales_rows
    (series_set "Platform" (Str (platform_name platform)) <$> lines, d)
  = Raise e.
Proof.
  intros Hcombos Hcm Hmd Hp Hrun.
  pose proof (process_rows_agree web gui platform sku_column sales_rows lines d
                Hcombos Hcm Hmd Hp) as Hrows.
  by rewrite Hrun in Hrows.
Qed.

(** X11.  On a file that is not detected as Amazon, with 'Handle Combo
    Products' ticked and the same tables, the desktop mapper and the web
    application agree: they return or fail together, with the same changes,
    and the lines of the web application are those of the desktop mapper
    with the 'Platform' field set. *)
Theorem gui_and_web_agree
    (web : WMSProcessor.t) (gui : SKUMapperGUI.t) (df : DataFrame) :
  SKUMapperGUI.handle_combos gui = true ->
  SKUMapperGUI.combo_mapping gui = combo_mapping web ->
  SKUMapperGUI.mapping_data gui = mapping_data web ->
  detect_platform (columns df) ≠ Amazon ->
  match SKUMapperGUI.process_sales_file gui df with
  | Some st =>
      process_sales_file web df
      = Processed
          (series_set "Platform" (Str (platform_name (detect_platform (columns df))))
             <$> st.1) st.2
  | None => exists error, process_sales_file web df = Failed error
  end.
Proof.
  intros Hcombos Hcm Hmd Hp.
  unfold SKUMapperGUI.process_sales_file, process_sales_file.
  change (SKUMapperGUI.detect_platform (columns df)) with (detect_platform (columns df)).
  change (SKUMapperGUI.get_sku_column (columns df) (detect_platform (columns df)))
    with (get_sku_column (columns df) (detect_platform (columns df))).
  destruct (get_sku_column _ _) as [sku_column|]; [|by eexists].
  destruct (SKUMapperGUI.process_rows gui sku_column (rows df) ([], []))
    as [st|e] eqn:Hgui.
  - apply (process_rows_agree_ok web gui (detect_platform (columns df)) sku_column
             (rows df) [] [] st Hcombos Hcm Hmd Hp) in Hgui.
    simpl in Hgui.
    destruct (process_rows web _ _ _ _) as [st2|e2]; [|done].
    by injection Hgui as ->.
  - apply (process_rows_agree_raise web gui (detect_platform (columns df)) sku_column
             (rows df) [] [] e Hcombos Hcm Hmd Hp) in Hgui.
    simpl in Hgui.
    destruct (process_rows web _ _ _ _) as [st2|e2]; [done | by eexists].
Qed.

Lemma gui_and_web_agree_witness :
  match SKUMapperGUI.process_sales_file Samples.mapper_ticked Samples.meesho_combo_file with
  | Some st =>
      process_sales_file Samples.processor Samples.meesho_combo_file
      = Processed
          (series_set "Platform"
             (Str (platform_name (detect_platform (columns Samples.meesho_combo_file))))
             <$> st.1) st.2
  | None => exists error,
      process_sales_file Samples.processor Samples.meesho_combo_file = Failed error
  end.
Proof.
  apply (gui_and_web_agree Samples.processor Samples.mapper_ticked
           Samples.meesho_combo_file); [reflexivity | reflexivity | reflexivity | discriminate].
Defined.

(** ** The report and the shape of the ledger *)

Section update_report.
Variables msku_column quantity_column : string.
Hypothesis columns_differ : msku_column ≠ quantity_column.
Implicit Types (row : Series) (inv : list Series) (m k q : cell) (items : dict cell).

Lemma same_masks_filter_nil inv0 inv m :
  Forall2 (fun row0 row => forall k, mask msku_column k row = mask msku_column k row0)
          inv0 inv ->
  filter (fun row => mask msku_column m row = true) inv = []
  <-> filter (fun row => mask msku_column m row = true) inv0 = [].
Proof.
  induction 1 as [|row0 row inv0 inv Hrow _ IH]; [done|].
  rewrite !filter_cons, Hrow. case_decide; [done | exact IH].
Qed.

Lemma stock_warning_not_missing m c ws :
  stock_warning m c = Ok ws -> Forall (fun w => is_not_found w = false) ws.
Proof.
  unfold stock_warning.
  destruct (lt c 0) as [[]|e]; simpl; [intros [= <-]; by repeat constructor | | done].
  destruct (lt c 5) as [[]|e]; simpl; [| | done]; intros [= <-]; by repeat constructor.
Qed.

Lemma update_one_found_shape m q inv :
  filter (fun row => mask msku_column m row = true) inv ≠ [] ->
  is_number q -> numeric_column quantity_column inv ->
  exists v ws,
    is_number v
    /\ update_one msku_column quantity_column m q inv (0, [])
       = (loc_set msku_column quantity_column m v inv, Ok (1, ws))
    /\ Forall (fun w => is_not_found w = false) ws.
Proof.
  intros Hfound Hq Hinv. unfold update_one.
  destruct (filter _ inv) as [|first others] eqn:Hf; [done|].
  assert (first ∈ inv) as Hin.
  { eapply (list_elem_of_filter (fun row => mask msku_column m row = true)).
    rewrite Hf. apply list_elem_of_here. }
  assert (is_number (frame_cell quantity_column first)) as Hfirst.
  { unfold numeric_column in Hinv. rewrite Forall_forall in Hinv. by apply Hinv. }
  destruct (sub_number _ _ Hfirst Hq) as (v & -> & Hv).
  destruct (stock_warning_number m v Hv) as [ws Hws]. rewrite Hws. simpl.
  exists v, ws. split; [done|]. split; [done|]. by eapply stock_warning_not_missing.
Qed.

Lemma filter_not_found_none (ws : list Warning) :
  Forall (fun w => is_not_found w = false) ws ->
  filter (fun w => is_not_found w = true) ws = [].
Proof.
  induction 1 as [|w ws Hw _ IH]; [done|]. rewrite filter_cons_False; [done|]. congruence.
Qed.

Lemma update_loop_counts items inv0 inv :
  Forall2 (fun row0 row => forall k, mask msku_column k row = mask msku_column k row0)
          inv0 inv ->
  numeric_values items -> numeric_column quantity_column inv ->
  exists inv' updated ws,
    update_loop msku_column quantity_column items inv (0, []) = (inv', Ok (updated, ws))
    /\ updated
       = length (filter (fun m => filter (fun row => mask msku_column m row = true) inv0
                                  ≠ []) (keys items))
    /\ filter (fun w => is_not_found w = true) ws
       = MskuNotFound
           <$> filter (fun m => filter (fun row => mask msku_column m row = true) inv0
                                = []) (keys items).
Proof.
  intros Hsame Hvalues. revert inv Hsame.
  induction Hvalues as [|[m q] items Hq _ IH]; intros inv Hsame Hinv.
  - by exists inv, 0, [].
  - simpl in Hq. change (keys ((m, q) :: items)) with (m :: keys items).
    rewrite !filter_cons. cbn [update_loop].
    destruct (decide (filter (fun row => mask msku_column m row = true) inv0 = []))
      as [Hnone|Hsome].
    + rewrite (update_one_not_found _ _ _ _ _ _
                 (proj2 (same_masks_filter_nil inv0 inv m Hsame) Hnone)).
      rewrite update_loop_acc.
      destruct (IH inv Hsame Hinv) as (inv' & updated & ws & -> & Hupdated & Hws).
      simpl. exists inv', updated, (MskuNotFound m :: ws).
      split; [done|]. rewrite decide_False by (intros Hne; by apply Hne).
      split; [done|]. rewrite filter_cons_True by done. by rewrite Hws.
    + assert (filter (fun row => mask msku_column m row = true) inv ≠ []) as Hfound.
      { intros Hnil. by apply Hsome, (same_masks_filter_nil inv0 inv m Hsame). }
      destruct (update_one_found_shape m q inv Hfound Hq Hinv)
        as (v & wsm & Hv & -> & Hwsm).
      rewrite update_loop_acc.
      destruct (IH (loc_set msku_column quantity_column m v inv))
        as (inv' & updated & ws & -> & Hupdated & Hws).
      * eapply Forall2_compose; [|exact Hsame|apply (loc_set_Forall2 _ _ m v inv)].
        intros row0 row row' Hrow -> k. simpl. rewrite <- Hrow.
        destruct (mask msku_column m row); [|done].
        apply (mask_same_except msku_column quantity_column); [done|].
        apply same_except_set.
      * by apply loc_set_numeric.
      * simpl. exists inv', (S updated), (wsm ++ ws).
        split; [done|]. rewrite decide_True by done. simpl.
        split; [by rewrite Hupdated|].
        by rewrite filter_app, (filter_not_found_none wsm Hwsm).
Qed.

End update_report.

(** X12.  The report of [update_inventory] on numeric quantities and a
    numeric stock column: [updated_items] is the number of MSKUs of the
    changes that the ledger holds, the warnings "MSKU not found" are those
    of the MSKUs it does not hold, in the order of the changes, and the
    two numbers add up to the number of entries. *)
Theorem update_inventory_report_counts
    (self : WMSProcessor.t) (msku_column quantity_column : string) (items : dict cell) :
  find_msku_column (columns (current_inventory self)) = Some msku_column ->
  find_quantity_column (columns (current_inventory self)) = Some quantity_column ->
  msku_column ≠ quantity_column ->
  items ≠ [] ->
  numeric_values items ->
  numeric_column quantity_column (rows (current_inventory self)) ->
  exists updated warnings,
    (update_inventory self items).2 = Ok (Success updated warnings)
    /\ updated
       = length (filter (fun m => filter (fun row => mask msku_column m row = true)
                                    (rows (current_inventory self)) ≠ []) (keys items))
    /\ filter (fun w => is_not_found w = true) warnings
       = MskuNotFound
           <$> filter (fun m => filter (fun row => mask msku_column m row = true)
                                  (rows (current_inventory self)) = []) (keys items)
    /\ updated + length (filter (fun w => is_not_found w = true) warnings)
       = length items.
Proof.
  intros Hm Hq Hne Hitems Hvalues Hinv.
  assert (Forall2 (fun row0 row => forall k, mask msku_column k row = mask msku_column k row0)
            (rows (current_inventory self)) (rows (current_inventory self))) as Hsame.
  { apply Forall_Forall2_diag, Forall_forall. by intros. }
  destruct (update_loop_counts msku_column quantity_column Hne items
              (rows (current_inventory self)) (rows (current_inventory self))
              Hsame Hvalues Hinv)
    as (inv' & updated & ws & Hrun & Hupdated & Hws).
  rewrite (update_inventory_run self items msku_column quantity_column); [|done..].
  rewrite Hrun. simpl. exists updated, ws. split; [done|]. split; [done|].
  split; [done|]. rewrite Hws, Hupdated, length_fmap.
  assert (length items = length (keys items)) as -> by (unfold keys; by rewrite length_fmap).
  generalize (keys items) as ks. intros ks.
  induction ks as [|k ks IH]; [done|]. rewrite !filter_cons.
  destruct (decide (filter _ (rows (current_inventory self)) = [])) as [Hnil|Hsome].
  - rewrite decide_False by (intros Hne'; by apply Hne'). simpl. lia.
  - rewrite decide_True by done. simpl. lia.
Qed.

Lemma update_inventory_report_counts_witness :
  exists updated warnings,
    (update_inventory Samples.processor Samples.units_sold).2
    = Ok (Success updated warnings)
    /\ updated
       = length (filter (fun m => filter (fun row => mask "msku" m row = true)
                                    (rows (current_inventory Samples.processor)) ≠ [])
                   (keys Samples.units_sold))
    /\ filter (fun w => is_not_found w = true) warnings
       = MskuNotFound
           <$> filter (fun m => filter (fun row => mask "msku" m row = true)
                                  (rows (current_inventory Samples.processor)) = [])
                 (keys Samples.units_sold)
    /\ updated + length (filter (fun w => is_not_found w = true) warnings)
       = length Samples.units_sold.
Proof.
  apply (update_inventory_report_counts Samples.processor "msku" "Opening Stock"
           Samples.units_sold);
    [reflexivity | reflexivity | discriminate | discriminate
    | repeat constructor | repeat constructor].
Defined.

Lemma find_quantity_column_elem cols quantity_column :
  find_quantity_column cols = Some quantity_column -> quantity_column ∈ cols.
Proof.
  unfold find_quantity_column. case_bool_decide as Hin; [by intros [= <-]|].
  destruct (filter _ cols) as [|col rest] eqn:Hf; [done|]. intros [= <-].
  eapply (list_elem_of_filter (fun col => is_quantity_label col = true)).
  rewrite Hf. apply list_elem_of_here.
Qed.

Section ledger_shape.
Variables (msku_column quantity_column : string) (cols : list string).
Hypothesis quantity_column_known : quantity_column ∈ cols.
Implicit Types (row : Series) (inv : list Series) (m q v : cell) (items : dict cell).

Lemma loc_set_labels m v inv :
  Forall (fun row => row.*1 = cols) inv ->
  Forall (fun row => row.*1 = cols) (loc_set msku_column quantity_column m v inv).
Proof.
  induction 1 as [|row inv Hrow _ IH]; simpl; constructor; [|done].
  destruct (mask msku_column m row); [|done].
  unfold series_set. rewrite assoc_set_keys_present; [done|].
  apply series_get_label. by rewrite Hrow.
Qed.

Lemma update_one_labels m q inv acc :
  Forall (fun row => row.*1 = cols) inv ->
  Forall (fun row => row.*1 = cols)
         (update_one msku_column quantity_column m q inv acc).1.
Proof.
  intros Hinv. unfold update_one.
  destruct (filter _ inv) as [|first others] eqn:Hf; [done|].
  destruct (sub _ q) as [v|e]; [|done]. by apply loc_set_labels.
Qed.

Lemma update_loop_labels items inv acc :
  Forall (fun row => row.*1 = cols) inv ->
  Forall (fun row => row.*1 = cols)
         (update_loop msku_column quantity_column items inv acc).1.
Proof.
  revert inv acc. induction items as [|[m q] items IH]; intros inv acc Hinv; [done|].
  cbn [update_loop].
  pose proof (update_one_labels m q inv acc Hinv) as Hone.
  destruct (update_one msku_column quantity_column m q inv acc) as [inv1 [acc1|e]];
    [by apply IH | done].
Qed.

End ledger_shape.

(** X13.  [update_inventory] keeps the shape of the ledger, whatever the
    changes are and also when it stops on an exception: the columns and
    the number of rows are those before the call, every row still carries
    exactly the columns of the frame, and the mapping tables are not
    touched. *)
Theorem update_inventory_keeps_shape (self : WMSProcessor.t) (items : dict cell) :
  frame_wf (current_inventory self) ->
  frame_wf (current_inventory (update_inventory self items).1)
  /\ columns (current_inventory (update_inventory self items).1)
     = columns (current_inventory self)
  /\ length (rows (current_inventory (update_inventory self items).1))
     = length (rows (current_inventory self))
  /\ mapping_data (update_inventory self items).1 = mapping_data self
  /\ combo_mapping (update_inventory self items).1 = combo_mapping self.
Proof.
  intros Hwf. unfold update_inventory.
  destruct items as [|item items]; [done|].
  destruct (find_msku_column _) as [msku_column|]; [|done].
  destruct (find_quantity_column _) as [quantity_column|] eqn:Hq; [|done].
  apply find_quantity_column_elem in Hq.
  pose proof (update_loop_labels msku_column quantity_column _ Hq (item :: items)
                (rows (current_inventory self)) (0, []) Hwf) as Hlabels.
  pose proof (update_loop_row_step msku_column quantity_column (item :: items)
                (rows (current_inventory self)) (0, [])) as Hstep.
  apply Forall2_length in Hstep.
  destruct (update_loop _ _ _ _ _) as [inv r]. simpl in *.
  by repeat split.
Qed.

Lemma update_inventory_keeps_shape_witness :
  frame_wf (current_inventory (update_inventory Samples.processor Samples.units_sold).1)
  /\ columns (current_inventory (update_inventory Samples.processor Samples.units_sold).1)
     = columns (current_inventory Samples.processor)
  /\ length (rows (current_inventory
                     (update_inventory Samples.processor Samples.units_sold).1))
     = length (rows (current_inventory Samples.processor))
  /\ mapping_data (update_inventory Samples.processor Samples.units_sold).1
     = mapping_data Samples.processor
  /\ combo_mapping (update_inventory Samples.processor Samples.units_sold).1
     = combo_mapping Samples.processor.
Proof.
  apply (update_inventory_keeps_shape Samples.processor Samples.units_sold).
  repeat constructor.
Defined.

(** ** The dashboard counts *)

Section stock_counts.
Context {A : Type}.
Variable stock : A -> Z.

Lemma count_below_mono (k k' : Z) (l : list A) :
  (k <= k')%Z ->
  length (filter (fun x => (stock x < k)%Z) l)
  <= length (filter (fun x => (stock x < k')%Z) l).
Proof.
  intros Hk. induction l as [|x l IH]; [done|]. rewrite !filter_cons.
  repeat case_decide; simpl; lia.
Qed.

Lemma count_below_length (k : Z) (l : list A) :
  length (filter (fun x => (stock x < k)%Z) l) <= length l.
Proof.
  induction l as [|x l IH]; [done|]. rewrite filter_cons.
  case_decide; simpl; lia.
Qed.

Lemma counts_low_split (l : list A) :
  length (filter (fun x => (stock x < 0)%Z) l)
  + length (filter (fun x => stock x = 0%Z) l)
  + length (filter (fun x => (1 <= stock x <= 9)%Z) l)
  = length (filter (fun x => (stock x < 10)%Z) l).
Proof.
  induction l as [|x l IH]; [done|]. rewrite !filter_cons.
  repeat case_decide; simpl; lia.
Qed.

Lemma counts_total_split (l : list A) :
  length (filter (fun x => (stock x < 10)%Z) l)
  + length (filter (fun x => (10 <= stock x <= 99)%Z) l)
  + length (filter (fun x => (100 <= stock x)%Z) l)
  = length l.
Proof.
  induction l as [|x l IH]; [done|]. rewrite !filter_cons.
  repeat case_decide; simpl; lia.
Qed.

End stock_counts.

Lemma assoc_set_twice {K V : Type} `{EqDecision K} (k : K) (v : V) (d : list (K * V)) :
  assoc_set k v (assoc_set k v d) = assoc_set k v d.
Proof.
  induction d as [|[k0 v0] d IH]; simpl.
  - by rewrite decide_True.
  - destruct (decide (k0 = k)) as [->|Hne]; simpl.
    + by rewrite decide_True.
    + rewrite decide_False by done. by rewrite IH.
Qed.

Section dashboard_facts.
Variable parse : string -> option Z.
Implicit Types (row : Series) (inv : list Series) (col : string).

Lemma to_numeric_coerced col row :
  Dashboard.to_numeric_fillna parse
    (frame_cell col
       (series_set col
          (Num (Dashboard.to_numeric_fillna parse (frame_cell col row))) row))
  = Dashboard.to_numeric_fillna parse (frame_cell col row).
Proof. by rewrite frame_cell_set. Qed.

Lemma coerce_column_twice col inv :
  Dashboard.coerce_column parse col (Dashboard.coerce_column parse col inv)
  = Dashboard.coerce_column parse col inv.
Proof.
  unfold Dashboard.coerce_column. rewrite map_map. apply map_ext. intros row.
  rewrite to_numeric_coerced. unfold series_set. apply assoc_set_twice.
Qed.

Lemma count_below_coerce k col inv :
  Dashboard.count_below parse k col (Dashboard.coerce_column parse col inv)
  = Dashboard.count_below parse k col inv.
Proof.
  unfold Dashboard.count_below. induction inv as [|row inv IH]; [done|].
  change (Dashboard.coerce_column parse col (row :: inv))
    with (series_set col (Num (Dashboard.to_numeric_fillna parse (frame_cell col row))) row
          :: Dashboard.coerce_column parse col inv).
  rewrite !filter_cons, to_numeric_coerced. case_decide; simpl; by rewrite IH.
Qed.

Lemma count_between_coerce lo hi col inv :
  Dashboard.count_between parse lo hi col (Dashboard.coerce_column parse col inv)
  = Dashboard.count_between parse lo hi col inv.
Proof.
  unfold Dashboard.count_between. induction inv as [|row inv IH]; [done|].
  change (Dashboard.coerce_column parse col (row :: inv))
    with (series_set col (Num (Dashboard.to_numeric_fillna parse (frame_cell col row))) row
          :: Dashboard.coerce_column parse col inv).
  rewrite !filter_cons, to_numeric_coerced. case_decide; simpl; by rewrite IH.
Qed.

Lemma count_from_coerce k col inv :
  Dashboard.count_from parse k col (Dashboard.coerce_column parse col inv)
  = Dashboard.count_from parse k col inv.
Proof.
  unfold Dashboard.count_from. induction inv as [|row inv IH]; [done|].
  change (Dashboard.coerce_column parse col (row :: inv))
    with (series_set col (Num (Dashboard.to_numeric_fillna parse (frame_cell col row))) row
          :: Dashboard.coerce_column parse col inv).
  rewrite !filter_cons, to_numeric_coerced. case_decide; simpl; by rewrite IH.
Qed.

End dashboard_facts.

(** X14.  The cards of the dashboard are ordered, for any ledger and any
    reading of text cells: the products counted with negative stock are
    among those counted with low stock (below 10), and these are among
    the products of the ledger. *)
Theorem dashboard_counts_ordered (parse : string -> option Z) (self : WMSProcessor.t) :
  Dashboard.negative_stock_count (Dashboard.get_dashboard_data parse self).2
  <= Dashboard.low_stock_count (Dashboard.get_dashboard_data parse self).2
  /\ Dashboard.low_stock_count (Dashboard.get_dashboard_data parse self).2
     <= Dashboard.total_products (Dashboard.get_dashboard_data parse self).2
  /\ Dashboard.total_products (Dashboard.get_dashboard_data parse self).2
     = length (rows (current_inventory self)).
Proof.
  unfold Dashboard.get_dashboard_data.
  destruct (find_quantity_column _) as [quantity_col|]; simpl; [|lia].
  unfold Dashboard.count_below. split; [|split; [|done]].
  - by apply (count_below_mono
                (fun row => Dashboard.to_numeric_fillna parse (frame_cell quantity_col row))).
  - apply (count_below_length
             (fun row => Dashboard.to_numeric_fillna parse (frame_cell quantity_col row))).
Qed.

(** X15.  Reading the dashboard again changes nothing: [get_dashboard_data]
    coerces the quantity column in place, and a second call returns the
    same numbers and leaves the ledger as the first call left it; the
    chart of the route, computed after the call, is the chart of the
    ledger before it. *)
Theorem dashboard_read_twice (parse : string -> option Z) (self : WMSProcessor.t) :
  Dashboard.get_dashboard_data parse (Dashboard.get_dashboard_data parse self).1
  = Dashboard.get_dashboard_data parse self
  /\ Dashboard.stock_distribution parse (Dashboard.get_dashboard_data parse self).1
     = Dashboard.stock_distribution parse self.
Proof.
  unfold Dashboard.get_dashboard_data, Dashboard.stock_distribution.
  destruct (find_quantity_column (columns (current_inventory self)))
    as [quantity_col|] eqn:Hq; simpl; rewrite Hq; [|done].
  rewrite coerce_column_twice, !count_below_coerce, !count_between_coerce,
    count_from_coerce.
  unfold Dashboard.coerce_column, set_inventory_rows. simpl.
  by rewrite length_map.
Qed.

(** X16.  The chart against the cards, when the ledger has a quantity
    column (stocks are whole numbers): the bar 'Negative Stock' is the
    card of negative stock; the card of low stock is the bars 'Negative
    Stock' and 'Low Stock (1-9)' plus the products whose stock is exactly
    0, which no bar counts; and the four bars and these products make up
    the ledger. *)
Theorem chart_leaves_out_zero_stock
    (parse : string -> option Z) (self : WMSProcessor.t) (qty_col : string) :
  find_quantity_column (columns (current_inventory self)) = Some qty_col ->
  exists negative low normal high,
    Dashboard.stock_distribution parse self = Some [negative; low; normal; high]
    /\ negative = Dashboard.negative_stock_count (Dashboard.get_dashboard_data parse self).2
    /\ negative
       + length (filter (fun row =>
                           Dashboard.to_numeric_fillna parse (frame_cell qty_col row) = 0%Z)
                   (rows (current_inventory self)))
       + low
       = Dashboard.low_stock_count (Dashboard.get_dashboard_data parse self).2
    /\ Dashboard.low_stock_count (Dashboard.get_dashboard_data parse self).2
       + normal + high
       = length (rows (current_inventory self)).
Proof.
  intros Hq. unfold Dashboard.stock_distribution, Dashboard.get_dashboard_data.
  rewrite Hq. simpl. eexists _, _, _, _. split; [done|]. split; [done|].
  unfold Dashboard.count_below, Dashboard.count_between, Dashboard.count_from. split.
  - apply (counts_low_split
             (fun row => Dashboard.to_numeric_fillna parse (frame_cell qty_col row))).
  - apply (counts_total_split
             (fun row => Dashboard.to_numeric_fillna parse (frame_cell qty_col row))).
Qed.

Lemma chart_leaves_out_zero_stock_witness :
  exists negative low normal high,
    Dashboard.stock_distribution (fun _ => None) Samples.processor
    = Some [negative; low; normal; high]
    /\ negative
       = Dashboard.negative_stock_count
           (Dashboard.get_dashboard_data (fun _ => None) Samples.processor).2
    /\ negative
       + length (filter (fun row =>
                           Dashboard.to_numeric_fillna (fun _ => None)
                             (frame_cell "Opening Stock" row) = 0%Z)
                   (rows (current_inventory Samples.processor)))
       + low
       = Dashboard.low_stock_count
           (Dashboard.get_dashboard_data (fun _ => None) Samples.processor).2
    /\ Dashboard.low_stock_count
         (Dashboard.get_dashboard_data (fun _ => None) Samples.processor).2
       + normal + high
       = length (rows (current_inventory Samples.processor)).
Proof.
  apply (chart_leaves_out_zero_stock (fun _ => None) Samples.processor "Opening Stock").
  reflexivity.
Defined.

(** ** The stock queries and the movements of the database *)

(** X17.  The statistics of [get_dashboard_stats] fit together on whole
    stocks: the negative count is within the low count (below 10), which
    is within the number of products; the low count is the bars
    'negative' and 'low' plus the products with stock exactly 0, which no
    bar counts; with 'normal' and 'high' they make up the table; and the
    two counts are the sizes of [get_low_stock_products()] and
    [get_negative_stock_products()]. *)
Theorem dashboard_stats_consistent (db : DatabaseService.Session) :
  DatabaseStats.negative_stock_count (DatabaseStats.get_dashboard_stats db)
  <= DatabaseStats.low_stock_count (DatabaseStats.get_dashboard_stats db)
  /\ DatabaseStats.low_stock_count (DatabaseStats.get_dashboard_stats db)
     <= DatabaseStats.total_products (DatabaseStats.get_dashboard_stats db)
  /\ DatabaseStats.distribution_negative (DatabaseStats.get_dashboard_stats db)
     + length (filter (fun p => DatabaseService.current_stock p = 0%Z)
                 (DatabaseService.products db))
     + DatabaseStats.distribution_low (DatabaseStats.get_dashboard_stats db)
     = DatabaseStats.low_stock_count (DatabaseStats.get_dashboard_stats db)
  /\ DatabaseStats.low_stock_count (DatabaseStats.get_dashboard_stats db)
     + DatabaseStats.distribution_normal (DatabaseStats.get_dashboard_stats db)
     + DatabaseStats.distribution_high (DatabaseStats.get_dashboard_stats db)
     = DatabaseStats.total_products (DatabaseStats.get_dashboard_stats db)
  /\ DatabaseStats.low_stock_count (DatabaseStats.get_dashboard_stats db)
     = length (DatabaseStats.get_low_stock_products 10 db)
  /\ DatabaseStats.negative_stock_count (DatabaseStats.get_dashboard_stats db)
     = length (DatabaseStats.get_negative_stock_products db).
Proof.
  simpl. split; [|split; [|split; [|split; [|done]]]].
  - by apply (count_below_mono DatabaseService.current_stock).
  - apply (count_below_length DatabaseService.current_stock).
  - apply (counts_low_split DatabaseService.current_stock).
  - apply (counts_total_split DatabaseService.current_stock).
Qed.

Section database_queries.
Import DatabaseService.
Variables (now : Z) (batch_id file_notes : string).
Implicit Types (db : Session) (p : Product) (m : string).

Lemma db_update_audit m change mtype ref note db :
  length (products (try_update now m change mtype ref note db).1) = length (products db)
  /\ (((try_update now m change mtype ref note db).2.1 = false
       /\ (try_update now m change mtype ref note db).2.2 = ProductNotFound m
       /\ (try_update now m change mtype ref note db).1 = db)
      \/ ((try_update now m change mtype ref note db).2.1 = true
          /\ exists before,
               movements (try_update now m change mtype ref note db).1
               = movements db
                   ++ [mkInventoryMovement m mtype change before (before + change)
                         ref note])).
Proof.
  unfold try_update.
  destruct (list_find (fun p => msku p = m) (products db)) as [[i p]|]; simpl.
  - split; [by rewrite length_insert|]. right. split; [done|]. by eexists.
  - split; [done|]. by left.
Qed.

Lemma db_find_elem m db i p :
  list_find (fun p => msku p = m) (products db) = Some (i, p) -> p ∈ products db.
Proof. intros (Hi & _)%list_find_Some. by eapply list_elem_of_lookup_2. Qed.

End database_queries.

(** X18.  Every sale applied to the database is audited, in a batch none
    of whose updates fails on its flush: [apply_inventory_changes] only
    appends to the table of movements; each new movement has
    [stock_after = stock_before + quantity_change], is of type 'Sale',
    carries the batch id and the file note, and negates the total of its
    MSKU in the changes; the new movements and the printed warnings
    together are as many as the changes, and no product is added or
    removed. *)
Theorem sales_movements_audited
    (accepts : DatabaseService.SalesRecord -> bool)
    (now : Z) (batch_id file_notes : string) (changes : list (string * Z))
    (db : DatabaseService.Session) :
  flushes_through accepts now batch_id file_notes changes db = true ->
  exists new,
    DatabaseService.movements
      (DatabaseService.apply_inventory_changes
         accepts now batch_id file_notes changes db).1
    = DatabaseService.movements db ++ new
    /\ Forall (fun mv =>
                 DatabaseService.stock_after mv
                 = (DatabaseService.stock_before mv + DatabaseService.quantity_change mv)%Z
                 /\ DatabaseService.movement_type mv = "Sale"
                 /\ DatabaseService.reference_id mv = Some batch_id
                 /\ DatabaseService.notes mv = Some file_notes
                 /\ (DatabaseService.movement_msku mv,
                     (- DatabaseService.quantity_change mv)%Z) ∈ changes) new
    /\ length new
       + length (DatabaseService.apply_inventory_changes
                   accepts now batch_id file_notes changes db).2
       = length changes
    /\ length (DatabaseService.products
                 (DatabaseService.apply_inventory_changes
                    accepts now batch_id file_notes changes db).1)
       = length (DatabaseService.products db).
Proof.
  intros Hflush.
  rewrite (db_apply_flushed now batch_id file_notes accepts changes db Hflush).
  clear Hflush. revert db. induction changes as [|[m total] changes IH]; intros db.
  - exists []. simpl. by rewrite app_nil_r.
  - cbn [apply_flushed].
    pose proof (db_update_audit now m (- total) "Sale" (Some batch_id) (Some file_notes) db)
      as [Hlen Hone].
    destruct (DatabaseService.try_update now m (- total) "Sale" (Some batch_id)
                (Some file_notes) db) as [db1 [success message]]; simpl in Hlen, Hone.
    destruct (IH db1) as (new & Hnew & Hall & Hcount & Hproducts).
    destruct (apply_flushed now batch_id file_notes changes db1)
      as [db2 printed]; simpl in *.
    assert (Forall (fun mv =>
                 DatabaseService.stock_after mv
                 = (DatabaseService.stock_before mv + DatabaseService.quantity_change mv)%Z
                 /\ DatabaseService.movement_type mv = "Sale"
                 /\ DatabaseService.reference_id mv = Some batch_id
                 /\ DatabaseService.notes mv = Some file_notes
                 /\ (DatabaseService.movement_msku mv,
                     (- DatabaseService.quantity_change mv)%Z) ∈ (m, total) :: changes)
              new) as Hall'.
    { eapply Forall_impl; [exact Hall|]. intros mv (? & ? & ? & ? & ?).
      repeat split; try done. by apply list_elem_of_further. }
    destruct Hone as [(-> & -> & ->)|(-> & before & Hmv)].
    + exists new. split; [done|]. split; [done|]. simpl. split; [lia | congruence].
    + exists (DatabaseService.mkInventoryMovement m "Sale" (- total) before
                (before + - total) (Some batch_id) (Some file_notes) :: new).
      split; [by rewrite Hnew, Hmv, <- app_assoc|].
      split; [|simpl; split; [lia | congruence]].
      constructor; [|done]. simpl. repeat split; try done.
      rewrite Z.opp_involutive. apply list_elem_of_here.
Qed.

Lemma sales_movements_audited_witness :
  exists new,
    DatabaseService.movements
      (DatabaseService.apply_inventory_changes
         Samples.accepts_all 200 "B1" "Sales from a.csv"
         [("MSKU009", 1%Z); ("MSKU002", 6%Z)] Samples.session).1
    = DatabaseService.movements Samples.session ++ new
    /\ Forall (fun mv =>
                 DatabaseService.stock_after mv
                 = (DatabaseService.stock_before mv + DatabaseService.quantity_change mv)%Z
                 /\ DatabaseService.movement_type mv = "Sale"
                 /\ DatabaseService.reference_id mv = Some "B1"
                 /\ DatabaseService.notes mv = Some "Sales from a.csv"
                 /\ (DatabaseService.movement_msku mv,
                     (- DatabaseService.quantity_change mv)%Z)
                    ∈ [("MSKU009", 1%Z); ("MSKU002", 6%Z)]) new
    /\ length new
       + length (DatabaseService.apply_inventory_changes
                   Samples.accepts_all 200 "B1" "Sales from a.csv"
                   [("MSKU009", 1%Z); ("MSKU002", 6%Z)] Samples.session).2
       = length [("MSKU009", 1%Z); ("MSKU002", 6%Z)]
    /\ length (DatabaseService.products
                 (DatabaseService.apply_inventory_changes
                    Samples.accepts_all 200 "B1" "Sales from a.csv"
                    [("MSKU009", 1%Z); ("MSKU002", 6%Z)] Samples.session).1)
       = length (DatabaseService.products Samples.session).
Proof.
  apply (sales_movements_audited Samples.accepts_all 200 "B1" "Sales from a.csv"
           [("MSKU009", 1%Z); ("MSKU002", 6%Z)] Samples.session).
  reflexivity.
Defined.

(** X19.  The stock queries see the sales: after the changes of a file
    are applied (one entry per MSKU) in a batch none of whose updates
    fails on its flush, and with a session that the queries can flush,
    [get_product_by_msku] of an MSKU of the changes that the table holds
    returns the product with stock [C - total]; this product is listed by
    [get_negative_stock_products] exactly when [C - total < 0], and by
    [get_low_stock_products(threshold)] exactly when
    [C - total < threshold]. *)
Theorem stock_queries_after_sales
    (accepts : DatabaseService.SalesRecord -> bool)
    (now : Z) (batch_id file_notes : string) (changes : list (string * Z))
    (db : DatabaseService.Session) (m : string) (total : Z) (p : DatabaseService.Product) :
  flushes_through accepts now batch_id file_notes changes db = true ->
  DatabaseService.flush accepts
    (DatabaseService.apply_inventory_changes accepts now batch_id file_notes changes db).1
  = true ->
  NoDup changes.*1 -> (m, total) ∈ changes ->
  DatabaseStats.get_product_by_msku m db = Some p ->
  let db' := (DatabaseService.apply_inventory_changes
                accepts now batch_id file_notes changes db).1 in
  let p' := DatabaseService.set_stock p (DatabaseService.current_stock p - total) now in
  DatabaseStats.get_product_by_msku m db' = Some p'
  /\ (p' ∈ DatabaseStats.get_negative_stock_products db'
      <-> (DatabaseService.current_stock p - total < 0)%Z)
  /\ forall threshold,
       p' ∈ DatabaseStats.get_low_stock_products threshold db'
       <-> (DatabaseService.current_stock p - total < threshold)%Z.
Proof.
  intros Hflush _ Hnd Hin Hfind db' p'. unfold DatabaseStats.get_product_by_msku in *.
  apply fmap_Some in Hfind as ([i q] & Hfind & ->). simpl in p'.
  pose proof (db_apply_found_entry now batch_id file_notes changes db m total i q
                Hnd Hin Hfind) as Hfound.
  rewrite <- (db_apply_flushed now batch_id file_notes accepts changes db Hflush)
    in Hfound.
  fold db' in Hfound.
  change (DatabaseService.set_stock q (DatabaseService.current_stock q + - total) now)
    with p' in Hfound.
  rewrite Hfound. split; [done|].
  apply db_find_elem in Hfound.
  unfold DatabaseStats.get_negative_stock_products, DatabaseStats.get_low_stock_products.
  split; [|intros threshold]; rewrite list_elem_of_filter; simpl;
    (split; [by intros [? _] | by intros ?]).
Qed.

Lemma stock_queries_after_sales_witness :
  DatabaseStats.get_product_by_msku "MSKU002"
    (DatabaseService.apply_inventory_changes
       Samples.accepts_all 200 "B1" "Sales from a.csv"
       [("MSKU009", 1%Z); ("MSKU002", 6%Z)] Samples.session).1
  = Some (DatabaseService.set_stock Samples.gadget
            (DatabaseService.current_stock Samples.gadget - 6) 200)
  /\ (DatabaseService.set_stock Samples.gadget
        (DatabaseService.current_stock Samples.gadget - 6) 200
      ∈ DatabaseStats.get_negative_stock_products
          (DatabaseService.apply_inventory_changes
             Samples.accepts_all 200 "B1" "Sales from a.csv"
             [("MSKU009", 1%Z); ("MSKU002", 6%Z)] Samples.session).1
      <-> (DatabaseService.current_stock Samples.gadget - 6 < 0)%Z)
  /\ forall threshold,
       DatabaseService.set_stock Samples.gadget
         (DatabaseService.current_stock Samples.gadget - 6) 200
       ∈ DatabaseStats.get_low_stock_products threshold
           (DatabaseService.apply_inventory_changes
              Samples.accepts_all 200 "B1" "Sales from a.csv"
              [("MSKU009", 1%Z); ("MSKU002", 6%Z)] Samples.session).1
       <-> (DatabaseService.current_stock Samples.gadget - 6 < threshold)%Z.
Proof.
  apply (stock_queries_after_sales Samples.accepts_all 200 "B1" "Sales from a.csv"
           [("MSKU009", 1%Z); ("MSKU002", 6%Z)] Samples.session "MSKU002" 6
           Samples.gadget).
  - reflexivity.
  - reflexivity.
  - apply (bool_decide_unpack _). vm_compute. exact I.
  - apply (bool_decide_unpack _). vm_compute. exact I.
  - reflexivity.
Defined.

(** ** The names of the uploaded files *)

Lemma after_last_dot_dotless s :
  dotless s -> Routes.after_last_dot s = None.
Proof.
  unfold dotless. induction s as [|c s IH]; [done|]. simpl.
  intros [Hc Hs]%not_elem_of_cons. rewrite (IH Hs).
  by rewrite bool_decide_eq_false_2.
Qed.

Lemma after_last_dot_append base ext :
  dotless ext -> Routes.after_last_dot (base +:+ "." +:+ ext) = Some ext.
Proof.
  intros Hext. induction base as [|c base IH].
  - change ("" +:+ "." +:+ ext) with (String "."%char ext). simpl.
    by rewrite (after_last_dot_dotless ext Hext).
  - change (String c base +:+ "." +:+ ext) with (String c (base +:+ "." +:+ ext)).
    simpl. by rewrite IH.
Qed.

(** X20.  [allowed_file] judges a name by the text after its last '.',
    in any letter case: a name without '.' is refused, and [base.ext],
    where [ext] has no '.', is accepted exactly when [ext] in lower case
    is 'csv' or 'xlsx', whatever [base] is (also when it is empty or has
    dots of its own). *)
Theorem allowed_file_by_last_extension (ext : string) :
  dotless ext ->
  Routes.allowed_file ext = false
  /\ forall base,
       Routes.allowed_file (base +:+ "." +:+ ext) = true
       <-> lower ext = "csv" \/ lower ext = "xlsx".
Proof.
  intros Hext. unfold Routes.allowed_file. split.
  - by rewrite (after_last_dot_dotless ext Hext).
  - intros base. rewrite (after_last_dot_append base ext Hext).
    rewrite bool_decide_eq_true. unfold Routes.ALLOWED_EXTENSIONS.
    rewrite !elem_of_cons, elem_of_nil. tauto.
Qed.

Lemma allowed_file_by_last_extension_witness :
  Routes.allowed_file "XLSX" = false
  /\ forall base,
       Routes.allowed_file (base +:+ "." +:+ "XLSX") = true
       <-> lower "XLSX" = "csv" \/ lower "XLSX" = "xlsx".
Proof.
  apply (allowed_file_by_last_extension "XLSX").
  apply (bool_decide_unpack _). vm_compute. exact I.
Defined.
